(** * AssetTrack web UI and its REST collaborators

    A shallow embedding of the React pages under
    [app/webapp-ui/frontend/src] (Assets.js, Dashboard.js, Events.js,
    Stats.js, config.js).  The pages are JavaScript, so the data they handle
    is dynamically typed: every response body, form field and caught error
    is a [value], and the operators the pages use ([||], [?.], [!==],
    template literals, [Object.entries], ...) are defined on [value] with
    their ECMAScript meaning.  Built-ins whose result depends on the engine
    or the locale are fields of the class [Platform]. *)

From Stdlib Require Import ZArith NArith String Ascii List Lia Permutation.
From stdpp Require Import base option list gmap strings pretty.

Set Warnings "-register-all".
Open Scope string_scope.

(** ** JavaScript values *)

Module JS.

(** A Number.  Every IEEE-754 binary64 value is [NaN], an infinity or
    [(-1)^negative * m * 2^e]; the model does not bound [m] and [e]. *)
Inductive number :=
| NaN
| Infinity (negative : bool)
| Finite (negative : bool) (m : N) (e : Z).

Definition zero : number := Finite false 0 0.
Definition of_nat (n : nat) : number := Finite false (N.of_nat n) 0.

Definition is_zero (n : number) : bool :=
  match n with
  | Finite _ m _ => (m =? 0)%N
  | _ => false
  end.

Inductive value :=
| VUndefined
| VNull
| VBool (b : bool)
| VNum (n : number)
| VStr (s : string)
| VArr (items : list value)
| VObj (props : list (string * value)).

(** An object is the list of its own enumerable properties in enumeration
    order; [assoc] reads the first binding of a key. *)
Fixpoint assoc (k : string) (props : list (string * value)) : option value :=
  match props with
  | [] => None
  | (k', v) :: rest => if String.eqb k k' then Some v else assoc k rest
  end.

(** ToBoolean *)
Definition truthy (v : value) : bool :=
  match v with
  | VUndefined | VNull => false
  | VBool b => b
  | VNum NaN => false
  | VNum n => negb (is_zero n)
  | VStr s => negb (String.eqb s "")
  | VArr _ | VObj _ => true
  end.

(** [a || b] *)
Definition js_or (a b : value) : value := if truthy a then a else b.

Definition nullish (v : value) : bool :=
  match v with
  | VUndefined | VNull => true
  | _ => false
  end.

(** Numbers as mathematical values, for [===] on numbers:
    [m1 * 2^e1 = m2 * 2^e2]. *)
Definition same_magnitude (m1 : N) (e1 : Z) (m2 : N) (e2 : Z) : bool :=
  let e := Z.min e1 e2 in
  (Z.of_N m1 * 2 ^ (e1 - e) =? Z.of_N m2 * 2 ^ (e2 - e))%Z.

Definition number_eq (a b : number) : bool :=
  match a, b with
  | NaN, _ | _, NaN => false
  | Infinity s1, Infinity s2 => Bool.eqb s1 s2
  | Finite s1 m1 e1, Finite s2 m2 e2 =>
      if (m1 =? 0)%N then (m2 =? 0)%N
      else Bool.eqb s1 s2 && same_magnitude m1 e1 m2 e2
  | _, _ => false
  end.

(** IsStrictlyEqual ([===]).  Values carry no identity here: two objects or
    arrays are compared by structure.  The pages apply [!==] to a form field
    and the same field of the selected asset; a form field holds an object
    only when [openEdit] copied it from that asset, and then both sides are
    the one object. *)
Fixpoint strict_eq (a b : value) : bool :=
  match a, b with
  | VUndefined, VUndefined => true
  | VNull, VNull => true
  | VBool x, VBool y => Bool.eqb x y
  | VNum x, VNum y => number_eq x y
  | VStr x, VStr y => String.eqb x y
  | VArr xs, VArr ys =>
      (fix all2 (xs ys : list value) : bool :=
         match xs, ys with
         | [], [] => true
         | x :: xs', y :: ys' => strict_eq x y && all2 xs' ys'
         | _, _ => false
         end) xs ys
  | VObj ps, VObj qs =>
      (fix all2 (ps qs : list (string * value)) : bool :=
         match ps, qs with
         | [], [] => true
         | (k, x) :: ps', (k', y) :: qs' =>
             String.eqb k k' && strict_eq x y && all2 ps' qs'
         | _, _ => false
         end) ps qs
  | _, _ => false
  end.

Definition strict_neq (a b : value) : bool := negb (strict_eq a b).

(** Code units of a string, as one-character strings. *)
Fixpoint chars (s : string) : list string :=
  match s with
  | EmptyString => []
  | String c rest => String c EmptyString :: chars rest
  end.

Definition index_keys (n : nat) : list string := map (fun i : nat => pretty i) (seq 0 n).

(** A thrown exception or a normal completion. *)
Inductive result (A : Type) :=
| Ok (a : A)
| Throw (e : value).
Arguments Ok {A} a.
Arguments Throw {A} e.

#[global] Instance result_ret : MRet result := fun A a => Ok a.
#[global] Instance result_bind : MBind result := fun A B f r =>
  match r with
  | Ok a => f a
  | Throw e => Throw e
  end.

(** Number of elements of an array. *)
Definition array_length (v : value) : nat :=
  match v with
  | VArr items => length items
  | _ => 0
  end.

(** [new Error(message)] as seen by a handler: an object with [message]. *)
Definition Error (message : string) : value := VObj [("message", VStr message)].

End JS.
Export JS.

Declare Scope js_scope.
Delimit Scope js_scope with js.
Notation "a || b" := (js_or a b) : js_scope.

(** ** Built-ins of the engine *)

(** What the pages call but the repository does not define.  [JSON_parse]
    is [None] where [JSON.parse] throws a SyntaxError; [JSON_stringify] is
    [JSON.stringify(v)] and [JSON_stringify_indent] is
    [JSON.stringify(v, null, 2)], both on a [v] other than [undefined];
    [TypeError_message v k] is the message of the TypeError raised when
    member [k] of [v] cannot be read or called; with [k] the name
    [toString] it is the message raised when [v] cannot be converted to a
    primitive, which is the case when no [toString] of [v] can be called. *)
Class Platform := {
  Number_toString : number -> string;
  JSON_parse : string -> option value;
  JSON_stringify : value -> string;
  JSON_stringify_indent : value -> string;
  trim : string -> string;
  toLowerCase : string -> string;
  TypeError_message : value -> string -> string;
}.

Section Operators.
Context `{Platform}.

Definition TypeError (v : value) (k : string) : value := Error (TypeError_message v k).

(** Own property [k] of a value that is neither [undefined] nor [null].
    The pages read only [length] and data properties, none of which is
    inherited from a prototype. *)
Definition prop (v : value) (k : string) : value :=
  match v with
  | VObj props => default VUndefined (assoc k props)
  | VArr items =>
      if String.eqb k "length" then VNum (of_nat (length items))
      else match list_find (String.eqb k) (index_keys (length items)) with
           | Some (i, _) => default VUndefined (items !! i)
           | None => VUndefined
           end
  | VStr s =>
      if String.eqb k "length" then VNum (of_nat (String.length s))
      else match list_find (String.eqb k) (index_keys (String.length s)) with
           | Some (i, _) => from_option VStr VUndefined (chars s !! i)
           | None => VUndefined
           end
  | _ => VUndefined
  end.

(** [v.k] *)
Definition get (v : value) (k : string) : result value :=
  if nullish v then Throw (TypeError v k) else Ok (prop v k).

(** [v?.k] *)
Definition opt_get (v : value) (k : string) : value :=
  if nullish v then VUndefined else prop v k.

(** Whether [v] converts to a primitive.  A value here is data (a response
    body, a form field, a caught error), so a property of an object is never
    a function: an object converts through the [toString] it inherits from
    [Object.prototype] unless a property of its own named [toString] hides
    it, in which case neither [toString] nor the inherited [valueOf] yields
    a primitive and the conversion throws a TypeError.  An array converts
    through [join], which converts every element that is neither
    [undefined] nor [null]. *)
Fixpoint convertible (v : value) : bool :=
  match v with
  | VObj props =>
      match assoc "toString" props with
      | Some _ => false
      | None => true
      end
  | VArr items => forallb (fun x => nullish x || convertible x) items
  | _ => true
  end.

(** ToPrimitive, as applied by [new Date(v)] and by ['' + v]: [v] itself
    stands for the primitive, which the callers only pass on. *)
Definition ToPrimitive (v : value) : result value :=
  if convertible v then Ok v else Throw (TypeError v "toString").

(** ToString, as applied by a template literal: the text of a [v] that is
    [convertible].  The handlers and the rows of events that use it are
    stated for such values; on any other the template literal throws a
    TypeError where this function gives a text. *)
Fixpoint ToString (v : value) : string :=
  match v with
  | VUndefined => "undefined"
  | VNull => "null"
  | VBool true => "true"
  | VBool false => "false"
  | VNum n => Number_toString n
  | VStr s => s
  | VArr items =>
      String.concat "," (map (fun x => if nullish x then "" else ToString x) items)
  | VObj _ => "[object Object]"
  end.

(** [Object.entries(v)] and [Object.keys(v)] *)
Definition Object_entries (v : value) : result (list (string * value)) :=
  match v with
  | VUndefined | VNull => Throw (TypeError v "entries")
  | VObj props => Ok props
  | VArr items => Ok (zip (index_keys (length items)) items)
  | VStr s => Ok (zip (index_keys (String.length s)) (map VStr (chars s)))
  | VBool _ | VNum _ => Ok []
  end.

Definition Object_keys (v : value) : result (list string) :=
  entries ← Object_entries v; mret (map fst entries).

(** [v.slice(0, n)] *)
Definition slice0 (n : nat) (v : value) : result value :=
  match v with
  | VArr items => Ok (VArr (take n items))
  | VStr s => Ok (VStr (String.substring 0 n s))
  | _ => Throw (TypeError v "slice")
  end.

(** [v.map(f)], where [f] receives the element and its index. *)
Definition Array_map {A} (f : nat -> value -> result A) (v : value) : result (list A) :=
  match v with
  | VArr items => mapM (fun '(i, x) => f i x) (zip (seq 0 (length items)) items)
  | _ => Throw (TypeError v "map")
  end.

(** [v.toLowerCase()] *)
Definition call_toLowerCase (v : value) : result string :=
  match v with
  | VStr s => Ok (toLowerCase s)
  | _ => Throw (TypeError v "toLowerCase")
  end.

(** [o[k] = v] on an object literal under construction. *)
Fixpoint assign (k : string) (v : value) (props : list (string * value)) : list (string * value) :=
  match props with
  | [] => [(k, v)]
  | (k', v') :: rest =>
      if String.eqb k k' then (k, v) :: rest else (k', v') :: assign k v rest
  end.

End Operators.

(** ** The browser around a page: network, dialogs, console *)

Inductive method := GET | POST | PUT | DELETE.

Record Request := {
  req_method : method;
  req_url : string;
  req_body : option value;
}.

(** How an axios promise settles: with the body of a 2xx response, or
    rejected with an error object. *)
Inductive Response :=
| Resolve (data : value)
| Reject (err : value).

(** The REST collaborator behind the pages. *)
Class Server := {
  store : Type;
  serve : Request -> store -> Response * store;
}.

Inductive Effect :=
| Http (r : Request)
| Alert (message : value)
| Confirm (message : string)
| ConsoleError (label : string) (e : value).

Section Browser.
Context `{Platform} `{Server}.

(** [page] is the React state of the mounted component, [backend] the state
    of the REST collaborator, [answers] what the user replies to a
    [window.confirm] prompt and [trace] what the page has done so far,
    oldest first. *)
Record World (S : Type) := {
  page : S;
  backend : store;
  answers : string -> bool;
  trace : list Effect;
}.
Arguments page {S} w.
Arguments backend {S} w.
Arguments answers {S} w.
Arguments trace {S} w.

Definition M (S A : Type) : Type := World S -> result A * World S.

#[global] Instance M_ret {S} : MRet (M S) := fun A a w => (Ok a, w).
#[global] Instance M_bind {S} : MBind (M S) := fun A B f m w =>
  match m w with
  | (Ok a, w') => f a w'
  | (Throw e, w') => (Throw e, w')
  end.

Definition lift {S A} (r : result A) : M S A := fun w => (r, w).

(** [try { body } catch (e) { handler e }] *)
Definition try_catch {S A} (body : M S A) (handler : value -> M S A) : M S A :=
  fun w =>
    match body w with
    | (Ok a, w') => (Ok a, w')
    | (Throw e, w') => handler e w'
    end.

(** [try { body } finally { fin }] *)
Definition try_finally {S A} (body : M S A) (fin : M S unit) : M S A :=
  fun w =>
    match body w with
    | (r, w') =>
        match fin w' with
        | (Ok _, w'') => (r, w'')
        | (Throw e, w'') => (Throw e, w'')
        end
    end.

(** Runs [m] and hands back how it completed, as a promise does. *)
Definition settle {S A} (m : M S A) : M S (result A) :=
  fun w => match m w with (r, w') => (Ok r, w') end.

Definition modify {S} (f : S -> S) : M S unit :=
  fun w => (Ok tt, {| page := f (page w); backend := backend w;
                      answers := answers w; trace := trace w |}).

Definition emit {S} (e : Effect) : M S unit :=
  fun w => (Ok tt, {| page := page w; backend := backend w;
                      answers := answers w; trace := trace w ++ [e] |}).

(** One axios call: the request is recorded, the collaborator serves it, and
    the call yields the response object or throws the rejection. *)
Definition axios {S} (r : Request) : M S value :=
  fun w =>
    match serve r (backend w) with
    | (rsp, b') =>
        let w' := {| page := page w; backend := b'; answers := answers w;
                     trace := trace w ++ [Http r] |} in
        match rsp with
        | Resolve data => (Ok (VObj [("data", data)]), w')
        | Reject err => (Throw err, w')
        end
    end.

Definition axios_get {S} (url : string) : M S value :=
  axios {| req_method := GET; req_url := url; req_body := None |}.
Definition axios_post {S} (url : string) (body : value) : M S value :=
  axios {| req_method := POST; req_url := url; req_body := Some body |}.
Definition axios_put {S} (url : string) (body : value) : M S value :=
  axios {| req_method := PUT; req_url := url; req_body := Some body |}.
Definition axios_delete {S} (url : string) : M S value :=
  axios {| req_method := DELETE; req_url := url; req_body := None |}.

Definition alert {S} (message : value) : M S unit := emit (Alert message).
Definition console_error {S} (label : string) (e : value) : M S unit :=
  emit (ConsoleError label e).

(** [window.confirm(message)] *)
Definition window_confirm {S} (message : string) : M S bool :=
  fun w =>
    (Ok (answers w message),
     {| page := page w; backend := backend w; answers := answers w;
        trace := trace w ++ [Confirm message] |}).

End Browser.

Arguments page {_ S} w.
Arguments backend {_ S} w.
Arguments answers {_ S} w.
Arguments trace {_ S} w.

(** The requests among a list of effects. *)
Definition requests (t : list Effect) : list Request :=
  omap (fun e => match e with Http r => Some r | _ => None end) t.

(** ** config.js *)

Module Config.

Definition API_BASE_URL : string := "/api".

(** The object [ENDPOINTS]. *)
Module ENDPOINTS.
Definition ASSETS : string := API_BASE_URL ++ "/assets".
Definition EVENTS : string := API_BASE_URL ++ "/events".
Definition STATS : string := API_BASE_URL ++ "/stats".
Definition HEALTH : string := API_BASE_URL ++ "/healthz".
End ENDPOINTS.

End Config.
Export Config.

(** ** What a component renders *)

(** A React element: a component or tag with the properties that carry
    content and its children.  Layout and styling properties ([variant],
    [sx], [spacing], grid sizes, ...) are left out.  [Val v] is a JavaScript
    value placed in the tree by [{...}], [LocaleDate v] the text
    [new Date(v).toLocaleString()] of a [v] that is [convertible], which
    depends on the locale and the time zone of the browser, and [Concat] a
    template literal with such a part. *)
Inductive elem :=
| El (tag : string) (props : list (string * elem)) (children : list elem)
| Text (s : string)
| Val (v : value)
| LocaleDate (v : value)
| Concat (parts : list elem).

(** [{cond && element}] *)
Definition when (cond : value) (e : elem) : elem :=
  if truthy cond then e else Val cond.

Definition spinner : elem := El "Box" [] [El "CircularProgress" [] []].
Definition error_alert (error : value) : elem :=
  El "Alert" [("severity", Text "error")] [Val error].

(** [new Date(v).toLocaleString()]: the constructor converts [v] to a
    primitive first, and throws when it cannot. *)
Definition new_Date `{Platform} (v : value) : result elem :=
  _ ← ToPrimitive v; mret (LocaleDate v).

(** ** pages/Assets.js *)

Module Assets.

Record Form := {
  name : value;
  type : value;
  location : value;
  status : value;
  metadataText : string;
}.

(** The [useState] cells of the component. *)
Record State := {
  assets : value;
  loading : bool;
  error : value;
  addOpen : bool;
  editOpen : bool;
  viewOpen : bool;
  selected : value;
  form : Form;
}.

Definition blank_metadata : string :=
  String "{" (String "010" (String " " (String " " (String "010" (String "}" EmptyString))))).

Definition empty_form : Form :=
  {| name := VStr ""; type := VStr ""; location := VStr "";
     status := VStr "active"; metadataText := blank_metadata |}.

Definition initial : State :=
  {| assets := VArr []; loading := true; error := VNull;
     addOpen := false; editOpen := false; viewOpen := false;
     selected := VNull; form := empty_form |}.

Definition setAssets (v : value) (s : State) : State :=
  {| assets := v; loading := loading s; error := error s; addOpen := addOpen s;
     editOpen := editOpen s; viewOpen := viewOpen s; selected := selected s;
     form := form s |}.
Definition setLoading (b : bool) (s : State) : State :=
  {| assets := assets s; loading := b; error := error s; addOpen := addOpen s;
     editOpen := editOpen s; viewOpen := viewOpen s; selected := selected s;
     form := form s |}.
Definition setError (v : value) (s : State) : State :=
  {| assets := assets s; loading := loading s; error := v; addOpen := addOpen s;
     editOpen := editOpen s; viewOpen := viewOpen s; selected := selected s;
     form := form s |}.
Definition setAddOpen (b : bool) (s : State) : State :=
  {| assets := assets s; loading := loading s; error := error s; addOpen := b;
     editOpen := editOpen s; viewOpen := viewOpen s; selected := selected s;
     form := form s |}.
Definition setEditOpen (b : bool) (s : State) : State :=
  {| assets := assets s; loading := loading s; error := error s; addOpen := addOpen s;
     editOpen := b; viewOpen := viewOpen s; selected := selected s;
     form := form s |}.
Definition setViewOpen (b : bool) (s : State) : State :=
  {| assets := assets s; loading := loading s; error := error s; addOpen := addOpen s;
     editOpen := editOpen s; viewOpen := b; selected := selected s;
     form := form s |}.
Definition setSelected (v : value) (s : State) : State :=
  {| assets := assets s; loading := loading s; error := error s; addOpen := addOpen s;
     editOpen := editOpen s; viewOpen := viewOpen s; selected := v;
     form := form s |}.
Definition setForm (f : Form) (s : State) : State :=
  {| assets := assets s; loading := loading s; error := error s; addOpen := addOpen s;
     editOpen := editOpen s; viewOpen := viewOpen s; selected := selected s;
     form := f |}.

Section Handlers.
Context `{Platform} `{Server}.

Local Open Scope js_scope.

Definition fetchAssets : M State unit :=
  try_finally
    (try_catch
       (response ← axios_get ENDPOINTS.ASSETS;
        data ← lift (get response "data");
        modify (setAssets data))
       (fun err =>
          modify (setError (VStr "Failed to load assets"));;
          console_error "Error fetching assets:" err))
    (modify (setLoading false)).

Definition resetForm : M State unit := modify (setForm empty_form).

Definition openAdd : M State unit := resetForm;; modify (setAddOpen true).

Definition openEdit (asset : value) : M State unit :=
  modify (setSelected asset);;
  a_name ← lift (get asset "name");
  a_type ← lift (get asset "type");
  a_location ← lift (get asset "location");
  a_status ← lift (get asset "status");
  a_metadata ← lift (get asset "metadata");
  modify (setForm
    {| name := a_name || VStr "";
       type := a_type || VStr "";
       location := a_location || VStr "";
       status := a_status || VStr "active";
       metadataText := JSON_stringify_indent (a_metadata || VObj []) |});;
  modify (setEditOpen true).

Definition openView (asset : value) : M State unit :=
  modify (setSelected asset);; modify (setViewOpen true).

Definition closeAll : M State unit :=
  modify (setAddOpen false);; modify (setEditOpen false);;
  modify (setViewOpen false);; modify (setSelected VNull).

(** [parseMetadata], closed over the rendered [form]. *)
Definition parseMetadata (form : Form) : result value :=
  if truthy (VStr (trim (metadataText form))) then
    match JSON_parse (metadataText form) with
    | Some v => Ok v
    | None => Throw (Error "Metadata must be valid JSON")
    end
  else Ok (VObj []).

(** The handlers read [form] and [selected] of the render they were created
    in, which is the state [s] the user acted on. *)
Definition handleAddSubmit (s : State) : M State unit :=
  try_catch
    (metadata ← lift (parseMetadata (form s));
     let payload := VObj [("name", name (form s)); ("type", type (form s));
                          ("location", location (form s)); ("metadata", metadata)] in
     axios_post ENDPOINTS.ASSETS payload;;
     closeAll;;
     modify (setLoading true);;
     fetchAssets)
    (fun e => alert (opt_get e "message" || VStr "Failed to add asset")).

(** The object [update] once the five comparisons are done. *)
Definition edit_update (form : Form) (selected : value) : result value :=
  let update := [] in
  s_name ← get selected "name";
  let update := if strict_neq (name form) s_name then assign "name" (name form) update else update in
  s_type ← get selected "type";
  let update := if strict_neq (type form) s_type then assign "type" (type form) update else update in
  s_location ← get selected "location";
  let update := if strict_neq (location form) s_location
                then assign "location" (location form) update else update in
  f_status ← call_toLowerCase (status form || VStr "");
  s_status ← get selected "status";
  s_status ← call_toLowerCase (s_status || VStr "");
  let update := if negb (String.eqb f_status s_status)
                then assign "status" (status form) update else update in
  newMeta ← parseMetadata form;
  s_metadata ← get selected "metadata";
  let update := if negb (String.eqb (JSON_stringify newMeta)
                                    (JSON_stringify (s_metadata || VObj [])))
                then assign "metadata" newMeta update else update in
  mret (VObj update).

Definition handleEditSubmit (s : State) : M State unit :=
  try_catch
    (update ← lift (edit_update (form s) (selected s));
     id ← lift (get (selected s) "id");
     axios_put (ENDPOINTS.ASSETS ++ "/" ++ ToString id) update;;
     closeAll;;
     modify (setLoading true);;
     fetchAssets)
    (fun e => alert (opt_get e "message" || VStr "Failed to update asset")).

Definition handleDelete (asset : value) : M State unit :=
  a_name ← lift (get asset "name");
  confirmed ← window_confirm ("Delete asset " ++ ToString a_name ++ "?");
  if negb confirmed then mret tt
  else
    try_catch
      (id ← lift (get asset "id");
       axios_delete (ENDPOINTS.ASSETS ++ "/" ++ ToString id);;
       modify (setLoading true);;
       fetchAssets)
      (fun e => alert (VStr "Failed to delete asset")).

Definition getStatusColor (status : value) : result string :=
  if nullish status then mret "default"
  else
    lower ← call_toLowerCase status;
    mret (if String.eqb lower "active" then "success"
          else if String.eqb lower "inactive" then "error"
          else if String.eqb lower "maintenance" then "warning"
          else "default").

(** A button or field bound to a handler: the handler is named, with the
    argument it is called on as its child. *)
Definition bound (handler : string) (args : list elem) : elem := El handler [] args.

Definition action_button (label : string) (handler : string) (glyph : string)
    (asset : value) : elem :=
  El "Tooltip" [("title", Text label)]
    [El "IconButton" [("onClick", bound handler [Val asset])] [El glyph [] []]].

(** One row of the table.  The children are evaluated first; React then
    turns a [key] other than [undefined] into a text by ['' + key] while it
    creates the TableRow element. *)
Definition row (asset : value) : result elem :=
  id ← get asset "id";
  a_name ← get asset "name";
  a_type ← get asset "type";
  a_location ← get asset "location";
  a_status ← get asset "status";
  chip_color ← getStatusColor a_status;
  last_updated ← get asset "last_updated";
  date ← new_Date last_updated;
  _ ← ToPrimitive id;
  mret (El "TableRow" [("key", Val id)] [
    El "TableCell" [] [Val id];
    El "TableCell" [] [Val a_name];
    El "TableCell" [] [Val a_type];
    El "TableCell" [] [Val a_location];
    El "TableCell" [] [El "Chip" [("label", Val a_status); ("color", Text chip_color)] []];
    El "TableCell" [] [date];
    El "TableCell" [] [action_button "View Details" "openView" "Visibility" asset;
                       action_button "Edit Asset" "openEdit" "Edit" asset;
                       action_button "Delete Asset" "handleDelete" "Delete" asset]]).

Definition table_head : elem :=
  El "TableHead" [] [El "TableRow" []
    (map (fun h => El "TableCell" [] [Text h])
       ["ID"; "Name"; "Type"; "Location"; "Status"; "Last Updated"; "Actions"])].

Definition text_field (label : string) (field : string) (v : value) : elem :=
  El "TextField" [("label", Text label); ("value", Val v);
                  ("onChange", bound "setForm" [Text field])] [].

(** The View dialog. *)
Definition view_dialog (s : State) : elem :=
  El "Dialog" [("open", Val (VBool (viewOpen s))); ("onClose", bound "closeAll" [])] [
    El "DialogTitle" [] [Text "Asset Details"];
    El "DialogContent" []
      [when (selected s) (El "pre" [] [Text (JSON_stringify_indent (selected s))])];
    El "DialogActions" [] [El "Button" [("onClick", bound "closeAll" [])] [Text "Close"]]].

(** The dialog shared by Add and Edit. *)
Definition form_dialog (s : State) : elem :=
  El "Dialog" [("open", Val (VBool (addOpen s || editOpen s)));
               ("onClose", bound "closeAll" [])] [
    El "DialogTitle" [] [Text (if addOpen s then "Add Asset" else "Edit Asset")];
    El "DialogContent" [] [El "Stack" [] [
      text_field "Name" "name" (name (form s));
      text_field "Type" "type" (type (form s));
      text_field "Location" "location" (location (form s));
      El "TextField" [("label", Text "Status"); ("value", Val (status (form s)));
                      ("onChange", bound "setForm" [Text "status"])]
        [El "MenuItem" [("value", Text "active")] [Text "Active"];
         El "MenuItem" [("value", Text "inactive")] [Text "Inactive"];
         El "MenuItem" [("value", Text "maintenance")] [Text "Maintenance"]];
      text_field "Metadata (JSON)" "metadataText" (VStr (metadataText (form s)))]];
    El "DialogActions" [] [
      El "Button" [("onClick", bound "closeAll" [])] [Text "Cancel"];
      if addOpen s
      then El "Button" [("onClick", bound "handleAddSubmit" [])] [Text "Create"]
      else El "Button" [("onClick", bound "handleEditSubmit" [])] [Text "Save"]]].

(** What the component returns for a state; [Throw] when rendering throws. *)
Definition render (s : State) : result elem :=
  if loading s then mret spinner
  else if truthy (error s) then mret (error_alert (error s))
  else
    len ← get (assets s) "length";
    body ← (if strict_eq len (VNum zero)
            then mret [El "TableRow" [] [El "TableCell" []
                         [El "Typography" [] [Text "No assets found"]]]]
            else Array_map (fun _ asset => row asset) (assets s));
    mret (El "Box" [] [
      El "Typography" [] [Text "Assets"];
      El "Box" [] [El "Button" [("onClick", bound "openAdd" [])] [Text "Add Asset"]];
      El "TableContainer" [] [El "Table" [] [table_head; El "TableBody" [] body]];
      view_dialog s;
      form_dialog s]).

End Handlers.

End Assets.

(** ** pages/Dashboard.js *)

Module Dashboard.

Record State := {
  stats : value;
  loading : bool;
  error : value;
  events : value;
  sysMetrics : value;
}.

Definition initial : State :=
  {| stats := VNull; loading := true; error := VNull; events := VArr [];
     sysMetrics := VNull |}.

Definition setStats (v : value) (s : State) : State :=
  {| stats := v; loading := loading s; error := error s; events := events s;
     sysMetrics := sysMetrics s |}.
Definition setLoading (b : bool) (s : State) : State :=
  {| stats := stats s; loading := b; error := error s; events := events s;
     sysMetrics := sysMetrics s |}.
Definition setError (v : value) (s : State) : State :=
  {| stats := stats s; loading := loading s; error := v; events := events s;
     sysMetrics := sysMetrics s |}.
Definition setEvents (v : value) (s : State) : State :=
  {| stats := stats s; loading := loading s; error := error s; events := v;
     sysMetrics := sysMetrics s |}.
Definition setSysMetrics (v : value) (s : State) : State :=
  {| stats := stats s; loading := loading s; error := error s; events := events s;
     sysMetrics := v |}.

Record card := {
  title : string;
  value_ : value;
  icon : string;
  color : string;
}.

Section Page.
Context `{Platform} `{Server}.

Local Open Scope js_scope.

(** [Promise.all] over three settled calls.  All three requests have been
    issued by then; the rejection passed on is that of the first failed
    call in array order (the order in which the calls settle is not
    modelled). *)
Definition Promise_all3 {A} (a b c : result A) : result (A * A * A) :=
  x ← a; y ← b; z ← c; mret (x, y, z).

Definition fetchAll : M State unit :=
  try_finally
    (try_catch
       (ps ← settle (axios_get "/api/stats");
        pe ← settle (axios_get "/api/events");
        pm ← settle (try_catch (axios_get "/api/system/metrics")
                       (fun _ => mret (VObj [("data", VObj [("available", VBool false)])])));
        '(s, e, m) ← lift (Promise_all3 ps pe pm);
        s_data ← lift (get s "data");
        modify (setStats s_data);;
        e_data ← lift (get e "data");
        recent ← lift (slice0 5 (e_data || VArr []));
        modify (setEvents recent);;
        m_data ← lift (get m "data");
        modify (setSysMetrics (m_data || VNull)))
       (fun err =>
          modify (setError (VStr "Failed to load dashboard data"));;
          console_error "Error fetching dashboard:" err))
    (modify (setLoading false)).

Definition statCards (stats : value) : list card :=
  [ {| title := "Total Assets";
       value_ := opt_get stats "total_assets" || VNum zero;
       icon := "Storage"; color := "#1976d2" |};
    {| title := "Events Processed";
       value_ := opt_get stats "total_events_processed" || VNum zero;
       icon := "Timeline"; color := "#dc004e" |};
    {| title := "Active Assets";
       value_ := opt_get stats "active_assets" || VNum zero;
       icon := "Speed"; color := "#2e7d32" |};
    {| title := "System Health";
       value_ := VStr "Healthy";
       icon := "Assessment"; color := "#0288d1" |} ].

Definition render_card (c : card) : elem :=
  El "Grid" [] [El "Card" [] [El "CardContent" [] [El "Box" [] [
    El "Box" [] [El "Typography" [] [Text (title c)];
                 El "Typography" [] [Val (value_ c)]];
    El "Box" [("color", Text (color c))] [El (icon c) [] []]]]]].

Definition metric_card (label : string) (body : string) (v : value) : elem :=
  El "Grid" [] [El "Card" [] [El "CardContent" [] [
    El "Typography" [] [Text label];
    El body [] [Val (v || VStr "-")]]]].

(** The block guarded by [sysMetrics?.available]. *)
Definition hostHealth (sysMetrics : value) : result elem :=
  summary ← get sysMetrics "summary";
  os_kernel ← get summary "os_kernel";
  uptime ← get summary "uptime";
  loadavg ← get summary "loadavg";
  processes_top ← get summary "processes_top";
  disk ← get summary "disk";
  network ← get summary "network";
  mret (El "Box" [] [
    El "Typography" [] [Text "Host Health"];
    El "Grid" [] [
      metric_card "OS / Kernel" "Typography" os_kernel;
      metric_card "Uptime" "Typography" uptime;
      metric_card "Load Average" "Typography" loadavg;
      metric_card "Top Processes" "pre" processes_top;
      metric_card "Disk" "pre" disk;
      metric_card "Network" "pre" network]]).

(** The primary line of an event, shared in shape with the Events page. *)
Definition eventTitle (ev : value) : result string :=
  event_type ← get ev "event_type";
  if strict_eq event_type (VStr "system_metrics") then mret "System metrics"
  else asset_id ← get ev "asset_id"; mret ("Asset: " ++ ToString asset_id).

Definition recentItem (n : nat) (idx : nat) (ev : value) : result elem :=
  heading ← eventTitle ev;
  event_type ← get ev "event_type";
  node_id ← get ev "node_id";
  timestamp ← get ev "timestamp";
  mret (El "Fragment" [] [
    El "ListItem" [] [El "ListItemText"
      [("primary", El "Box" [] [El "Typography" [] [Text heading];
                                El "Chip" [("label", Val event_type)] []]);
       ("secondary", Concat [Text ("Node: " ++ ToString (node_id || VStr "-") ++ " · ");
                             LocaleDate timestamp])] []];
    if (Z.of_nat idx <? Z.of_nat n - 1)%Z then El "Divider" [] [] else Val (VBool false)]).

Definition recentActivity (events : value) : result elem :=
  len ← get events "length";
  body ← (if strict_eq len (VNum zero)
          then mret (El "Typography" [] [Text "No recent events"])
          else items ← Array_map (recentItem (array_length events)) events;
               mret (El "List" [] items));
  mret (El "Box" [] [El "Typography" [] [Text "Recent Activity"];
                     El "Card" [] [El "CardContent" [] [body]]]).

(** What the component returns for a state; [Throw] when rendering throws. *)
Definition render (s : State) : result elem :=
  if loading s then mret spinner
  else if truthy (error s) then mret (error_alert (error s))
  else
    let available := opt_get (sysMetrics s) "available" in
    host ← (if truthy available then hostHealth (sysMetrics s) else mret (Val available));
    recent ← recentActivity (events s);
    mret (El "Box" [] [
      El "Typography" [] [Text "Dashboard"];
      El "Grid" [] (map render_card (statCards (stats s)));
      host;
      recent]).

End Page.

End Dashboard.

(** ** pages/Stats.js *)

Module Stats.

Record State := {
  stats : value;
  loading : bool;
  error : value;
}.

Definition initial : State := {| stats := VNull; loading := true; error := VNull |}.

Definition setStats (v : value) (s : State) : State :=
  {| stats := v; loading := loading s; error := error s |}.
Definition setLoading (b : bool) (s : State) : State :=
  {| stats := stats s; loading := b; error := error s |}.
Definition setError (v : value) (s : State) : State :=
  {| stats := stats s; loading := loading s; error := v |}.

Section Page.
Context `{Platform} `{Server}.

Local Open Scope js_scope.

Definition fetchStats : M State unit :=
  try_finally
    (try_catch
       (response ← axios_get "/api/stats";
        data ← lift (get response "data");
        modify (setStats data))
       (fun err =>
          modify (setError (VStr "Failed to load statistics"));;
          console_error "Error fetching stats:" err))
    (modify (setLoading false)).

(** One bar of the chart: [{type, count}]. *)
Definition bar (entry : string * value) : value :=
  VObj [("type", VStr (fst entry)); ("count", snd entry)].

Definition chartData (stats : value) : result (list value) :=
  if truthy (opt_get stats "events_by_type") then
    events_by_type ← get stats "events_by_type";
    entries ← Object_entries events_by_type;
    mret (map bar entries)
  else mret [].

(** The figure above "Total Events Processed" and above "Events Today". *)
Definition totalEvents (stats : value) : value :=
  opt_get stats "total_events_processed" || VNum zero.

(** The figure above "Event Types". *)
Definition eventTypes (stats : value) : result nat :=
  ks ← Object_keys (opt_get stats "events_by_type" || VObj []);
  mret (length ks).

Definition figure (v : elem) (caption : string) : elem :=
  El "Grid" [] [El "Box" [] [El "Typography" [] [v]; El "Typography" [] [Text caption]]].

Definition render (s : State) : result elem :=
  if loading s then mret spinner
  else if truthy (error s) then mret (error_alert (error s))
  else
    data ← chartData (stats s);
    let last_processed := opt_get (stats s) "last_processed" in
    processed ← (if truthy last_processed
                 then date ← new_Date last_processed;
                      mret (El "Typography" [] [Text "Last processed: "; date])
                 else mret (Val last_processed));
    types ← eventTypes (stats s);
    mret (El "Box" [] [
      El "Typography" [] [Text "Statistics"];
      El "Grid" [] [
        El "Grid" [] [El "Card" [] [El "CardContent" [] [
          El "Typography" [] [Text "Event Statistics"];
          El "Typography" [] [Val (totalEvents (stats s))];
          El "Typography" [] [Text "Total Events Processed"];
          processed]]];
        El "Grid" [] [El "Card" [] [El "CardContent" [] [
          El "Typography" [] [Text "Events by Type"];
          if (0 <? length data)%nat
          then El "ResponsiveContainer" [] [
                 El "BarChart" [("data", Val (VArr data))] [
                   El "CartesianGrid" [] [];
                   El "XAxis" [("dataKey", Text "type")] [];
                   El "YAxis" [] [];
                   El "Tooltip" [] [];
                   El "Bar" [("dataKey", Text "count")] []]]
          else El "Typography" [] [Text "No event data available"]]]];
        El "Grid" [] [El "Card" [] [El "CardContent" [] [
          El "Typography" [] [Text "System Overview"];
          El "Grid" [] [
            figure (Val (totalEvents (stats s))) "Events Today";
            figure (Val (VNum (of_nat types))) "Event Types";
            figure (Text "Active") "System Status";
            figure (Text "99.9%") "Uptime"]]]]]]).

End Page.

End Stats.

(** ** pages/Events.js *)

Module Events.

Record State := {
  events : value;
  loading : bool;
  error : value;
}.

Definition initial : State := {| events := VArr []; loading := true; error := VNull |}.

Definition setEvents (v : value) (s : State) : State :=
  {| events := v; loading := loading s; error := error s |}.
Definition setLoading (b : bool) (s : State) : State :=
  {| events := events s; loading := b; error := error s |}.
Definition setError (v : value) (s : State) : State :=
  {| events := events s; loading := loading s; error := v |}.

Section Page.
Context `{Platform} `{Server}.

Local Open Scope js_scope.

Definition fetchEvents : M State unit :=
  try_finally
    (try_catch
       (response ← axios_get "/api/events";
        data ← lift (get response "data");
        modify (setEvents data))
       (fun err =>
          modify (setError (VStr "Failed to load events"));;
          console_error "Error fetching events:" err))
    (modify (setLoading false)).

Definition getEventTypeColor (eventType : value) : result string :=
  if nullish eventType then mret "default"
  else
    lower ← call_toLowerCase eventType;
    mret (if String.eqb lower "create" then "success"
          else if String.eqb lower "update" then "info"
          else if String.eqb lower "delete" then "error"
          else if String.eqb lower "maintenance" then "warning"
          else if String.eqb lower "system_metrics" then "primary"
          else "default").

Definition block (label : string) (v : value) : list elem :=
  [El "Typography" [] [Text label]; El "pre" [] [Val (v || VStr "-")]].

Definition renderSystemMetrics (event : value) : result elem :=
  let d := opt_get event "data" || VObj [] in
  node_id ← get event "node_id";
  timestamp ← get event "timestamp";
  mret (El "Box" [] [
    El "Typography" [] [Text "Host"];
    El "Typography" [] [Text "Node: "; Val (node_id || VStr "-"); Text " · Time: ";
                        LocaleDate timestamp];
    El "Box" [] (block "CPU / Memory" (prop d "cpu_mem"));
    El "Box" [] (block "Disk" (prop d "disk"));
    El "Box" [] (block "OS / Kernel" (prop d "os_kernel")
                 ++ [when (prop d "lsb_release") (El "pre" [] [Val (prop d "lsb_release")])]);
    El "Grid" [] [El "Grid" [] (block "Users" (prop d "users"));
                  El "Grid" [] (block "Top Processes" (prop d "processes_top"))];
    El "Box" [] (block "Network" (prop d "network"));
    El "Grid" [] [El "Grid" [] (block "Uptime" (prop d "uptime"));
                  El "Grid" [] (block "Load Average" (prop d "loadavg"))]]).

(** The primary line of an event. *)
Definition eventTitle (event : value) : result string :=
  event_type ← get event "event_type";
  if strict_eq event_type (VStr "system_metrics") then mret "System metrics"
  else asset_id ← get event "asset_id"; mret ("Asset: " ++ ToString asset_id).

(** The secondary block of an event that is not a system_metrics one. *)
Definition renderDetails (event : value) : result elem :=
  node_id ← get event "node_id";
  timestamp ← get event "timestamp";
  data ← get event "data";
  extra ← (if truthy data then
             ks ← Object_keys data;
             mret (if (0 <? length ks)%nat
                   then El "Typography" [] [Text "Data: "; Text (JSON_stringify data)]
                   else Val (VBool false))
           else mret (Val data));
  mret (El "Box" [] [
    El "Typography" [] [Text "Node: "; Val node_id];
    El "Typography" [] [Text "Time: "; LocaleDate timestamp];
    extra]).

Definition item (n : nat) (index : nat) (event : value) : result elem :=
  heading ← eventTitle event;
  event_type ← get event "event_type";
  chip_color ← getEventTypeColor event_type;
  secondary ← (if strict_eq event_type (VStr "system_metrics")
               then renderSystemMetrics event else renderDetails event);
  mret (El "Fragment" [] [
    El "ListItem" [] [El "ListItemText"
      [("primary", El "Box" [] [El "Typography" [] [Text heading];
                                El "Chip" [("label", Val event_type);
                                           ("color", Text chip_color)] []]);
       ("secondary", secondary)] []];
    if (Z.of_nat index <? Z.of_nat n - 1)%Z then El "Divider" [] [] else Val (VBool false)]).

Definition render (s : State) : result elem :=
  if loading s then mret spinner
  else if truthy (error s) then mret (error_alert (error s))
  else
    len ← get (events s) "length";
    body ← (if strict_eq len (VNum zero)
            then mret (El "Box" [] [El "Typography" [] [Text "No events found"]])
            else items ← Array_map (item (array_length (events s))) (events s);
                 mret (El "List" [] items));
    mret (El "Box" [] [El "Typography" [] [Text "Events"]; El "Paper" [] [body]]).

End Page.

End Events.

(** ** The Processor / Store behind the REST surface *)

(** The processor-service and the api-service are not among the sources;
    this module follows sections 3, 4.4 and 6 of the specification. *)
Module Processor.

(** Modelled from the spec: the enumerated [event_type] of an Envelope
    (section 3). *)
Inductive EventType := create | update | delete | maintenance | system_metrics.

(** Modelled from the spec: the enumerated [status] of an Asset (section
    3): active, inactive, maintenance. *)
Inductive Status := active | inactive | under_maintenance.

(** Modelled from the spec: the Event Envelope of section 3; the
    processor-service that consumes it is not among the sources. *)
Record Envelope := {
  event_id : string;
  event_type : EventType;
  node_id : string;
  asset_id : option N;
  timestamp : N;
  data : list (string * value);
}.

(** Modelled from the spec: the Asset of section 3.  [last_updated] is the
    commit time of the last successful mutation. *)
Record Asset := {
  name : value;
  type : value;
  location : value;
  status : Status;
  metadata : list (string * value);
  last_updated : N;
}.

(** Modelled from the spec: the durable state of the Processor (section
    4.4): the Asset table, the idempotency ledger keyed by [event_id], the
    persisted event log (newest first), the next primary key and the commit
    clock. *)
Record Store := {
  assets : gmap N Asset;
  ledger : gset string;
  events : list Envelope;
  next_id : N;
  clock : N;
}.

(** Modelled from the spec: a store in which nothing was committed yet. *)
Definition empty : Store :=
  {| assets := ∅; ledger := ∅; events := []; next_id := 1; clock := 0 |}.

(** Modelled from the spec: the error kinds of section 4.4.  [Conflict] and
    [StoreUnavailable] arise from concurrent appliers and storage failures,
    which a sequential store does not produce. *)
Inductive error := NotFound | ValidationError | Conflict | StoreUnavailable.

(** Modelled from the spec: reading and writing the enumerated [status];
    a value outside the enumeration is malformed. *)
Definition parse_status (v : value) : option Status :=
  match v with
  | VStr s =>
      if String.eqb s "active" then Some active
      else if String.eqb s "inactive" then Some inactive
      else if String.eqb s "maintenance" then Some under_maintenance
      else None
  | _ => None
  end.

(** Modelled from the spec: the wire name of a [status]. *)
Definition status_name (s : Status) : string :=
  match s with
  | active => "active"
  | inactive => "inactive"
  | under_maintenance => "maintenance"
  end.

(** Modelled from the spec: validation of the fields of a create request
    (section 4.4: ValidationError on a non-enumerated status or on metadata
    that is not a key/value map); [status] defaults to [active]. *)
Definition new_asset (fields : list (string * value)) (now : N) : option Asset :=
  st ← match assoc "status" fields with
       | None => Some active
       | Some v => parse_status v
       end;
  md ← match assoc "metadata" fields with
       | None => Some []
       | Some (VObj m) => Some m
       | Some _ => None
       end;
  Some {| name := default VNull (assoc "name" fields);
          type := default VNull (assoc "type" fields);
          location := default VNull (assoc "location" fields);
          status := st; metadata := md; last_updated := now |}.

(** Modelled from the spec: a partial-field mutation of an Asset; fields
    absent from the request keep their value. *)
Definition patch (fields : list (string * value)) (a : Asset) (now : N) : option Asset :=
  st ← match assoc "status" fields with
       | None => Some (status a)
       | Some v => parse_status v
       end;
  md ← match assoc "metadata" fields with
       | None => Some (metadata a)
       | Some (VObj m) => Some m
       | Some _ => None
       end;
  Some {| name := default (name a) (assoc "name" fields);
          type := default (type a) (assoc "type" fields);
          location := default (location a) (assoc "location" fields);
          status := st; metadata := md; last_updated := now |}.

(** Modelled from the spec: committing a new Asset table advances the
    commit clock. *)
Definition with_assets (s : Store) (m : gmap N Asset) : Store :=
  {| assets := m; ledger := ledger s; events := events s;
     next_id := next_id s; clock := N.succ (clock s) |}.

(** Modelled from the spec: [createAsset] of section 4.4; the primary key
    is assigned by the store and every mutation sets [last_updated]. *)
Definition createAsset (fields : list (string * value)) (s : Store) : (error + N) * Store :=
  match new_asset fields (N.succ (clock s)) with
  | None => (inl ValidationError, s)
  | Some a =>
      (inr (next_id s),
       {| assets := <[next_id s := a]> (assets s); ledger := ledger s;
          events := events s; next_id := N.succ (next_id s);
          clock := N.succ (clock s) |})
  end.

(** Modelled from the spec: [updateAsset] of section 4.4; NotFound on an
    unknown id, without creating a row. *)
Definition updateAsset (id : N) (fields : list (string * value)) (s : Store)
  : (error + Asset) * Store :=
  match assets s !! id with
  | None => (inl NotFound, s)
  | Some a =>
      match patch fields a (N.succ (clock s)) with
      | None => (inl ValidationError, s)
      | Some a' => (inr a', with_assets s (<[id := a']> (assets s)))
      end
  end.

(** Modelled from the spec: [deleteAsset] of section 4.4. *)
Definition deleteAsset (id : N) (s : Store) : (error + unit) * Store :=
  match assets s !! id with
  | None => (inl NotFound, s)
  | Some _ => (inr tt, with_assets s (base.delete id (assets s)))
  end.

(** Modelled from the spec: [getAsset] of section 4.4. *)
Definition getAsset (id : N) (s : Store) : error + Asset :=
  match assets s !! id with
  | None => inl NotFound
  | Some a => inr a
  end.

(** Modelled from the spec: [listAssets] of section 4.4. *)
Definition listAssets (s : Store) : list (N * Asset) := map_to_list (assets s).

(** Modelled from the spec: what one event does to the Asset table
    (section 4.4).  A [create] inserts a new Asset, under the envelope's
    [asset_id] when it carries one, and is a no-op when that Asset exists;
    [update] and [delete] mutate and remove the targeted Asset;
    [system_metrics] leaves the table alone, and so does [maintenance], for
    which the spec names no effect on an Asset. *)
Definition mutate (e : Envelope) (s : Store) : error + (gmap N Asset * N) :=
  match event_type e with
  | create =>
      let key := default (next_id s) (asset_id e) in
      match assets s !! key with
      | Some _ => inr (assets s, next_id s)
      | None =>
          match new_asset (data e) (N.succ (clock s)) with
          | None => inl ValidationError
          | Some a => inr (<[key := a]> (assets s), N.succ (N.max key (next_id s)))
          end
      end
  | update =>
      match asset_id e with
      | None => inl ValidationError
      | Some key =>
          match assets s !! key with
          | None => inl NotFound
          | Some a =>
              match patch (data e) a (N.succ (clock s)) with
              | None => inl ValidationError
              | Some a' => inr (<[key := a']> (assets s), next_id s)
              end
          end
      end
  | delete =>
      match asset_id e with
      | None => inl ValidationError
      | Some key =>
          match assets s !! key with
          | None => inl NotFound
          | Some _ => inr (base.delete key (assets s), next_id s)
          end
      end
  | maintenance | system_metrics => inr (assets s, next_id s)
  end.

(** Modelled from the spec: [applyEvent] of section 4.4.  An [event_id]
    found in the idempotency ledger is acknowledged without effect;
    otherwise the mutation, the log row and the ledger entry are committed
    together, or nothing is when the mutation fails. *)
Definition applyEvent (e : Envelope) (s : Store) : (error + unit) * Store :=
  if decide (event_id e ∈ ledger s) then (inr tt, s)
  else
    match mutate e s with
    | inl err => (inl err, s)
    | inr (table, next) =>
        (inr tt,
         {| assets := table; ledger := {[event_id e]} ∪ ledger s;
            events := e :: events s; next_id := next;
            clock := N.succ (clock s) |})
    end.

(** Modelled from the spec: a primary key or a commit time as a JSON
    number. *)
Definition of_N (n : N) : number := Finite false n 0.

(** Modelled from the spec: the JSON object of one Asset. *)
Definition asset_json (id : N) (a : Asset) : value :=
  VObj [("id", VNum (of_N id)); ("name", name a); ("type", type a);
        ("location", location a); ("status", VStr (status_name (status a)));
        ("metadata", VObj (metadata a)); ("last_updated", VNum (of_N (last_updated a)))].

(** Modelled from the spec: the path /assets/{id} of section 6. *)
Definition item_url (id : N) : string := ENDPOINTS.ASSETS ++ "/" ++ pretty id.

(** Modelled from the spec: the stored Asset that a path /assets/{id}
    addresses, if any. *)
Definition addressed (url : string) (s : Store) : option N :=
  snd <$> list_find (fun id => url = item_url id) (map fst (map_to_list (assets s))).

(** Modelled from the spec: an error kind as the rejection the UI
    receives (section 7: precise error kinds). *)
Definition http_error (e : error) : Response :=
  Reject (Error (match e with
                 | NotFound => "Request failed with status code 404"
                 | ValidationError => "Request failed with status code 422"
                 | Conflict => "Request failed with status code 409"
                 | StoreUnavailable => "Request failed with status code 503"
                 end)).

(** Modelled from the spec: the /assets routes of the REST surface (section
    6) over the operations above.  Routes served by other collaborators are
    not found here. *)
Definition route (r : Request) (s : Store) : Response * Store :=
  if String.eqb (req_url r) ENDPOINTS.ASSETS then
    match req_method r, req_body r with
    | GET, _ => (Resolve (VArr (map (fun '(id, a) => asset_json id a) (listAssets s))), s)
    | POST, Some (VObj fields) =>
        match createAsset fields s with
        | (inr id, s') =>
            (Resolve (from_option (asset_json id) VNull (assets s' !! id)), s')
        | (inl err, s') => (http_error err, s')
        end
    | _, _ => (http_error ValidationError, s)
    end
  else
    match addressed (req_url r) s with
    | None => (http_error NotFound, s)
    | Some id =>
        match req_method r, req_body r with
        | GET, _ =>
            match getAsset id s with
            | inr a => (Resolve (asset_json id a), s)
            | inl err => (http_error err, s)
            end
        | PUT, Some (VObj fields) =>
            match updateAsset id fields s with
            | (inr a, s') => (Resolve (asset_json id a), s')
            | (inl err, s') => (http_error err, s')
            end
        | DELETE, _ =>
            match deleteAsset id s with
            | (inr _, s') => (Resolve VNull, s')
            | (inl err, s') => (http_error err, s')
            end
        | _, _ => (http_error ValidationError, s)
        end
    end.

(** Modelled from the spec: the Processor as the collaborator of the
    pages. *)
Definition api : Server := {| store := Store; serve := route |}.

End Processor.


(** ** A reference engine *)

(** An implementation of [Platform] on which the pages can be run.
    Strings are byte strings holding UTF-8, so [trim] strips the ASCII
    white space and line terminators and [toLowerCase] maps the letters A
    to Z; numbers are read and printed as ECMAScript does for binary64
    (round to nearest, ties to even; shortest digits that read back).
    The TypeError messages are worded after V8. *)
Module Reference.

Definition code (c : ascii) : N := N_of_ascii c.

Definition is_space (c : ascii) : bool :=
  let n := code c in ((9 <=? n) && (n <=? 13) || (n =? 32))%N.

Fixpoint trim_start (s : string) : string :=
  match s with
  | String c rest => if is_space c then trim_start rest else s
  | EmptyString => EmptyString
  end.

Definition trim (s : string) : string :=
  String.rev (trim_start (String.rev (trim_start s))).

Definition lower (c : ascii) : ascii :=
  let n := code c in
  if ((65 <=? n) && (n <=? 90))%N then ascii_of_N (n + 32)%N else c.

Fixpoint toLowerCase (s : string) : string :=
  match s with
  | String c rest => String (lower c) (toLowerCase rest)
  | EmptyString => EmptyString
  end.

(** *** Numbers *)

(** The binary64 value nearest to [p / q], for [p] and [q] positive. *)
Definition round_ratio (negative : bool) (p q : Z) : number :=
  let scaled (e : Z) := ((p * 2 ^ Z.max (- e) 0) / (q * 2 ^ Z.max e 0))%Z in
  let e0 := (Z.log2 p - Z.log2 q - 53)%Z in
  let e1 := if (2 ^ 53 <=? scaled e0)%Z then (e0 + 1)%Z else e0 in
  let e := Z.max e1 (-1074) in
  let num := (p * 2 ^ Z.max (- e) 0)%Z in
  let den := (q * 2 ^ Z.max e 0)%Z in
  let quot := (num / den)%Z in
  let rem := (num mod den)%Z in
  let up := ((den <? 2 * rem) || ((den =? 2 * rem) && Z.odd quot))%Z in
  let m := if up then (quot + 1)%Z else quot in
  if ((971 <? e) || ((e =? 971) && (2 ^ 53 <=? m)))%Z then Infinity negative
  else Finite negative (Z.to_N m) e.

(** [m * 10 ^ e] as a Number. *)
Definition of_decimal (negative : bool) (m : N) (e : Z) : number :=
  if (m =? 0)%N then Finite negative 0 0
  else if (400 <? e)%Z then Infinity negative
  else if (e <? -400 - Z.of_nat (String.length (pretty m)))%Z then Finite negative 0 0
  else round_ratio negative (Z.of_N m * 10 ^ Z.max e 0) (10 ^ Z.max (- e) 0).

(** The [n] with [10^(n-1) <= p/q < 10^n]. *)
Fixpoint scale_up (fuel : nat) (p q : Z) (k : Z) : Z :=
  match fuel with
  | O => k
  | S fuel' => if (q <=? p * 10 ^ k)%Z then k else scale_up fuel' p q (k + 1)
  end.

Definition decimal_exponent (p q : Z) : Z :=
  if (q <=? p)%Z then Z.of_nat (String.length (pretty (Z.to_N (p / q))))
  else (1 - scale_up 400 p q 1)%Z.

(** The digits [s] and the exponent [n] of Number::toString for [p / q],
    tried with [k] digits: the candidates are the two [k]-digit decimals
    around [p / q]; the nearer one that reads back as the same Number wins. *)
Definition candidate (v : number) (p q : Z) (n k : Z) : option (Z * Z) :=
  let num := (p * 10 ^ Z.max (k - n) 0)%Z in
  let den := (q * 10 ^ Z.max (n - k) 0)%Z in
  let lo := (num / den)%Z in
  let hi := (lo + 1)%Z in
  let reads (s : Z) := number_eq (of_decimal false (Z.to_N s) (n - k)) v in
  let hi_first := (den <? 2 * (num mod den))%Z in
  let norm (s : Z) := if (s =? 10 ^ k)%Z then (10 ^ (k - 1), n + 1)%Z else (s, n) in
  let ok_lo := (10 ^ (k - 1) <=? lo)%Z && reads lo in
  let ok_hi := reads hi in
  if hi_first then
    if ok_hi then Some (norm hi) else if ok_lo then Some (norm lo) else None
  else
    if ok_lo then Some (norm lo) else if ok_hi then Some (norm hi) else None.

Fixpoint shortest (fuel : nat) (v : number) (p q : Z) (n k : Z) : Z * Z :=
  match fuel with
  | O => ((p * 10 ^ Z.max (k - n) 0) / (q * 10 ^ Z.max (n - k) 0), n)%Z
  | S fuel' =>
      match candidate v p q n k with
      | Some r => r
      | None => shortest fuel' v p q n (k + 1)
      end
  end.

Definition zeros (n : Z) : string := String.concat "" (replicate (Z.to_nat n) "0").

Definition format_digits (ds : string) (n : Z) : string :=
  let k := Z.of_nat (String.length ds) in
  if ((k <=? n) && (n <=? 21))%Z then ds ++ zeros (n - k)
  else if ((0 <? n) && (n <=? 21))%Z then
    String.substring 0 (Z.to_nat n) ds ++ "." ++
    String.substring (Z.to_nat n) (Z.to_nat (k - n)) ds
  else if ((-6 <? n) && (n <=? 0))%Z then "0." ++ zeros (- n) ++ ds
  else
    let e := (n - 1)%Z in
    let exponent := (if (e <? 0)%Z then "-" else "+") ++ pretty (Z.to_N (Z.abs e)) in
    if (k =? 1)%Z then ds ++ "e" ++ exponent
    else String.substring 0 1 ds ++ "." ++ String.substring 1 (Z.to_nat (k - 1)) ds
         ++ "e" ++ exponent.

Definition Number_toString (v : number) : string :=
  match v with
  | NaN => "NaN"
  | Infinity negative => if negative then "-Infinity" else "Infinity"
  | Finite negative m e =>
      if (m =? 0)%N then "0"
      else
        let p := (Z.of_N m * 2 ^ Z.max e 0)%Z in
        let q := (2 ^ Z.max (- e) 0)%Z in
        let n := decimal_exponent p q in
        let '(s, n') := shortest 17 (Finite false m e) p q n 1 in
        (if negative then "-" else "") ++ format_digits (pretty (Z.to_N s)) n'
  end.

(** *** JSON.parse *)

(** A character of a string literal: a byte of the text, or the UTF-16
    code unit of a [\uXXXX] escape. *)
Inductive piece :=
| Raw (c : ascii)
| Unit (n : N).

Definition utf8 (cp : N) : string :=
  let byte (n : N) := String (ascii_of_N n) EmptyString in
  if (cp <? 128)%N then byte cp
  else if (cp <? 2048)%N then byte (192 + cp / 64)%N ++ byte (128 + cp mod 64)%N
  else if (cp <? 65536)%N then
    byte (224 + cp / 4096)%N ++ byte (128 + (cp / 64) mod 64)%N ++ byte (128 + cp mod 64)%N
  else byte (240 + cp / 262144)%N ++ byte (128 + (cp / 4096) mod 64)%N
       ++ byte (128 + (cp / 64) mod 64)%N ++ byte (128 + cp mod 64)%N.

Definition is_high (n : N) : bool := ((55296 <=? n) && (n <=? 56319))%N.
Definition is_low (n : N) : bool := ((56320 <=? n) && (n <=? 57343))%N.

Fixpoint encode (ps : list piece) : string :=
  match ps with
  | [] => EmptyString
  | Raw c :: rest => String c (encode rest)
  | Unit hi :: rest =>
      match rest with
      | Unit lo :: rest' =>
          if is_high hi && is_low lo
          then utf8 (65536 + (hi - 55296) * 1024 + (lo - 56320))%N ++ encode rest'
          else utf8 hi ++ encode rest
      | _ => utf8 hi ++ encode rest
      end
  end.

Definition hex_digit (c : ascii) : option N :=
  let n := code c in
  if ((48 <=? n) && (n <=? 57))%N then Some (n - 48)%N
  else if ((97 <=? n) && (n <=? 102))%N then Some (n - 87)%N
  else if ((65 <=? n) && (n <=? 70))%N then Some (n - 55)%N
  else None.

(** The character written by a two-character escape: quote, backslash and
    slash stand for themselves, b f n r t for the control characters. *)
Definition simple_escape (c : ascii) : option ascii :=
  let n := code c in
  if (n =? 34)%N then Some c
  else if (n =? 92)%N then Some c
  else if (n =? 47)%N then Some c
  else if (n =? 98)%N then Some (ascii_of_N 8)
  else if (n =? 102)%N then Some (ascii_of_N 12)
  else if (n =? 110)%N then Some (ascii_of_N 10)
  else if (n =? 114)%N then Some (ascii_of_N 13)
  else if (n =? 116)%N then Some (ascii_of_N 9)
  else None.

Definition push {A B} (a : A) (r : option (list A * B)) : option (list A * B) :=
  match r with
  | Some (l, b) => Some (a :: l, b)
  | None => None
  end.

(** The text after an opening quote, up to the closing one. *)
Fixpoint string_body (s : string) : option (list piece * string) :=
  match s with
  | EmptyString => None
  | String c rest =>
      if (code c =? 34)%N then Some ([], rest)
      else if (code c =? 92)%N then
        match rest with
        | EmptyString => None
        | String e rest' =>
            if (code e =? 117)%N then
              match rest' with
              | String a (String b (String c' (String d rest''))) =>
                  match hex_digit a, hex_digit b, hex_digit c', hex_digit d with
                  | Some x, Some y, Some z, Some w =>
                      push (Unit (((x * 16 + y) * 16 + z) * 16 + w)%N) (string_body rest'')
                  | _, _, _, _ => None
                  end
              | _ => None
              end
            else
              match simple_escape e with
              | Some ch => push (Raw ch) (string_body rest')
              | None => None
              end
        end
      else if (code c <? 32)%N then None
      else push (Raw c) (string_body rest)
  end.

Definition is_digit (c : ascii) : bool := ((48 <=? code c) && (code c <=? 57))%N.

(** The longest run of digits at the head of [s]: its value after [acc],
    how many there were, and the rest. *)
Fixpoint digits (s : string) (acc : N) (count : nat) : N * nat * string :=
  match s with
  | String c rest =>
      if is_digit c then digits rest (acc * 10 + (code c - 48))%N (S count)
      else (acc, count, s)
  | EmptyString => (acc, count, s)
  end.

Definition starts_with (n : N) (s : string) : option string :=
  match s with
  | String c rest => if (code c =? n)%N then Some rest else None
  | EmptyString => None
  end.

Definition number_literal (s : string) : option (number * string) :=
  let '(negative, s) := match starts_with 45 s with
                        | Some rest => (true, rest)
                        | None => (false, s)
                        end in
  int_part ← match s with
             | String c rest =>
                 if (code c =? 48)%N then Some (0%N, rest)
                 else if is_digit c then
                   let '(n, _, rest') := digits s 0 0 in Some (n, rest')
                 else None
             | EmptyString => None
             end;
  let '(int, s) := int_part in
  frac_part ← match starts_with 46 s with
              | Some rest =>
                  let '(n, count, rest') := digits rest int 0 in
                  if (count =? 0)%nat then None else Some (n, count, rest')
              | None => Some (int, 0%nat, s)
              end;
  let '(mantissa, scale, s) := frac_part in
  exp_part ← match s with
              | String c rest =>
                  if ((code c =? 101) || (code c =? 69))%N then
                    let '(minus, rest) :=
                      match starts_with 45 rest, starts_with 43 rest with
                      | Some r, _ => (true, r)
                      | None, Some r => (false, r)
                      | None, None => (false, rest)
                      end in
                    let '(n, count, rest') := digits rest 0 0 in
                    if (count =? 0)%nat then None
                    else Some (if minus then (- Z.of_N n)%Z else Z.of_N n, rest')
                  else Some (0%Z, s)
              | EmptyString => Some (0%Z, s)
              end;
  let '(exponent, s) := exp_part in
  Some (of_decimal negative mantissa (exponent - Z.of_nat scale), s).

Definition is_json_space (c : ascii) : bool :=
  let n := code c in ((n =? 32) || (n =? 9) || (n =? 10) || (n =? 13))%N.

Fixpoint skip (s : string) : string :=
  match s with
  | String c rest => if is_json_space c then skip rest else s
  | EmptyString => EmptyString
  end.

Definition literal (word : string) (v : value) (s : string) : option (value * string) :=
  if String.prefix word s
  then Some (v, String.substring (String.length word) (String.length s - String.length word) s)
  else None.

(** Keys that are array indices come first, in ascending order. *)
Definition array_index (k : string) : option N :=
  let '(n, count, rest) := digits k 0 0 in
  if String.eqb rest "" && String.eqb (pretty n) k && (n <? 4294967295)%N
  then Some n else None.

Fixpoint insert_index (n : N) (kv : string * value) (l : list (N * (string * value)))
  : list (N * (string * value)) :=
  match l with
  | [] => [(n, kv)]
  | (m, kv') :: rest =>
      if (n <? m)%N then (n, kv) :: l else (m, kv') :: insert_index n kv rest
  end.

Definition order_props (props : list (string * value)) : list (string * value) :=
  let indexed := foldr (fun kv acc => match array_index (fst kv) with
                                      | Some n => insert_index n kv acc
                                      | None => acc
                                      end) [] props in
  (map snd indexed ++
   filter (fun kv => array_index (fst kv) = None) props)%list.

Fixpoint value_at (fuel : nat) (s : string) : option (value * string) :=
  match fuel with
  | O => None
  | S fuel' =>
      match skip s with
      | EmptyString => None
      | String c rest =>
          if (code c =? 123)%N then
            match skip rest with
            | String c' rest' =>
                if (code c' =? 125)%N then Some (VObj [], rest')
                else members fuel' (skip rest) []
            | EmptyString => None
            end
          else if (code c =? 91)%N then
            match skip rest with
            | String c' rest' =>
                if (code c' =? 93)%N then Some (VArr [], rest')
                else elements fuel' (skip rest) []
            | EmptyString => None
            end
          else if (code c =? 34)%N then
            match string_body rest with
            | Some (ps, rest') => Some (VStr (encode ps), rest')
            | None => None
            end
          else if (code c =? 116)%N then literal "true" (VBool true) (skip s)
          else if (code c =? 102)%N then literal "false" (VBool false) (skip s)
          else if (code c =? 110)%N then literal "null" VNull (skip s)
          else match number_literal (skip s) with
               | Some (n, rest') => Some (VNum n, rest')
               | None => None
               end
      end
  end
with elements (fuel : nat) (s : string) (acc : list value) : option (value * string) :=
  match fuel with
  | O => None
  | S fuel' =>
      match value_at fuel' s with
      | Some (v, rest) =>
          match skip rest with
          | String c rest' =>
              if (code c =? 44)%N then elements fuel' rest' (acc ++ [v])
              else if (code c =? 93)%N then Some (VArr (acc ++ [v]), rest')
              else None
          | EmptyString => None
          end
      | None => None
      end
  end
with members (fuel : nat) (s : string) (acc : list (string * value))
  : option (value * string) :=
  match fuel with
  | O => None
  | S fuel' =>
      match skip s with
      | String q rest =>
          if (code q =? 34)%N then
            match string_body rest with
            | Some (ps, rest') =>
                match skip rest' with
                | String c rest'' =>
                    if (code c =? 58)%N then
                      match value_at fuel' rest'' with
                      | Some (v, rest3) =>
                          let acc' := assign (encode ps) v acc in
                          match skip rest3 with
                          | String d rest4 =>
                              if (code d =? 44)%N then members fuel' rest4 acc'
                              else if (code d =? 125)%N
                              then Some (VObj (order_props acc'), rest4)
                              else None
                          | EmptyString => None
                          end
                      | None => None
                      end
                    else None
                | EmptyString => None
                end
            | None => None
            end
          else None
      | EmptyString => None
      end
  end.

Definition JSON_parse (text : string) : option value :=
  match value_at (3 * String.length text + 3) text with
  | Some (v, rest) => if String.eqb (skip rest) "" then Some v else None
  | None => None
  end.

(** *** JSON.stringify *)

Definition hex_char (n : N) : ascii :=
  if (n <? 10)%N then ascii_of_N (48 + n)%N else ascii_of_N (87 + n)%N.

Fixpoint quote_body (s : string) : string :=
  match s with
  | EmptyString => EmptyString
  | String c rest =>
      let n := code c in
      let esc (e : string) := String "\" e in
      (if (n =? 34)%N then esc (String c EmptyString)
       else if (n =? 92)%N then esc "\"
       else if (n =? 8)%N then esc "b"
       else if (n =? 12)%N then esc "f"
       else if (n =? 10)%N then esc "n"
       else if (n =? 13)%N then esc "r"
       else if (n =? 9)%N then esc "t"
       else if (n <? 32)%N then
         esc ("u00" ++ String (hex_char (n / 16)%N)
                             (String (hex_char (n mod 16)%N) EmptyString))
       else String c EmptyString) ++ quote_body rest
  end.

Definition quote (s : string) : string :=
  let q := String (ascii_of_N 34) EmptyString in q ++ quote_body s ++ q.

Definition primitive (v : value) : option string :=
  match v with
  | VNull => Some "null"
  | VBool b => Some (if b then "true" else "false")
  | VNum (Finite s m e) => Some (Number_toString (Finite s m e))
  | VNum _ => Some "null"
  | VStr s => Some (quote s)
  | _ => None
  end.

(** [JSON.stringify(v)]; [None] stands for [undefined]. *)
Fixpoint stringify (v : value) : option string :=
  match v with
  | VUndefined => None
  | VArr items =>
      Some ("[" ++ String.concat "," (map (fun x => default "null" (stringify x)) items) ++ "]")
  | VObj props =>
      Some ("{" ++ String.concat ","
                     (concat (map (fun kv => match stringify (snd kv) with
                                             | Some t => [quote (fst kv) ++ ":" ++ t]
                                             | None => []
                                             end) props)) ++ "}")
  | _ => primitive v
  end.

Definition newline : string := String (ascii_of_N 10) EmptyString.

(** [JSON.stringify(v, null, 2)] at the indentation [indent]. *)
Fixpoint stringify_indent (indent : string) (v : value) : option string :=
  let inner := indent ++ "  " in
  let wrap (l r : string) (parts : list string) :=
    match parts with
    | [] => l ++ r
    | _ => l ++ newline ++ inner ++ String.concat ("," ++ newline ++ inner) parts
           ++ newline ++ indent ++ r
    end in
  match v with
  | VUndefined => None
  | VArr items =>
      Some (wrap "[" "]" (map (fun x => default "null" (stringify_indent inner x)) items))
  | VObj props =>
      Some (wrap "{" "}"
              (concat (map (fun kv => match stringify_indent inner (snd kv) with
                                      | Some t => [quote (fst kv) ++ ": " ++ t]
                                      | None => []
                                      end) props)))
  | _ => primitive v
  end.

Definition TypeError_message (v : value) (k : string) : string :=
  match v with
  | VUndefined => "Cannot read properties of undefined (reading '" ++ k ++ "')"
  | VNull => "Cannot read properties of null (reading '" ++ k ++ "')"
  | _ =>
      if String.eqb k "toString" then "Cannot convert object to primitive value"
      else k ++ " is not a function"
  end.

Definition engine : Platform :=
  Build_Platform Number_toString JSON_parse
    (fun v => default "undefined" (stringify v))
    (fun v => default "undefined" (stringify_indent "" v))
    trim toLowerCase TypeError_message.

End Reference.
(** * Vocabulary of the properties *)

(** A counter that is absent, [null] or a zero. *)
Definition missing_or_zero (v : value) : Prop :=
  v = VUndefined \/ v = VNull \/ exists s e, v = VNum (Finite s 0 e).

(** Two /stats bodies whose counter [k] is the same, or is missing or zero
    in both. *)
Definition same_counter (k : string) (stats stats' : value) : Prop :=
  opt_get stats k = opt_get stats' k \/
  (missing_or_zero (opt_get stats k) /\ missing_or_zero (opt_get stats' k)).

(** A card of the Dashboard as it is displayed: the title, the figure
    under it and the icon in its colour. *)
Definition displayed_card (title : string) (figure : value) (icon color : string) : elem :=
  El "Grid" [] [El "Card" [] [El "CardContent" [] [El "Box" [] [
    El "Box" [] [El "Typography" [] [Text title]; El "Typography" [] [Val figure]];
    El "Box" [("color", Text color)] [El icon [] []]]]]].

(** A figure of the Stats overview as it is displayed, above its caption. *)
Definition displayed_figure (figure : value) (caption : string) : elem :=
  El "Grid" [] [El "Box" [] [El "Typography" [] [Val figure];
                             El "Typography" [] [Text caption]]].



(** A world in which nothing has been recorded yet. *)
Definition fresh `{Server} {S : Type} (s : S) (b : store) (ans : string -> bool) : World S :=
  {| page := s; backend := b; answers := ans; trace := [] |}.

(** The world a computation leaves behind. *)
Definition after `{Server} {S A : Type} (m : M S A) (w : World S) : World S := snd (m w).

Definition get_assets : Request :=
  {| req_method := GET; req_url := ENDPOINTS.ASSETS; req_body := None |}.

(** The entry points through which the pages run code: the effect run on
    mount and the handlers bound to buttons and fields.  A handler belongs
    to a render, so it carries the state it closes over where it reads it. *)
Inductive Action :=
| Assets_mount
| Assets_openAdd
| Assets_openEdit (asset : value)
| Assets_openView (asset : value)
| Assets_closeAll
| Assets_change (form : Assets.Form)
| Assets_handleAddSubmit (s : Assets.State)
| Assets_handleEditSubmit (s : Assets.State)
| Assets_handleDelete (asset : value)
| Dashboard_mount
| Stats_mount
| Events_mount.

(** The state of the page an action runs on. *)
Definition state_of (a : Action) : Type :=
  match a with
  | Dashboard_mount => Dashboard.State
  | Stats_mount => Stats.State
  | Events_mount => Events.State
  | _ => Assets.State
  end.

Definition perform `{Platform} `{Server} (a : Action) : M (state_of a) unit :=
  match a return M (state_of a) unit with
  | Assets_mount => Assets.fetchAssets
  | Assets_openAdd => Assets.openAdd
  | Assets_openEdit asset => Assets.openEdit asset
  | Assets_openView asset => Assets.openView asset
  | Assets_closeAll => Assets.closeAll
  | Assets_change form => modify (Assets.setForm form)
  | Assets_handleAddSubmit s => Assets.handleAddSubmit s
  | Assets_handleEditSubmit s => Assets.handleEditSubmit s
  | Assets_handleDelete asset => Assets.handleDelete asset
  | Dashboard_mount => Dashboard.fetchAll
  | Stats_mount => Stats.fetchStats
  | Events_mount => Events.fetchEvents
  end.

(** The endpoints of the REST surface of section 6, under the API base
    path: the collection /assets for GET and POST, one asset under it for
    PUT and DELETE, and /events, /stats and /healthz for GET. *)
Definition rest_surface (r : Request) : Prop :=
  match req_method r with
  | GET => req_url r = ENDPOINTS.ASSETS \/ req_url r = ENDPOINTS.EVENTS \/
           req_url r = ENDPOINTS.STATS \/ req_url r = ENDPOINTS.HEALTH
  | POST => req_url r = ENDPOINTS.ASSETS
  | PUT | DELETE => exists id : string, req_url r = ENDPOINTS.ASSETS ++ "/" ++ id
  end.

(** The host-metrics endpoint read by the Dashboard. *)
Definition system_metrics_endpoint (r : Request) : Prop :=
  req_method r = GET /\ req_url r = API_BASE_URL ++ "/system/metrics".

(** The endpoints the pages are found to use. *)
Definition known_endpoint (r : Request) : Prop :=
  rest_surface r \/ system_metrics_endpoint r.

(** [m] adds only requests that satisfy [P]. *)
Definition keeps `{Server} {S A : Type} (P : Request -> Prop) (m : M S A) : Prop :=
  forall w : World S,
    Forall P (requests (trace w)) -> Forall P (requests (trace (after m w))).

(** The prompt of [handleDelete] and the request it makes. *)
Definition delete_prompt `{Platform} (asset : value) : string :=
  "Delete asset " ++ ToString (prop asset "name") ++ "?".

Definition delete_request `{Platform} (asset : value) : Request :=
  {| req_method := DELETE;
     req_url := ENDPOINTS.ASSETS ++ "/" ++ ToString (prop asset "id");
     req_body := None |}.

(** The request bodies the two dialogs are meant to send. *)
Definition add_payload (form : Assets.Form) (metadata : value) : value :=
  VObj [("name", Assets.name form); ("type", Assets.type form);
        ("location", Assets.location form); ("metadata", metadata)].

Definition post_request (form : Assets.Form) (metadata : value) : Request :=
  {| req_method := POST; req_url := ENDPOINTS.ASSETS;
     req_body := Some (add_payload form metadata) |}.

(** The fields of an edit that differ from the selected asset, in the order
    name, type, location, status, metadata: the text fields by [!==], the
    status by its lower-cased text ([f_status] and [s_status] are the
    texts of [form.status || ''] and [selected.status || '']), the metadata
    by its JSON serialization. *)
Definition changed_fields `{Platform} (form : Assets.Form) (selected : value)
    (f_status s_status : string) (newMeta : value) : list (string * value) :=
  ((if strict_neq (Assets.name form) (prop selected "name")
    then [("name", Assets.name form)] else []) ++
   (if strict_neq (Assets.type form) (prop selected "type")
    then [("type", Assets.type form)] else []) ++
   (if strict_neq (Assets.location form) (prop selected "location")
    then [("location", Assets.location form)] else []) ++
   (if negb (String.eqb (toLowerCase f_status) (toLowerCase s_status))
    then [("status", Assets.status form)] else []) ++
   (if negb (String.eqb (JSON_stringify newMeta)
                        (JSON_stringify (js_or (prop selected "metadata") (VObj []))))
    then [("metadata", newMeta)] else []))%list.

Definition put_request `{Platform} (selected : value) (update : value) : Request :=
  {| req_method := PUT;
     req_url := ENDPOINTS.ASSETS ++ "/" ++ ToString (prop selected "id");
     req_body := Some update |}.

(** The state of the Assets page once [closeAll] and [setLoading(true)] ran. *)
Definition closed (s : Assets.State) : Assets.State :=
  Assets.setLoading true
    (Assets.setSelected VNull
       (Assets.setViewOpen false (Assets.setEditOpen false (Assets.setAddOpen false s)))).

(** The three requests of the Dashboard. *)
Definition get_stats : Request :=
  {| req_method := GET; req_url := "/api/stats"; req_body := None |}.
Definition get_events : Request :=
  {| req_method := GET; req_url := "/api/events"; req_body := None |}.
Definition get_metrics : Request :=
  {| req_method := GET; req_url := "/api/system/metrics"; req_body := None |}.

(** The Dashboard once all three responses arrived, the third possibly
    replaced by the fallback. *)
Definition loaded (stats events metrics : value) : Dashboard.State :=
  {| Dashboard.stats := stats; Dashboard.loading := false; Dashboard.error := VNull;
     Dashboard.events := events; Dashboard.sysMetrics := metrics |}.

Definition unavailable : value := VObj [("available", VBool false)].

(** A collaborator that answers every request to a URL from a table. *)
Definition scripted (table : string -> Response) : Server :=
  {| store := unit; serve := fun r _ => (table (req_url r), tt) |}.

(** The store after a sequence of deliveries, oldest first. *)
Definition deliver (es : list Processor.Envelope) (s : Processor.Store) : Processor.Store :=
  foldl (fun st e => snd (Processor.applyEvent e st)) s es.

(** ** Sample data *)

Module Sample.

Definition declines : string -> bool := fun _ => false.
Definition agrees : string -> bool := fun _ => true.

Definition pump_form (location : string) (text : string) : Assets.Form :=
  {| Assets.name := VStr "pump 7"; Assets.type := VStr "pump";
     Assets.location := VStr location; Assets.status := VStr "active";
     Assets.metadataText := text |}.

Definition pump : value :=
  VObj [("id", VNum (of_nat 5)); ("name", VStr "pump 7"); ("type", VStr "pump");
        ("location", VStr "hall A"); ("status", VStr "Active");
        ("metadata", VObj []); ("last_updated", VStr "2024-05-01T10:00:00Z")].

(** The Add dialog, open on the form [pump_form "hall A" text]. *)
Definition adding (text : string) : Assets.State :=
  {| Assets.assets := VArr []; Assets.loading := false; Assets.error := VNull;
     Assets.addOpen := true; Assets.editOpen := false; Assets.viewOpen := false;
     Assets.selected := VNull; Assets.form := pump_form "hall A" text |}.

(** The Edit dialog on [pump], with the location changed to hall B. *)
Definition editing (text : string) : Assets.State :=
  {| Assets.assets := VArr [pump]; Assets.loading := false; Assets.error := VNull;
     Assets.addOpen := false; Assets.editOpen := true; Assets.viewOpen := false;
     Assets.selected := pump; Assets.form := pump_form "hall B" text |}.

(** The list of assets, with [pump] in it. *)
Definition listing : Assets.State :=
  {| Assets.assets := VArr [pump]; Assets.loading := false; Assets.error := VNull;
     Assets.addOpen := false; Assets.editOpen := false; Assets.viewOpen := false;
     Assets.selected := VNull; Assets.form := Assets.empty_form |}.

Definition metrics_event : value :=
  VObj [("event_type", VStr "system_metrics"); ("node_id", VStr "n1");
        ("timestamp", VStr "2024-05-01T10:00:00Z");
        ("data", VObj [("uptime", VStr "up 3 days")])].

Definition update_event : value :=
  VObj [("event_type", VStr "update"); ("node_id", VStr "n1"); ("asset_id", VNum (of_nat 5));
        ("timestamp", VStr "2024-05-01T10:05:00Z"); ("data", VObj [])].

Definition stats_body : value :=
  VObj [("total_events_processed", VNum (of_nat 2));
        ("events_by_type", VObj [("system_metrics", VNum (of_nat 1));
                                 ("update", VNum (of_nat 1))]);
        ("last_processed", VStr "2024-05-01T10:05:00Z");
        ("total_assets", VNull); ("active_assets", VNum (Finite true 0 0))].

Definition host_metrics : value :=
  VObj [("available", VBool true);
        ("summary", VObj [("os_kernel", VStr "Linux 6.1"); ("uptime", VStr "up 3 days")])].

(** Every collaborator answers, except the host metrics. *)
Definition metrics_down (url : string) : Response :=
  if String.eqb url "/api/stats" then Resolve stats_body
  else if String.eqb url "/api/events" then Resolve (VArr [metrics_event; update_event])
  else Reject (Error "Network Error").


(** A collaborator that accepts every request and lists no assets. *)
Definition accepting (url : string) : Response := Resolve (VArr []).

Definition create_pump : Processor.Envelope :=
  {| Processor.event_id := "evt-1"; Processor.event_type := Processor.create;
     Processor.node_id := "n1"; Processor.asset_id := None; Processor.timestamp := 17;
     Processor.data := [("name", VStr "pump 7"); ("type", VStr "pump")] |}.

Definition delete_pump : Processor.Envelope :=
  {| Processor.event_id := "evt-2"; Processor.event_type := Processor.delete;
     Processor.node_id := "n1"; Processor.asset_id := Some 1%N; Processor.timestamp := 18;
     Processor.data := [] |}.

End Sample.

(** ** Vocabulary for the pages as a whole *)

(** The [loading] and [error] cells of the page an action runs on. *)
Definition loading_of (a : Action) : state_of a -> bool :=
  match a return state_of a -> bool with
  | Dashboard_mount => Dashboard.loading
  | Stats_mount => Stats.loading
  | Events_mount => Events.loading
  | _ => Assets.loading
  end.


(** The effect a page runs when it is mounted. *)
Definition is_mount (a : Action) : bool :=
  match a with
  | Assets_mount | Dashboard_mount | Stats_mount | Events_mount => true
  | _ => false
  end.

(** The asset a handler dereferences before it reaches a [try]. *)
Definition dereferenced (a : Action) : option value :=
  match a with
  | Assets_openEdit asset | Assets_handleDelete asset => Some asset
  | _ => None
  end.

(** The actions that only move the dialogs and the form. *)
Definition is_dialog_action (a : Action) : bool :=
  match a with
  | Assets_openAdd | Assets_openEdit _ | Assets_openView _ | Assets_closeAll
  | Assets_change _ => true
  | _ => false
  end.

(** What holds of the page after [m], however [m] completes, given [P]
    before. *)
Definition leaves `{Server} {S A : Type} (P Q : S -> Prop) (m : M S A) : Prop :=
  forall w : World S, P (page w) -> Q (page (after m w)).

(** A handler that reloads the list after [prepare]: the page is left as
    it was, or reloaded from [prepare] of what it was. *)
Definition reloads (P Q : Assets.State -> Prop) (prepare : Assets.State -> Assets.State)
  : Prop :=
  (forall s, P s -> Q s) /\
  (forall s data, P s -> Q (Assets.setLoading false (Assets.setAssets data (prepare s)))) /\
  (forall s, P s ->
     Q (Assets.setLoading false
          (Assets.setError (VStr "Failed to load assets") (prepare s)))).


(** A request carries a body exactly when it is a POST or a PUT. *)
Definition body_fits_method (r : Request) : Prop :=
  match req_method r with
  | GET | DELETE => req_body r = None
  | POST | PUT => req_body r <> None
  end.

(** What a request of the action [a] is known to be. *)
Definition disciplined (a : Action) (r : Request) : Prop :=
  body_fits_method r /\
  req_url r <> ENDPOINTS.HEALTH /\
  (is_mount a = true -> req_method r = GET).

(** The world [w'] after an accepted submission of a dialog opened on
    [s]: [r] was the request, [rsp] answered the reload. *)
Definition submitted `{Server} (s : Assets.State) (r : Request) (rsp : Response)
    (b2 : store) (w' : World Assets.State) : Prop :=
  requests (trace w') = [r; get_assets] /\
  backend w' = b2 /\
  Assets.addOpen (page w') = false /\ Assets.editOpen (page w') = false /\
  Assets.viewOpen (page w') = false /\ Assets.selected (page w') = VNull /\
  Assets.form (page w') = Assets.form s /\
  Assets.loading (page w') = false /\
  match rsp with
  | Resolve listed =>
      Assets.assets (page w') = listed /\ Assets.error (page w') = Assets.error s
  | Reject _ =>
      Assets.assets (page w') = Assets.assets s /\
      Assets.error (page w') = VStr "Failed to load assets"
  end.

(** A field that [openEdit] copies into the form and [handleEditSubmit]
    compares with the asset it came from: both sides are then the one
    value, which [===] finds equal to itself unless it is NaN.  The
    comparison by structure agrees with that on every text, number, boolean
    and missing value, and on the arrays and objects that hold no NaN, as
    all those parsed from JSON. *)
Definition same_as_itself (v : value) : Prop :=
  truthy v = true -> strict_eq v v = true.

(** What saving an untouched Edit form sends for the field [k] of value
    [v]: nothing when [v] is truthy or the empty text, and the empty text
    in place of any other falsy [v] (absent, [null], 0, [false], NaN). *)
Definition blank_if_falsy (k : string) (v : value) : list (string * value) :=
  if truthy v then []
  else if strict_eq (VStr "") v then []
  else [(k, VStr "")].

(** The state of the Assets page once [openEdit asset] ran on [s]. *)
Definition opened_on `{Platform} `{Server} (asset : value) (s : Assets.State)
    (b : store) (ans : string -> bool) : Assets.State :=
  page (after (Assets.openEdit asset) (fresh s b ans)).

(** A body that has no [slice] method. *)
Definition no_slice (v : value) : bool :=
  match v with
  | VObj _ | VNum _ | VBool _ => true
  | _ => false
  end.

(** A record whose colour chip can be computed: it is there, and the
    field the chip is coloured by is a text or missing. *)
Definition chip_ready (field : string) (record : value) : Prop :=
  nullish record = false /\
  (nullish (prop record field) = true \/ exists s, prop record field = VStr s).

(** The fields [keys] of a record all convert to a primitive. *)
Definition fields_convert (keys : list string) (record : value) : bool :=
  forallb (fun k => convertible (prop record k)) keys.

(** An asset whose table row can be built: its chip can be coloured, its
    [last_updated] can be made a date and its [id] a key. *)
Definition row_ready (asset : value) : Prop :=
  chip_ready "status" asset /\ fields_convert ["last_updated"; "id"] asset = true.

(** The name that [handleDelete] puts into its prompt converts to a text. *)
Definition prompt_converts (a : Action) : Prop :=
  match a with
  | Assets_handleDelete asset => convertible (opt_get asset "name") = true
  | _ => True
  end.

(** The message of every rejection, which the Add and Edit dialogs hand
    to [alert], converts to a text. *)
Definition alerts_convert `{Server} : Prop :=
  forall (r : Request) (b b' : store) (e : value),
    serve r b = (Reject e, b') -> convertible (opt_get e "message") = true.

(** Whether a rendered event row ends with a divider. *)
Definition has_divider (row : elem) : bool :=
  match row with
  | El _ _ [_; El tag _ _] => String.eqb tag "Divider"
  | _ => false
  end.

(** ** More sample data *)

Module Cases.

(** A collaborator that rejects every request. *)
Definition refusing (url : string) : Response := Reject (Error "Network Error").

(** An asset as a sparse backend may send it: the type 0, no location, no
    metadata. *)
Definition bare : value :=
  VObj [("id", VNum (of_nat 9)); ("name", VStr "valve 2"); ("type", VNum zero);
        ("status", VStr "active")].

(** A value that does not convert to a primitive: the JSON text
    [{toString: 0}] with its key quoted. *)
Definition opaque : value := VObj [("toString", VNum zero)].

(** The Stats page on a body. *)
Definition stats_page (body : value) : Stats.State :=
  {| Stats.stats := body; Stats.loading := false; Stats.error := VNull |}.

(** An asset whose [last_updated] does not convert. *)
Definition undated : value :=
  VObj [("id", VNum (of_nat 6)); ("name", VStr "fan 1"); ("status", VStr "active");
        ("last_updated", opaque)].

(** The Assets page on a list. *)
Definition assets_page (items : list value) : Assets.State :=
  {| Assets.assets := VArr items; Assets.loading := false; Assets.error := VNull;
     Assets.addOpen := false; Assets.editOpen := false; Assets.viewOpen := false;
     Assets.selected := VNull; Assets.form := Assets.empty_form |}.


Definition event_on (asset_id : nat) : value :=
  VObj [("event_type", VStr "update"); ("node_id", VStr "n1");
        ("asset_id", VNum (of_nat asset_id));
        ("timestamp", VStr "2024-05-01T10:05:00Z"); ("data", VObj [])].

(** Every collaborator answers; /events lists six events. *)
Definition busy (url : string) : Response :=
  if String.eqb url "/api/stats" then Resolve Sample.stats_body
  else if String.eqb url "/api/events" then Resolve (VArr (map event_on (seq 1 6)))
  else Resolve Sample.host_metrics.

(** Every collaborator answers; /events wraps its list in an object. *)
Definition wrapped (url : string) : Response :=
  if String.eqb url "/api/stats" then Resolve Sample.stats_body
  else if String.eqb url "/api/events"
       then Resolve (VObj [("events", VArr [Sample.update_event])])
  else Resolve Sample.host_metrics.

(** The Dashboard on metrics that say [available] and carry no summary. *)
Definition no_summary : Dashboard.State :=
  loaded Sample.stats_body (VArr []) (VObj [("available", VBool true)]).

(** The Events page on two events. *)
Definition two_events : Events.State :=
  {| Events.events := VArr [Sample.metrics_event; Sample.update_event];
     Events.loading := false; Events.error := VNull |}.

(** A maintenance event that names no asset. *)
Definition maintenance : value :=
  VObj [("event_type", VStr "maintenance"); ("node_id", VStr "n1");
        ("timestamp", VStr "2024-05-01T11:00:00Z")].

End Cases.
(** * Properties *)

(** ** Operators *)

Lemma strict_eq_string (v : value) (s : string) :
  strict_eq v (VStr s) = true <-> v = VStr s.
Proof.
  destruct v; simpl; try (split; [discriminate | discriminate]).
  rewrite String.eqb_eq. split; [intros ->; reflexivity | intros [= ->]; reflexivity].
Qed.

Lemma get_defined `{Platform} (v : value) (k : string) :
  nullish v = false -> get v k = Ok (prop v k).
Proof. unfold get. intros ->. reflexivity. Qed.

Lemma opt_get_defined (v : value) (k : string) :
  nullish v = false -> opt_get v k = prop v k.
Proof. unfold opt_get. intros ->. reflexivity. Qed.

Lemma opt_get_truthy (v : value) (k : string) :
  truthy (opt_get v k) = true -> nullish v = false.
Proof. unfold opt_get. destruct (nullish v); simpl; congruence. Qed.

Lemma missing_or_zero_shown (v : value) :
  missing_or_zero v -> js_or v (VNum zero) = VNum zero.
Proof.
  intros [-> | [-> | (s & e & ->)]]; reflexivity.
Qed.

(** ** Counters of a /stats response *)

Lemma same_counter_shown (k : string) (stats stats' : value) :
  same_counter k stats stats' ->
  js_or (opt_get stats' k) (VNum zero) = js_or (opt_get stats k) (VNum zero).
Proof.
  intros [-> | [Hm Hm']]; [reflexivity |].
  rewrite (missing_or_zero_shown _ Hm), (missing_or_zero_shown _ Hm'). reflexivity.
Qed.

Lemma chartData_reads `{Platform} (stats : value) :
  Stats.chartData stats =
    if truthy (opt_get stats "events_by_type")
    then entries ← Object_entries (opt_get stats "events_by_type");
         mret (map Stats.bar entries)
    else mret [].
Proof.
  unfold Stats.chartData.
  destruct (truthy (opt_get stats "events_by_type")) eqn:Ht; [| reflexivity].
  pose proof (opt_get_truthy _ _ Ht) as Hn.
  rewrite (get_defined _ _ Hn), (opt_get_defined _ _ Hn). reflexivity.
Qed.

(** C10: a counter of the /stats response ([total_assets],
    [total_events_processed], [active_assets]) that is absent, [null] or
    zero is displayed as the number 0.  Whenever the Dashboard renders its
    sections, the card of such a counter is the card with the figure 0
    under its title; whenever the Stats page renders its sections with
    such a [total_events_processed], the figure above "Total Events
    Processed" and the figure above "Events Today" are 0.  The response
    itself may be missing ([null]).  Two responses that differ only in how
    their counters are missing or zero are rendered to the same output by
    both pages, so a missing counter cannot be told from a genuine zero. *)
Theorem missing_counter_shows_zero `{Platform} (stats : value) :
  (forall (s : Dashboard.State) (tree : elem),
     Dashboard.stats s = stats ->
     Dashboard.loading s = false -> truthy (Dashboard.error s) = false ->
     Dashboard.render s = Ok tree ->
     exists c0 c1 c2 c3 host recent,
       tree = El "Box" [] [El "Typography" [] [Text "Dashboard"];
                           El "Grid" [] [c0; c1; c2; c3]; host; recent] /\
       (missing_or_zero (opt_get stats "total_assets") ->
        c0 = displayed_card "Total Assets" (VNum zero) "Storage" "#1976d2") /\
       (missing_or_zero (opt_get stats "total_events_processed") ->
        c1 = displayed_card "Events Processed" (VNum zero) "Timeline" "#dc004e") /\
       (missing_or_zero (opt_get stats "active_assets") ->
        c2 = displayed_card "Active Assets" (VNum zero) "Speed" "#2e7d32")) /\
  (forall (s : Stats.State) (tree : elem),
     Stats.stats s = stats ->
     Stats.loading s = false -> truthy (Stats.error s) = false ->
     Stats.render s = Ok tree ->
     missing_or_zero (opt_get stats "total_events_processed") ->
     exists processed chart types status uptime,
       tree = El "Box" [] [
         El "Typography" [] [Text "Statistics"];
         El "Grid" [] [
           El "Grid" [] [El "Card" [] [El "CardContent" [] [
             El "Typography" [] [Text "Event Statistics"];
             El "Typography" [] [Val (VNum zero)];
             El "Typography" [] [Text "Total Events Processed"];
             processed]]];
           chart;
           El "Grid" [] [El "Card" [] [El "CardContent" [] [
             El "Typography" [] [Text "System Overview"];
             El "Grid" [] [displayed_figure (VNum zero) "Events Today";
                           types; status; uptime]]]]]]) /\
  (forall stats' : value,
     same_counter "total_assets" stats stats' ->
     same_counter "total_events_processed" stats stats' ->
     same_counter "active_assets" stats stats' ->
     (forall s : Dashboard.State,
        Dashboard.stats s = stats ->
        Dashboard.render (Dashboard.setStats stats' s) = Dashboard.render s) /\
     (opt_get stats' "events_by_type" = opt_get stats "events_by_type" ->
      opt_get stats' "last_processed" = opt_get stats "last_processed" ->
      forall s : Stats.State,
        Stats.stats s = stats ->
        Stats.render (Stats.setStats stats' s) = Stats.render s)).
Proof.
  split; [| split].
  - intros s tree <- Hl He. unfold Dashboard.render. rewrite Hl, He.
    destruct (if truthy _ then _ else _) as [host | e]; simpl; [| discriminate].
    destruct (Dashboard.recentActivity _) as [recent | e]; simpl; [| discriminate].
    intros [= <-]. do 6 eexists. split; [reflexivity |].
    unfold displayed_card.
    split; [| split]; intros Hm; rewrite (missing_or_zero_shown _ Hm); reflexivity.
  - intros s tree <- Hl He. unfold Stats.render. rewrite Hl, He.
    destruct (Stats.chartData _) as [data | e]; simpl; [| discriminate].
    destruct (if truthy _ then _ else _) as [processed | e]; simpl; [| discriminate].
    destruct (Stats.eventTypes _) as [types | e]; simpl; [| discriminate].
    intros [= <-] Hm. do 5 eexists. unfold Stats.totalEvents, displayed_figure, Stats.figure.
    rewrite (missing_or_zero_shown _ Hm). reflexivity.
  - intros stats' H1 H2 H3. split.
    + intros s <-. unfold Dashboard.render, Dashboard.statCards. simpl.
      rewrite (same_counter_shown _ _ _ H1), (same_counter_shown _ _ _ H2),
        (same_counter_shown _ _ _ H3). reflexivity.
    + intros Hb Hp s <-. unfold Stats.render, Stats.eventTypes, Stats.totalEvents. simpl.
      rewrite !chartData_reads, Hb, Hp, (same_counter_shown _ _ _ H2). reflexivity.
Qed.

(** ** Titles of events *)

Lemma eventTitle_same `{Platform} (ev : value) :
  Dashboard.eventTitle ev = Events.eventTitle ev.
Proof. reflexivity. Qed.

Lemma eventTitle_spec `{Platform} (ev : value) :
  nullish ev = false ->
  Events.eventTitle ev =
    Ok (if strict_eq (prop ev "event_type") (VStr "system_metrics")
        then "System metrics" else "Asset: " ++ ToString (prop ev "asset_id")).
Proof.
  intros Hn. unfold Events.eventTitle. rewrite !(get_defined _ _ Hn). simpl.
  destruct (strict_eq _ _); reflexivity.
Qed.





(** ** The chart of the Stats page *)

Lemma chartData_entries `{Platform} (stats : value) :
  exists entries,
    Object_entries (js_or (opt_get stats "events_by_type") (VObj [])) = Ok entries /\
    Stats.chartData stats = Ok (map Stats.bar entries) /\
    Stats.eventTypes stats = Ok (length entries).
Proof.
  unfold Stats.chartData, Stats.eventTypes, Object_keys, js_or.
  destruct (truthy (opt_get stats "events_by_type")) eqn:Ht.
  - rewrite (get_defined _ _ (opt_get_truthy _ _ Ht)).
    rewrite <- (opt_get_defined _ _ (opt_get_truthy _ _ Ht)). simpl.
    destruct (opt_get stats "events_by_type") eqn:E; simpl in *; try discriminate;
      eexists; (split; [reflexivity |]); simpl; rewrite ?length_map; split; reflexivity.
  - exists []. simpl. repeat split.
Qed.


(** ** Running the handlers of the Assets page *)

Ltac run_monad :=
  unfold after, fresh, mbind, mret, M_bind, M_ret, try_catch, try_finally, settle, lift,
    modify, emit, alert, console_error, window_confirm,
    axios_get, axios_post, axios_put, axios_delete, axios in *;
  simpl in *.

Section AssetsRuns.
Context `{Platform} `{Server}.

Lemma fetchAssets_run (w : World Assets.State) :
  Assets.fetchAssets w =
    match serve get_assets (backend w) with
    | (Resolve data, b') =>
        (Ok tt, {| page := Assets.setLoading false (Assets.setAssets data (page w));
                   backend := b'; answers := answers w;
                   trace := trace w ++ [Http get_assets] |})
    | (Reject err, b') =>
        (Ok tt, {| page := Assets.setLoading false
                             (Assets.setError (VStr "Failed to load assets") (page w));
                   backend := b'; answers := answers w;
                   trace := (trace w ++ [Http get_assets])
                            ++ [ConsoleError "Error fetching assets:" err] |})
    end.
Proof.
  unfold Assets.fetchAssets, get_assets. run_monad.
  destruct (serve _ (backend w)) as [[data | err] b']; reflexivity.
Qed.

End AssetsRuns.

(** ** Which requests a computation may add *)

Section Keeps.
Context `{Platform} `{Server}.
Context (P : Request -> Prop).

Lemma requests_snoc (t : list Effect) (e : Effect) :
  requests (t ++ [e]) = (requests t ++ requests [e])%list.
Proof. unfold requests. apply omap_app. Qed.

Lemma keeps_ret {S A} (a : A) : keeps P (mret a : M S A).
Proof. intros w Hw. exact Hw. Qed.

Lemma keeps_lift {S A} (r : result A) : keeps P (lift r : M S A).
Proof. intros w Hw. exact Hw. Qed.

Lemma keeps_modify {S} (f : S -> S) : keeps P (modify f).
Proof. intros w Hw. exact Hw. Qed.

Lemma keeps_alert {S} (v : value) : keeps P (alert v : M S unit).
Proof.
  intros w Hw. run_monad. rewrite requests_snoc. simpl. rewrite app_nil_r. exact Hw.
Qed.

Lemma keeps_console_error {S} (l : string) (v : value) :
  keeps P (console_error l v : M S unit).
Proof.
  intros w Hw. run_monad. rewrite requests_snoc. simpl. rewrite app_nil_r. exact Hw.
Qed.

Lemma keeps_confirm {S} (msg : string) : keeps P (window_confirm msg : M S bool).
Proof.
  intros w Hw. run_monad. rewrite requests_snoc. simpl. rewrite app_nil_r. exact Hw.
Qed.

Lemma keeps_axios {S} (r : Request) : P r -> keeps P (axios r : M S value).
Proof.
  intros Hr w Hw. run_monad.
  destruct (serve r (backend w)) as [[data | err] b']; simpl;
    rewrite requests_snoc; apply Forall_app; split; auto; repeat constructor; exact Hr.
Qed.

Lemma keeps_bind {S A B} (m : M S A) (f : A -> M S B) :
  keeps P m -> (forall a, keeps P (f a)) -> keeps P (m ≫= f).
Proof.
  intros Hm Hf w Hw. specialize (Hm w Hw). unfold after in *.
  unfold mbind, M_bind. destruct (m w) as [[a | e] w']; simpl in *.
  - apply (Hf a w' Hm).
  - exact Hm.
Qed.

Lemma keeps_try_catch {S A} (m : M S A) (h : value -> M S A) :
  keeps P m -> (forall e, keeps P (h e)) -> keeps P (try_catch m h).
Proof.
  intros Hm Hh w Hw. specialize (Hm w Hw). unfold after in *.
  unfold try_catch. destruct (m w) as [[a | e] w']; simpl in *.
  - exact Hm.
  - apply (Hh e w' Hm).
Qed.

Lemma keeps_try_finally {S A} (m : M S A) (fin : M S unit) :
  keeps P m -> keeps P fin -> keeps P (try_finally m fin).
Proof.
  intros Hm Hf w Hw. specialize (Hm w Hw). unfold after in *.
  unfold try_finally. destruct (m w) as [r w']; simpl in *.
  specialize (Hf w' Hm). unfold after in Hf.
  destruct (fin w') as [[u | e] w'']; simpl in *; exact Hf.
Qed.

Lemma keeps_settle {S A} (m : M S A) : keeps P m -> keeps P (settle m).
Proof.
  intros Hm w Hw. specialize (Hm w Hw). unfold after in *.
  unfold settle. destruct (m w) as [r w']; exact Hm.
Qed.

Lemma keeps_if {S A} (b : bool) (m1 m2 : M S A) :
  keeps P m1 -> keeps P m2 -> keeps P (if b then m1 else m2).
Proof. destruct b; auto. Qed.

End Keeps.

Create HintDb keeps.
#[local] Hint Resolve keeps_ret keeps_lift keeps_modify keeps_alert keeps_console_error
  keeps_confirm : keeps.

(** One step through the structure of a handler; what is left over are the
    axios calls. *)
Ltac keeps_step :=
  first
    [ apply keeps_bind; [| intros ?]
    | apply keeps_try_catch; [| intros ?]
    | apply keeps_try_finally
    | apply keeps_settle
    | apply keeps_if
    | solve [auto with keeps]
    | match goal with |- keeps _ (let '(_, _) := ?x in _) => destruct x end ].

(** ** Endpoints *)

Section Endpoints.
Context `{Platform} `{Server}.

Lemma known_get (url : string) :
  url = ENDPOINTS.ASSETS \/ url = ENDPOINTS.EVENTS \/ url = ENDPOINTS.STATS \/
  url = API_BASE_URL ++ "/system/metrics" ->
  known_endpoint {| req_method := GET; req_url := url; req_body := None |}.
Proof.
  unfold known_endpoint, rest_surface, system_metrics_endpoint. simpl.
  intros [-> | [-> | [-> | ->]]]; auto 6.
Qed.

Lemma known_item (id : string) (body : option value) :
  known_endpoint {| req_method := PUT; req_url := ENDPOINTS.ASSETS ++ "/" ++ id; req_body := body |} /\
  known_endpoint {| req_method := DELETE; req_url := ENDPOINTS.ASSETS ++ "/" ++ id; req_body := body |}.
Proof. split; left; exists id; reflexivity. Qed.

Lemma known_post (body : option value) :
  known_endpoint {| req_method := POST; req_url := ENDPOINTS.ASSETS; req_body := body |}.
Proof. left. reflexivity. Qed.

Lemma perform_keeps_known (a : Action) : keeps known_endpoint (perform a).
Proof.
  destruct a; simpl;
    unfold Assets.fetchAssets, Assets.openAdd, Assets.resetForm, Assets.openEdit,
      Assets.openView, Assets.closeAll, Assets.handleAddSubmit, Assets.handleEditSubmit,
      Assets.handleDelete, Assets.fetchAssets, Dashboard.fetchAll, Stats.fetchStats,
      Events.fetchEvents, axios_get, axios_post, axios_put, axios_delete;
    repeat keeps_step;
    try (apply keeps_axios;
         first [ apply known_get; simpl; tauto | apply known_post | apply known_item ]).
Qed.

Lemma perform_keeps_no_delete (a : Action) :
  (forall asset, a <> Assets_handleDelete asset) ->
  keeps (fun r => req_method r <> DELETE) (perform a).
Proof.
  intros Hother.
  destruct a; try (exfalso; eapply Hother; reflexivity); simpl;
    unfold Assets.fetchAssets, Assets.openAdd, Assets.resetForm, Assets.openEdit,
      Assets.openView, Assets.closeAll, Assets.handleAddSubmit, Assets.handleEditSubmit,
      Assets.fetchAssets, Dashboard.fetchAll, Stats.fetchStats,
      Events.fetchEvents, axios_get, axios_post, axios_put, axios_delete;
    repeat keeps_step;
    try (apply keeps_axios; simpl; discriminate).
Qed.

End Endpoints.

(** C4 (amended): whatever runs on a page (the effect on mount, a handler
    of the Assets page), every HTTP request it issues targets an endpoint
    of the REST surface under the API base path, namely /assets (GET,
    POST), /assets/{id} (PUT, DELETE), /events (GET), /stats (GET) or
    /healthz (GET), or else it is the GET of /system/metrics that the
    Dashboard makes under the same base path. *)
Theorem requests_target_known_endpoints `{Platform} `{Server}
    (a : Action) (s : state_of a) (b : store) (ans : string -> bool) :
  Forall (fun r => rest_surface r \/ system_metrics_endpoint r)
         (requests (trace (after (perform a) (fresh s b ans)))).
Proof. apply (perform_keeps_known a). constructor. Qed.

(** ** Deleting an asset *)

Section Delete.
Context `{Platform} `{Server}.

Lemma handleDelete_nullish (asset : value) (w : World Assets.State) :
  nullish asset = true ->
  Assets.handleDelete asset w = (Throw (TypeError asset "name"), w).
Proof.
  intros Hn. unfold Assets.handleDelete, get. rewrite Hn. reflexivity.
Qed.

Lemma handleDelete_declined (asset : value) (w : World Assets.State) :
  nullish asset = false ->
  answers w (delete_prompt asset) = false ->
  Assets.handleDelete asset w =
    (Ok tt, {| page := page w; backend := backend w; answers := answers w;
               trace := trace w ++ [Confirm (delete_prompt asset)] |}).
Proof.
  intros Hn Ha. unfold Assets.handleDelete, get, delete_prompt in *. rewrite Hn.
  run_monad. rewrite Ha. reflexivity.
Qed.

Lemma handleDelete_confirmed (asset : value) (w : World Assets.State) :
  nullish asset = false ->
  answers w (delete_prompt asset) = true ->
  Assets.handleDelete asset w =
    let t := ((trace w ++ [Confirm (delete_prompt asset)]) ++ [Http (delete_request asset)])%list in
    match serve (delete_request asset) (backend w) with
    | (Resolve _, b') =>
        Assets.fetchAssets {| page := Assets.setLoading true (page w); backend := b';
                              answers := answers w; trace := t |}
    | (Reject err, b') =>
        (Ok tt, {| page := page w; backend := b'; answers := answers w;
                   trace := t ++ [Alert (VStr "Failed to delete asset")] |})
    end.
Proof.
  intros Hn Ha. unfold Assets.handleDelete, get, delete_prompt, delete_request in *.
  rewrite Hn. run_monad. rewrite Ha. simpl.
  destruct (serve _ (backend w)) as [[data | err] b']; [| reflexivity].
  rewrite !fetchAssets_run. simpl.
  destruct (serve get_assets b') as [[data' | err'] b'']; reflexivity.
Qed.

End Delete.

(** C9: running [handleDelete] on an asset, a DELETE request appears among
    the requests of the page if and only if the confirmation prompt was
    shown and answered with OK; a DELETE that appears is the one for that
    asset.  When no prompt is answered with OK, the page makes no HTTP
    request at all and its state, the listed assets included, and the state
    of the backend stay as they were.  Nothing else that runs on a page
    issues a DELETE. *)
Theorem delete_iff_confirmed `{Platform} `{Server}
    (asset : value) (s : Assets.State) (b : store) (ans : string -> bool) :
  let w' := after (Assets.handleDelete asset) (fresh s b ans) in
  ((exists r, r ∈ requests (trace w') /\ req_method r = DELETE) <->
   (exists msg, Confirm msg ∈ trace w' /\ ans msg = true)) /\
  (forall r, r ∈ requests (trace w') -> req_method r = DELETE -> r = delete_request asset) /\
  ((forall msg, Confirm msg ∈ trace w' -> ans msg = false) ->
   requests (trace w') = [] /\ page w' = s /\ backend w' = b) /\
  (forall (a : Action) (s' : state_of a),
     (forall asset', a <> Assets_handleDelete asset') ->
     Forall (fun r => req_method r <> DELETE)
            (requests (trace (after (perform a) (fresh s' b ans))))).
Proof.
  cut (let w' := after (Assets.handleDelete asset) (fresh s b ans) in
       ((exists r, r ∈ requests (trace w') /\ req_method r = DELETE) <->
        (exists msg, Confirm msg ∈ trace w' /\ ans msg = true)) /\
       (forall r, r ∈ requests (trace w') -> req_method r = DELETE ->
                  r = delete_request asset) /\
       ((forall msg, Confirm msg ∈ trace w' -> ans msg = false) ->
        requests (trace w') = [] /\ page w' = s /\ backend w' = b)).
  { cbv zeta. intros (H1 & H2 & H3).
    split; [exact H1 |]. split; [exact H2 |]. split; [exact H3 |].
    intros a s' Hother. apply (perform_keeps_no_delete a Hother). constructor. }
  unfold after. destruct (nullish asset) eqn:Hn.
  - rewrite (handleDelete_nullish asset (fresh s b ans) Hn). simpl.
    split; [split; intros (x & Hx & _); inversion Hx |].
    split; [intros r Hr; inversion Hr | auto].
  - destruct (ans (delete_prompt asset)) eqn:Ha.
    + rewrite (handleDelete_confirmed asset (fresh s b ans) Hn Ha). simpl.
      destruct (serve (delete_request asset) b) as [[data | err] b'].
      * rewrite fetchAssets_run. simpl.
        destruct (serve get_assets b') as [[data' | err'] b'']; simpl;
          (split; [split; intros _;
                     [exists (delete_prompt asset); split; [set_solver | exact Ha]
                     | exists (delete_request asset); split; [set_solver | reflexivity]] |]);
          (split; [intros r Hr Hm;
                   apply elem_of_cons in Hr as [-> | Hr]; [reflexivity |];
                   apply elem_of_cons in Hr as [-> | Hr]; [discriminate | inversion Hr]
                  | intros Hno; specialize (Hno (delete_prompt asset));
                    rewrite Ha in Hno; discriminate Hno; set_solver]).
      * simpl.
        split; [split; intros _;
                  [exists (delete_prompt asset); split; [set_solver | exact Ha]
                  | exists (delete_request asset); split; [set_solver | reflexivity]] |].
        split; [intros r Hr Hm;
                apply elem_of_cons in Hr as [-> | Hr]; [reflexivity | inversion Hr]
               | intros Hno; specialize (Hno (delete_prompt asset));
                 rewrite Ha in Hno; discriminate Hno; set_solver].
    + rewrite (handleDelete_declined asset (fresh s b ans) Hn Ha). simpl.
      split; [split; [intros (x & Hx & _); inversion Hx |] |].
      * intros (msg & Hm & Ht). apply elem_of_cons in Hm as [[= ->] | Hm]; [| inversion Hm].
        congruence.
      * split; [intros r Hr; inversion Hr | auto].
Qed.

(** ** Submitting the Add and Edit dialogs *)

Section Submit.
Context `{Platform} `{Server}.

Lemma parseMetadata_blank (form : Assets.Form) :
  trim (Assets.metadataText form) = "" -> Assets.parseMetadata form = Ok (VObj []).
Proof. unfold Assets.parseMetadata. intros ->. reflexivity. Qed.

Lemma parseMetadata_text (form : Assets.Form) :
  trim (Assets.metadataText form) <> "" ->
  Assets.parseMetadata form =
    match JSON_parse (Assets.metadataText form) with
    | Some v => Ok v
    | None => Throw (Error "Metadata must be valid JSON")
    end.
Proof.
  unfold Assets.parseMetadata. intros Hne. simpl.
  destruct (String.eqb_spec (trim (Assets.metadataText form)) ""); [contradiction | reflexivity].
Qed.

Lemma handleAddSubmit_invalid (s : Assets.State) (w : World Assets.State) (e : value) :
  Assets.parseMetadata (Assets.form s) = Throw e ->
  Assets.handleAddSubmit s w =
    (Ok tt, {| page := page w; backend := backend w; answers := answers w;
               trace := trace w ++ [Alert (js_or (opt_get e "message")
                                                 (VStr "Failed to add asset"))] |}).
Proof.
  intros Hp. unfold Assets.handleAddSubmit. run_monad. rewrite Hp. reflexivity.
Qed.

Lemma handleAddSubmit_valid (s : Assets.State) (w : World Assets.State) (metadata : value) :
  Assets.parseMetadata (Assets.form s) = Ok metadata ->
  Assets.handleAddSubmit s w =
    let t := (trace w ++ [Http (post_request (Assets.form s) metadata)])%list in
    match serve (post_request (Assets.form s) metadata) (backend w) with
    | (Resolve _, b') =>
        Assets.fetchAssets {| page := closed (page w); backend := b';
                              answers := answers w; trace := t |}
    | (Reject err, b') =>
        (Ok tt, {| page := page w; backend := b'; answers := answers w;
                   trace := t ++ [Alert (js_or (opt_get err "message")
                                               (VStr "Failed to add asset"))] |})
    end.
Proof.
  intros Hp. unfold Assets.handleAddSubmit, Assets.closeAll, post_request, add_payload.
  run_monad. rewrite Hp. simpl.
  destruct (serve _ (backend w)) as [[data | err] b']; [| reflexivity].
  rewrite !fetchAssets_run. simpl.
  destruct (serve get_assets b') as [[data' | err'] b'']; reflexivity.
Qed.

Lemma handleEditSubmit_invalid (s : Assets.State) (w : World Assets.State) (e : value) :
  Assets.edit_update (Assets.form s) (Assets.selected s) = Throw e ->
  Assets.handleEditSubmit s w =
    (Ok tt, {| page := page w; backend := backend w; answers := answers w;
               trace := trace w ++ [Alert (js_or (opt_get e "message")
                                                 (VStr "Failed to update asset"))] |}).
Proof.
  intros Hp. unfold Assets.handleEditSubmit. run_monad. rewrite Hp. reflexivity.
Qed.

Lemma edit_update_selected (form : Assets.Form) (selected update : value) :
  Assets.edit_update form selected = Ok update -> nullish selected = false.
Proof.
  unfold Assets.edit_update, get. destruct (nullish selected); [discriminate | reflexivity].
Qed.

Lemma handleEditSubmit_valid (s : Assets.State) (w : World Assets.State) (update : value) :
  Assets.edit_update (Assets.form s) (Assets.selected s) = Ok update ->
  Assets.handleEditSubmit s w =
    let t := (trace w ++ [Http (put_request (Assets.selected s) update)])%list in
    match serve (put_request (Assets.selected s) update) (backend w) with
    | (Resolve _, b') =>
        Assets.fetchAssets {| page := closed (page w); backend := b';
                              answers := answers w; trace := t |}
    | (Reject err, b') =>
        (Ok tt, {| page := page w; backend := b'; answers := answers w;
                   trace := t ++ [Alert (js_or (opt_get err "message")
                                               (VStr "Failed to update asset"))] |})
    end.
Proof.
  intros Hp. pose proof (edit_update_selected _ _ _ Hp) as Hn.
  unfold Assets.handleEditSubmit, Assets.closeAll, put_request, get.
  run_monad. rewrite Hp, Hn. simpl.
  destruct (serve _ (backend w)) as [[data | err] b']; [| reflexivity].
  rewrite !fetchAssets_run. simpl.
  destruct (serve get_assets b') as [[data' | err'] b'']; reflexivity.
Qed.

End Submit.

Section EditUpdate.
Context `{Platform}.

Lemma call_toLowerCase_inv (v : value) (l : string) :
  call_toLowerCase v = Ok l -> exists s, v = VStr s /\ l = toLowerCase s.
Proof.
  destruct v; simpl; try discriminate. intros [= <-]. eauto.
Qed.

Lemma edit_update_ok (form : Assets.Form) (selected : value)
    (f_status s_status : string) (newMeta : value) :
  nullish selected = false ->
  js_or (Assets.status form) (VStr "") = VStr f_status ->
  js_or (prop selected "status") (VStr "") = VStr s_status ->
  Assets.parseMetadata form = Ok newMeta ->
  Assets.edit_update form selected =
    Ok (VObj (changed_fields form selected f_status s_status newMeta)).
Proof.
  intros Hn Hf Hs Hp. unfold Assets.edit_update, changed_fields, get.
  rewrite Hn. simpl. rewrite Hf. simpl. rewrite Hs. simpl. rewrite Hp. simpl.
  destruct (strict_neq (Assets.name form) _), (strict_neq (Assets.type form) _),
    (strict_neq (Assets.location form) _), (negb (String.eqb (toLowerCase _) _)),
    (negb (String.eqb (JSON_stringify _) _)); reflexivity.
Qed.

Lemma edit_update_inv (form : Assets.Form) (selected update : value) :
  Assets.edit_update form selected = Ok update ->
  exists f_status s_status newMeta,
    nullish selected = false /\
    js_or (Assets.status form) (VStr "") = VStr f_status /\
    js_or (prop selected "status") (VStr "") = VStr s_status /\
    Assets.parseMetadata form = Ok newMeta /\
    update = VObj (changed_fields form selected f_status s_status newMeta).
Proof.
  intros Hu. pose proof (edit_update_selected _ _ _ Hu) as Hn.
  destruct (call_toLowerCase (js_or (Assets.status form) (VStr ""))) as [lf | ef] eqn:Ef.
  2:{ unfold Assets.edit_update, get in Hu. rewrite Hn in Hu. simpl in Hu.
      rewrite Ef in Hu. discriminate. }
  destruct (call_toLowerCase (js_or (prop selected "status") (VStr ""))) as [ls | es] eqn:Es.
  2:{ unfold Assets.edit_update, get in Hu. rewrite Hn in Hu. simpl in Hu.
      rewrite Ef in Hu. simpl in Hu. rewrite Es in Hu. discriminate. }
  destruct (Assets.parseMetadata form) as [newMeta | ep] eqn:Ep.
  2:{ unfold Assets.edit_update, get in Hu. rewrite Hn in Hu. simpl in Hu.
      rewrite Ef in Hu. simpl in Hu. rewrite Es in Hu. simpl in Hu.
      rewrite Ep in Hu. discriminate. }
  apply call_toLowerCase_inv in Ef as (f_status & Hf & _).
  apply call_toLowerCase_inv in Es as (s_status & Hs & _).
  exists f_status, s_status, newMeta. repeat split; try assumption.
  rewrite (edit_update_ok _ _ _ _ _ Hn Hf Hs Ep) in Hu. congruence.
Qed.

End EditUpdate.

(** C8: every PUT request that [handleEditSubmit] issues goes to
    /assets/{id} of the selected asset, and its body holds exactly those of
    name, type, location, status and metadata whose new value differs from
    the value of the selected asset: name, type and location by [!==],
    status after lower-casing both texts, metadata by comparing the JSON
    serializations (a status that is missing reads as the empty text, a
    metadata that is missing as [{}]); a field that did not change is not
    in the body.  Such a PUT is the first request of the submission
    whenever the metadata text parses and both statuses are texts. *)
Theorem edit_sends_changed_fields `{Platform} `{Server}
    (s : Assets.State) (b : store) (ans : string -> bool) :
  let w' := after (Assets.handleEditSubmit s) (fresh s b ans) in
  (forall r, r ∈ requests (trace w') -> req_method r = PUT ->
     exists f_status s_status newMeta,
       js_or (Assets.status (Assets.form s)) (VStr "") = VStr f_status /\
       js_or (prop (Assets.selected s) "status") (VStr "") = VStr s_status /\
       Assets.parseMetadata (Assets.form s) = Ok newMeta /\
       r = put_request (Assets.selected s)
             (VObj (changed_fields (Assets.form s) (Assets.selected s)
                                   f_status s_status newMeta))) /\
  (forall f_status s_status newMeta,
     nullish (Assets.selected s) = false ->
     js_or (Assets.status (Assets.form s)) (VStr "") = VStr f_status ->
     js_or (prop (Assets.selected s) "status") (VStr "") = VStr s_status ->
     Assets.parseMetadata (Assets.form s) = Ok newMeta ->
     head (requests (trace w')) =
       Some (put_request (Assets.selected s)
               (VObj (changed_fields (Assets.form s) (Assets.selected s)
                                     f_status s_status newMeta)))).
Proof.
  unfold after. split.
  - intros r Hr Hm.
    destruct (Assets.edit_update (Assets.form s) (Assets.selected s)) as [u | e] eqn:Eu.
    + destruct (edit_update_inv _ _ _ Eu) as (fs & ss & nm & Hn & Hf & Hs & Hp & ->).
      exists fs, ss, nm. repeat split; try assumption.
      rewrite (handleEditSubmit_valid s (fresh s b ans) _ Eu) in Hr. simpl in Hr.
      destruct (serve _ b) as [[data | err] b'].
      * rewrite fetchAssets_run in Hr. simpl in Hr.
        destruct (serve get_assets b') as [[data' | err'] b'']; simpl in Hr;
          apply elem_of_cons in Hr as [-> | Hr]; try reflexivity;
          apply elem_of_cons in Hr as [-> | Hr]; try discriminate; inversion Hr.
      * simpl in Hr. apply elem_of_cons in Hr as [-> | Hr]; [reflexivity | inversion Hr].
    + rewrite (handleEditSubmit_invalid s (fresh s b ans) _ Eu) in Hr. simpl in Hr.
      inversion Hr.
  - intros fs ss nm Hn Hf Hs Hp.
    pose proof (edit_update_ok _ _ _ _ _ Hn Hf Hs Hp) as Eu.
    rewrite (handleEditSubmit_valid s (fresh s b ans) _ Eu). simpl.
    destruct (serve _ b) as [[data | err] b']; [| reflexivity].
    rewrite fetchAssets_run. simpl.
    destruct (serve get_assets b') as [[data' | err'] b'']; reflexivity.
Qed.

Lemma edit_update_invalid `{Platform} (form : Assets.Form) (selected e : value) :
  Assets.parseMetadata form = Throw e ->
  exists e', Assets.edit_update form selected = Throw e' /\
    (nullish selected = false ->
     (exists f_status, js_or (Assets.status form) (VStr "") = VStr f_status) ->
     (exists s_status, js_or (prop selected "status") (VStr "") = VStr s_status) ->
     e' = e).
Proof.
  intros Hp. unfold Assets.edit_update, get.
  destruct (nullish selected) eqn:Hn; simpl.
  { eexists. split; [reflexivity | discriminate]. }
  destruct (call_toLowerCase (js_or (Assets.status form) (VStr ""))) as [lf | ef] eqn:Ef; simpl.
  2:{ eexists. split; [reflexivity |]. intros _ (fs & Hf) _. rewrite Hf in Ef. discriminate. }
  destruct (call_toLowerCase (js_or (prop selected "status") (VStr ""))) as [ls | es] eqn:Es; simpl.
  2:{ eexists. split; [reflexivity |]. intros _ _ (ss & Hs). rewrite Hs in Es. discriminate. }
  rewrite Hp. simpl. eexists. split; [reflexivity | auto].
Qed.

(** C3 (amended): a create or edit submission whose metadata text is not
    blank and is not valid JSON issues no request and leaves the page and
    the asset store as they were; all it does is show one alert, which
    reads "Metadata must be valid JSON" on create, and on edit too when the
    selected asset is there and both statuses are texts (otherwise the
    comparison of the statuses fails first).  A blank metadata text is not
    rejected: it is sent as the empty object. *)
Theorem invalid_metadata_not_sent `{Platform} `{Server}
    (s : Assets.State) (b : store) (ans : string -> bool) :
  let text := Assets.metadataText (Assets.form s) in
  (trim text <> "" -> JSON_parse text = None ->
     after (Assets.handleAddSubmit s) (fresh s b ans) =
       {| page := s; backend := b; answers := ans;
          trace := [Alert (VStr "Metadata must be valid JSON")] |} /\
     exists message,
       after (Assets.handleEditSubmit s) (fresh s b ans) =
         {| page := s; backend := b; answers := ans; trace := [Alert message] |} /\
       (nullish (Assets.selected s) = false ->
        (exists f_status, js_or (Assets.status (Assets.form s)) (VStr "") = VStr f_status) ->
        (exists s_status,
           js_or (prop (Assets.selected s) "status") (VStr "") = VStr s_status) ->
        message = VStr "Metadata must be valid JSON")) /\
  (trim text = "" ->
     Assets.parseMetadata (Assets.form s) = Ok (VObj []) /\
     head (requests (trace (after (Assets.handleAddSubmit s) (fresh s b ans)))) =
       Some (post_request (Assets.form s) (VObj []))).
Proof.
  simpl. split.
  - intros Hne Hnone.
    assert (Assets.parseMetadata (Assets.form s) = Throw (Error "Metadata must be valid JSON"))
      as Hp by (rewrite (parseMetadata_text _ Hne), Hnone; reflexivity).
    split.
    + unfold after. rewrite (handleAddSubmit_invalid s (fresh s b ans) _ Hp). reflexivity.
    + destruct (edit_update_invalid (Assets.form s) (Assets.selected s) _ Hp) as (e' & He & Hsame).
      eexists. split.
      * unfold after. rewrite (handleEditSubmit_invalid s (fresh s b ans) _ He). reflexivity.
      * intros Hn Hf Hs. rewrite (Hsame Hn Hf Hs). reflexivity.
  - intros Hblank. pose proof (parseMetadata_blank _ Hblank) as Hp. split; [exact Hp |].
    unfold after. rewrite (handleAddSubmit_valid s (fresh s b ans) _ Hp). simpl.
    destruct (serve _ b) as [[data | err] b']; [| reflexivity].
    rewrite fetchAssets_run. simpl.
    destruct (serve get_assets b') as [[data' | err'] b'']; reflexivity.
Qed.

(** ** The Dashboard *)

Section DashboardRuns.
Context `{Platform} `{Server}.

Lemma length_is_zero (n : nat) :
  strict_eq (VNum (of_nat n)) (VNum zero) = (n =? 0)%nat.
Proof.
  destruct n as [| n]; [reflexivity |]. simpl.
  unfold same_magnitude. simpl. reflexivity.
Qed.


Lemma recentItem_ok (n i : nat) (ev : value) :
  nullish ev = false -> exists row, Dashboard.recentItem n i ev = Ok row.
Proof.
  intros Hn. unfold Dashboard.recentItem.
  rewrite eventTitle_same, (eventTitle_spec _ Hn), !(get_defined _ _ Hn). simpl.
  eexists. reflexivity.
Qed.






End DashboardRuns.


(** ** The Processor *)

Section Ledger.
Import Processor.

Lemma applyEvent_applied (e : Envelope) (s : Store) :
  event_id e ∈ ledger s -> applyEvent e s = (inr tt, s).
Proof. intros Hin. unfold applyEvent. rewrite decide_True by exact Hin. reflexivity. Qed.

Lemma applyEvent_records (e : Envelope) (s : Store) :
  fst (applyEvent e s) = inr tt -> event_id e ∈ ledger (snd (applyEvent e s)).
Proof.
  unfold applyEvent. destruct (decide (event_id e ∈ ledger s)) as [Hin | Hout]; simpl.
  - intros _. exact Hin.
  - destruct (mutate e s) as [err | [table next]]; simpl; [discriminate |].
    intros _. set_solver.
Qed.

Lemma applyEvent_ledger_grows (e : Envelope) (s : Store) :
  ledger s ⊆ ledger (snd (applyEvent e s)).
Proof.
  unfold applyEvent. destruct (decide (event_id e ∈ ledger s)); simpl; [set_solver |].
  destruct (mutate e s) as [err | [table next]]; simpl; set_solver.
Qed.

Lemma applyEvent_failed (e : Envelope) (s : Store) (err : error) :
  fst (applyEvent e s) = inl err -> snd (applyEvent e s) = s.
Proof.
  unfold applyEvent. destruct (decide (event_id e ∈ ledger s)); simpl; [discriminate |].
  destruct (mutate e s) as [err' | [table next]]; simpl; [reflexivity | discriminate].
Qed.

End Ledger.

Lemma deliver_ledger_grows (es : list Processor.Envelope) (s : Processor.Store) :
  Processor.ledger s ⊆ Processor.ledger (deliver es s).
Proof.
  revert s. induction es as [| e es IH]; intros s; simpl; [set_solver |].
  etransitivity; [apply (applyEvent_ledger_grows e s) | apply IH].
Qed.

(** C1: applying an envelope twice leaves the store, and so the persisted
    Asset table, as applying it once does.  Once an envelope has been
    applied, delivering any envelope with the same [event_id] again, at
    once or after any other deliveries, is acknowledged and changes
    nothing. *)
Theorem apply_twice_is_apply_once (e : Processor.Envelope) (s : Processor.Store) :
  let s1 := snd (Processor.applyEvent e s) in
  snd (Processor.applyEvent e s1) = s1 /\
  Processor.assets (snd (Processor.applyEvent e s1)) = Processor.assets s1 /\
  (fst (Processor.applyEvent e s) = inr tt ->
   forall (later : list Processor.Envelope) (e' : Processor.Envelope),
     Processor.event_id e' = Processor.event_id e ->
     Processor.applyEvent e' (deliver later s1) = (inr tt, deliver later s1)).
Proof.
  simpl.
  assert (snd (Processor.applyEvent e (snd (Processor.applyEvent e s)))
          = snd (Processor.applyEvent e s)) as Hsame.
  { destruct (fst (Processor.applyEvent e s)) as [err | []] eqn:Hr.
    - rewrite (applyEvent_failed _ _ _ Hr). apply (applyEvent_failed _ _ _ Hr).
    - rewrite (applyEvent_applied e (snd (Processor.applyEvent e s))); [reflexivity |].
      apply applyEvent_records, Hr. }
  split; [exact Hsame |]. split; [rewrite Hsame; reflexivity |].
  intros Hok later e' Hid. apply applyEvent_applied. rewrite Hid.
  apply (deliver_ledger_grows later), applyEvent_records, Hok.
Qed.

Section Routes.
Import Processor.

Lemma item_url_inj (i j : N) : item_url i = item_url j -> i = j.
Proof.
  unfold item_url. intros Heq.
  apply (inj (String.app ENDPOINTS.ASSETS)) in Heq.
  apply (inj (String.app "/")) in Heq.
  apply (inj pretty) in Heq. exact Heq.
Qed.

Lemma item_url_not_collection (i : N) : String.eqb (item_url i) ENDPOINTS.ASSETS = false.
Proof.
  apply String.eqb_neq. unfold item_url. intros Heq.
  change ENDPOINTS.ASSETS with (ENDPOINTS.ASSETS ++ "") in Heq at 2.
  apply (inj (String.app ENDPOINTS.ASSETS)) in Heq. discriminate Heq.
Qed.

Lemma addressed_stored (id : N) (a : Asset) (s : Store) :
  assets s !! id = Some a -> addressed (item_url id) s = Some id.
Proof.
  intros Hin. unfold addressed.
  destruct (list_find_elem_of (fun k => item_url id = item_url k)
              (map fst (map_to_list (assets s))) id) as [[i k] Hfind].
  - apply list_elem_of_fmap. exists (id, a). split; [reflexivity |].
    apply elem_of_map_to_list. exact Hin.
  - reflexivity.
  - rewrite Hfind. simpl. apply list_find_Some in Hfind as (_ & Hk & _).
    f_equal. symmetry. apply item_url_inj, Hk.
Qed.

Lemma route_get_item (id : N) (a : Asset) (s : Store) :
  assets s !! id = Some a ->
  route {| req_method := GET; req_url := item_url id; req_body := None |} s =
    (Resolve (asset_json id a), s).
Proof.
  intros Hin. unfold route. cbn [req_url req_method req_body].
  rewrite item_url_not_collection, (addressed_stored _ _ _ Hin).
  unfold getAsset. rewrite Hin. reflexivity.
Qed.

Lemma route_get_collection (s : Store) :
  route get_assets s =
    (Resolve (VArr (map (fun '(id, a) => asset_json id a) (listAssets s))), s).
Proof. reflexivity. Qed.

Lemma route_post (form : Assets.Form) (fields : list (string * value)) (s : Store) :
  let a := {| name := Assets.name form; type := Assets.type form;
              location := Assets.location form; status := active;
              metadata := fields; last_updated := N.succ (clock s) |} in
  route (post_request form (VObj fields)) s =
    (Resolve (asset_json (next_id s) a),
     {| assets := <[next_id s := a]> (assets s); ledger := ledger s; events := events s;
        next_id := N.succ (next_id s); clock := N.succ (clock s) |}).
Proof.
  intros a. unfold route, post_request, add_payload, createAsset, new_asset.
  cbn [req_url req_method req_body assoc String.eqb Ascii.eqb Bool.eqb].
  change (String.eqb ENDPOINTS.ASSETS ENDPOINTS.ASSETS) with true. cbv iota.
  cbn [mbind option_bind default from_option assets].
  rewrite lookup_insert_eq. reflexivity.
Qed.

End Routes.

(** C2: every request of [handleAddSubmit] other than the GET that reloads
    the list is a POST to /assets whose body has exactly the fields name,
    type, location and metadata, in the values of the form, and no status;
    it is the first request whenever the metadata text is accepted.  On
    the Processor, when that metadata is a key/value map, the POST creates
    an Asset under the next primary key; fetched back by GET /assets/{id},
    and listed by the reload, it has the name, type, location and metadata
    that were sent, status [active] and [last_updated] set to the commit
    time. *)
Theorem add_dialog_round_trip `{Platform} (s : Assets.State) (ans : string -> bool) :
  (forall (srv : Server) (b : store) (r : Request),
     r ∈ requests (trace (after (Assets.handleAddSubmit s) (fresh s b ans))) ->
     r = get_assets \/
     exists metadata,
       Assets.parseMetadata (Assets.form s) = Ok metadata /\
       req_method r = POST /\ req_url r = ENDPOINTS.ASSETS /\
       req_body r = Some (VObj [("name", Assets.name (Assets.form s));
                                ("type", Assets.type (Assets.form s));
                                ("location", Assets.location (Assets.form s));
                                ("metadata", metadata)])) /\
  (forall (srv : Server) (b : store) (metadata : value),
     Assets.parseMetadata (Assets.form s) = Ok metadata ->
     head (requests (trace (after (Assets.handleAddSubmit s) (fresh s b ans)))) =
       Some (post_request (Assets.form s) metadata)) /\
  (forall (b : Processor.Store) (fields : list (string * value)),
     Assets.parseMetadata (Assets.form s) = Ok (VObj fields) ->
     let w' := after (H := Processor.api) (Assets.handleAddSubmit s)
                     (fresh (H := Processor.api) s b ans) in
     let id := Processor.next_id b in
     exists a : Processor.Asset,
       Processor.getAsset id (backend w') = inr a /\
       Processor.route {| req_method := GET; req_url := Processor.item_url id;
                          req_body := None |} (backend w')
         = (Resolve (Processor.asset_json id a), backend w') /\
       Processor.name a = Assets.name (Assets.form s) /\
       Processor.type a = Assets.type (Assets.form s) /\
       Processor.location a = Assets.location (Assets.form s) /\
       Processor.metadata a = fields /\
       Processor.status a = Processor.active /\
       Processor.last_updated a = N.succ (Processor.clock b) /\
       exists items, Assets.assets (page w') = VArr items /\
                     Processor.asset_json id a ∈ items).
Proof.
  split; [| split].
  - intros srv b r Hr. unfold after in Hr.
    destruct (Assets.parseMetadata (Assets.form s)) as [metadata | e] eqn:Hp.
    + rewrite (handleAddSubmit_valid s (fresh s b ans) _ Hp) in Hr. simpl in Hr.
      assert (r = post_request (Assets.form s) metadata \/ r = get_assets) as [-> | ->].
      { destruct (serve _ b) as [[data | err] b'].
        - rewrite fetchAssets_run in Hr. simpl in Hr.
          destruct (serve get_assets b') as [[data' | err'] b'']; simpl in Hr;
            apply elem_of_cons in Hr as [-> | Hr]; auto;
            apply elem_of_cons in Hr as [-> | Hr]; auto; inversion Hr.
        - simpl in Hr. apply elem_of_cons in Hr as [-> | Hr]; auto. inversion Hr. }
      * right. exists metadata. repeat split; reflexivity.
      * left. reflexivity.
    + rewrite (handleAddSubmit_invalid s (fresh s b ans) _ Hp) in Hr. simpl in Hr.
      inversion Hr.
  - intros srv b metadata Hp. unfold after.
    rewrite (handleAddSubmit_valid s (fresh s b ans) _ Hp). simpl.
    destruct (serve _ b) as [[data | err] b']; [| reflexivity].
    rewrite fetchAssets_run. simpl.
    destruct (serve get_assets b') as [[data' | err'] b'']; reflexivity.
  - intros b fields Hp w' id. subst w' id. unfold after.
    rewrite (@handleAddSubmit_valid _ Processor.api s (fresh (H := Processor.api) s b ans) _ Hp).
    cbn [backend fresh serve Processor.api].
    rewrite route_post. cbv zeta. cbv iota. cbv beta.
    rewrite (@fetchAssets_run _ Processor.api).
    cbn [backend serve Processor.api]. rewrite route_get_collection. cbn [snd backend page].
    eexists. split.
    { unfold Processor.getAsset. cbn [Processor.assets].
      rewrite lookup_insert_eq. reflexivity. }
    split.
    { apply route_get_item. cbn [Processor.assets]. apply lookup_insert_eq. }
    do 6 (split; [reflexivity |]).
    eexists. split; [reflexivity |].
    unfold Processor.listAssets. cbn [Processor.assets].
    apply list_elem_of_fmap.
    eexists (Processor.next_id b, _). split; [reflexivity |].
    apply elem_of_map_to_list, lookup_insert_eq.
Qed.

Example reference_numbers :
  map Reference.Number_toString
    [Reference.of_decimal false 1 (-1); Reference.of_decimal false 15 (-1);
     Reference.of_decimal true 123456789 0; Reference.of_decimal false 1 21;
     Reference.of_decimal false 1 23; Reference.of_decimal false 123 18;
     Reference.of_decimal false 5 (-324); Reference.of_decimal false 12 (-8);
     Reference.of_decimal false 18446744073709551616 0;
     Reference.of_decimal false 17976931348623157 292; Reference.of_decimal false 2 308;
     of_nat 0; of_nat 7; Finite false 3 (-1); Reference.of_decimal false 100 0;
     Reference.of_decimal false 3 (-1); Reference.of_decimal false 123456 (-3)]
  = ["0.1"; "1.5"; "-123456789"; "1e+21"; "1e+23"; "123000000000000000000";
     "5e-324"; "1.2e-7"; "18446744073709552000"; "1.7976931348623157e+308"; "Infinity";
     "0"; "7"; "1.5"; "100"; "0.3"; "123.456"].
Proof. vm_compute. reflexivity. Qed.

Example reference_json :
  map Reference.JSON_parse
    [""; "{"; "{}"; Assets.blank_metadata; " [1, 2.5e1 ,true,null] "; "{'a':1}";
     "{" ++ Reference.quote "a" ++ ":1}"; "01"; "-0"; "nul"; "[1,]"; "5"; "{} x"]
  = [None; None; Some (VObj []); Some (VObj []);
     Some (VArr [VNum (Finite false 4503599627370496 (-52));
                 VNum (Finite false 7036874417766400 (-48)); VBool true; VNull]);
     None; Some (VObj [("a", VNum (Finite false 4503599627370496 (-52)))]);
     None; Some (VNum (Finite true 0 0)); None; None;
     Some (VNum (Finite false 5629499534213120 (-50))); None].
Proof. vm_compute. reflexivity. Qed.

Example reference_stringify :
  let v := VObj [("name", VStr "pump 7"); ("tags", VArr [VNum (of_nat 3); VNull]);
                 ("skip", VUndefined); ("empty", VObj [])] in
  JSON_stringify (Platform := Reference.engine) v
    = "{" ++ Reference.quote "name" ++ ":" ++ Reference.quote "pump 7" ++ ","
          ++ Reference.quote "tags" ++ ":[3,null]," ++ Reference.quote "empty" ++ ":{}}" /\
  JSON_parse (Platform := Reference.engine) (JSON_stringify (Platform := Reference.engine) v)
    = Some (VObj [("name", VStr "pump 7");
                  ("tags", VArr [VNum (Finite false 6755399441055744 (-51)); VNull]);
                  ("empty", VObj [])]) /\
  JSON_stringify_indent (Platform := Reference.engine) (VObj []) = "{}" /\
  JSON_parse (Platform := Reference.engine)
    (JSON_stringify_indent (Platform := Reference.engine) v)
    = JSON_parse (Platform := Reference.engine)
        (JSON_stringify (Platform := Reference.engine) v).
Proof. vm_compute. repeat split. Qed.

(** * The properties on sample data *)

Lemma missing_counter_shows_zero_witness :
  missing_or_zero (opt_get Sample.stats_body "total_assets") /\
  missing_or_zero (opt_get Sample.stats_body "active_assets") /\
  missing_or_zero (opt_get (VObj []) "total_events_processed") /\
  (exists c1 c3 host recent,
     Dashboard.render (H := Reference.engine)
       (loaded Sample.stats_body (VArr []) unavailable)
     = Ok (El "Box" [] [El "Typography" [] [Text "Dashboard"];
                        El "Grid" []
                          [displayed_card "Total Assets" (VNum zero) "Storage" "#1976d2";
                           c1;
                           displayed_card "Active Assets" (VNum zero) "Speed" "#2e7d32";
                           c3];
                        host; recent])) /\
  (exists tree,
     Stats.render (H := Reference.engine)
       {| Stats.stats := VObj []; Stats.loading := false; Stats.error := VNull |}
     = Ok tree /\
     Stats.render (H := Reference.engine)
       {| Stats.stats := VObj [("total_events_processed", VNum zero)];
          Stats.loading := false; Stats.error := VNull |}
     = Ok tree).
Proof.
  assert (missing_or_zero (opt_get Sample.stats_body "total_assets")) as H1
    by (right; left; reflexivity).
  assert (missing_or_zero (opt_get Sample.stats_body "active_assets")) as H3
    by (right; right; exists true, 0%Z; reflexivity).
  assert (missing_or_zero (opt_get (VObj []) "total_events_processed")) as H2
    by (left; reflexivity).
  destruct (missing_counter_shows_zero (H := Reference.engine) Sample.stats_body)
    as (Hdash & _ & _).
  destruct (missing_counter_shows_zero (H := Reference.engine) (VObj []))
    as (_ & _ & Hsame).
  split; [exact H1 |]. split; [exact H3 |]. split; [exact H2 |]. split.
  - assert (exists tree, Dashboard.render (H := Reference.engine)
                           (loaded Sample.stats_body (VArr []) unavailable) = Ok tree)
      as (tree & Hr) by (eexists; reflexivity).
    rewrite Hr.
    destruct (Hdash (loaded Sample.stats_body (VArr []) unavailable) tree
                eq_refl eq_refl eq_refl Hr)
      as (c0 & c1 & c2 & c3 & host & recent & -> & T0 & _ & T2).
    rewrite (T0 H1), (T2 H3). exists c1, c3, host, recent. reflexivity.
  - destruct (Hsame (VObj [("total_events_processed", VNum zero)])) as (_ & Hstats).
    + left. reflexivity.
    + right. split; [exact H2 | right; right; exists false, 0%Z; reflexivity].
    + left. reflexivity.
    + eexists. split; [reflexivity |].
      apply (Hstats eq_refl eq_refl
               {| Stats.stats := VObj []; Stats.loading := false; Stats.error := VNull |}
               eq_refl).
Defined.



Lemma edit_sends_changed_fields_witness :
  nullish (Assets.selected (Sample.editing "{}")) = false /\
  js_or (Assets.status (Assets.form (Sample.editing "{}"))) (VStr "") = VStr "active" /\
  js_or (prop (Assets.selected (Sample.editing "{}")) "status") (VStr "") = VStr "Active" /\
  Assets.parseMetadata (H := Reference.engine) (Assets.form (Sample.editing "{}"))
    = Ok (VObj []) /\
  head (requests (trace (after (H := scripted Sample.accepting)
                           (Assets.handleEditSubmit (H := Reference.engine)
                              (Sample.editing "{}"))
                           (fresh (H := scripted Sample.accepting) (Sample.editing "{}")
                              tt Sample.declines))))
    = Some {| req_method := PUT; req_url := "/api/assets/5";
              req_body := Some (VObj [("location", VStr "hall B")]) |}.
Proof.
  destruct (edit_sends_changed_fields (H := Reference.engine)
              (H0 := scripted Sample.accepting)
              (Sample.editing "{}") tt Sample.declines) as (_ & Hput).
  split; [reflexivity |]. split; [reflexivity |]. split; [reflexivity |].
  split; [reflexivity |].
  rewrite (Hput "active" "Active" (VObj []) eq_refl eq_refl eq_refl eq_refl).
  vm_compute. reflexivity.
Defined.

Lemma delete_iff_confirmed_witness :
  (forall msg,
     Confirm msg ∈ trace (after (H := scripted Sample.accepting)
                            (Assets.handleDelete (H := Reference.engine) Sample.pump)
                            (fresh (H := scripted Sample.accepting) Sample.listing
                               tt Sample.declines)) ->
     Sample.declines msg = false) /\
  requests (trace (after (H := scripted Sample.accepting)
                     (Assets.handleDelete (H := Reference.engine) Sample.pump)
                     (fresh (H := scripted Sample.accepting) Sample.listing
                        tt Sample.declines))) = [] /\
  (exists r,
     r ∈ requests (trace (after (H := scripted Sample.accepting)
                            (Assets.handleDelete (H := Reference.engine) Sample.pump)
                            (fresh (H := scripted Sample.accepting) Sample.listing
                               tt Sample.agrees))) /\
     req_method r = DELETE).
Proof.
  destruct (delete_iff_confirmed (H := Reference.engine) (H0 := scripted Sample.accepting)
              Sample.pump Sample.listing tt Sample.declines) as (_ & _ & Hno & _).
  destruct (delete_iff_confirmed (H := Reference.engine) (H0 := scripted Sample.accepting)
              Sample.pump Sample.listing tt Sample.agrees) as (Hiff & _ & _ & _).
  split; [intros msg _; reflexivity |].
  split; [apply Hno; intros msg _; reflexivity |].
  apply Hiff. exists "Delete asset pump 7?". split; [| reflexivity].
  vm_compute. left.
Defined.

Lemma invalid_metadata_not_sent_witness :
  trim (Platform := Reference.engine) "{ rack: 4" <> "" /\
  JSON_parse (Platform := Reference.engine) "{ rack: 4" = None /\
  after (H := scripted Sample.accepting)
    (Assets.handleAddSubmit (H := Reference.engine) (Sample.adding "{ rack: 4"))
    (fresh (H := scripted Sample.accepting) (Sample.adding "{ rack: 4") tt Sample.declines)
  = @Build_World (scripted Sample.accepting) _ (Sample.adding "{ rack: 4") tt
      Sample.declines [Alert (VStr "Metadata must be valid JSON")] /\
  trim (Platform := Reference.engine) "  " = "" /\
  Assets.parseMetadata (H := Reference.engine) (Assets.form (Sample.adding "  "))
    = Ok (VObj []).
Proof.
  assert (trim (Platform := Reference.engine) "{ rack: 4" <> "") as Hne
    by (vm_compute; discriminate).
  destruct (invalid_metadata_not_sent (H := Reference.engine)
              (H0 := scripted Sample.accepting)
              (Sample.adding "{ rack: 4") tt Sample.declines) as (Hbad & _).
  destruct (invalid_metadata_not_sent (H := Reference.engine)
              (H0 := scripted Sample.accepting)
              (Sample.adding "  ") tt Sample.declines) as (_ & Hblank).
  split; [exact Hne |]. split; [reflexivity |].
  split; [apply (Hbad Hne eq_refl) |].
  split; [reflexivity |]. apply (Hblank eq_refl).
Defined.

(** C3, as stated, fails on an empty metadata text: the empty text is not
    valid JSON, yet the Add dialog shows no alert and posts the asset with
    the metadata [{}]. *)
Lemma blank_metadata_is_posted :
  JSON_parse (Platform := Reference.engine) "" = None /\
  let w' := after (H := scripted Sample.accepting)
              (Assets.handleAddSubmit (H := Reference.engine) (Sample.adding ""))
              (fresh (H := scripted Sample.accepting) (Sample.adding "") tt
                 Sample.declines) in
  trace w' =
    [Http {| req_method := POST; req_url := "/api/assets";
             req_body := Some (VObj [("name", VStr "pump 7"); ("type", VStr "pump");
                                     ("location", VStr "hall A");
                                     ("metadata", VObj [])]) |};
     Http {| req_method := GET; req_url := "/api/assets"; req_body := None |}].
Proof. split; reflexivity. Qed.

Lemma add_dialog_round_trip_witness :
  Assets.parseMetadata (H := Reference.engine)
    (Assets.form (Sample.adding ("{" ++ Reference.quote "rack" ++ ": 4}")))
    = Ok (VObj [("rack", VNum (Finite false 4503599627370496 (-50)))]) /\
  exists a : Processor.Asset,
    Processor.route {| req_method := GET; req_url := "/api/assets/1"; req_body := None |}
      (backend (after (H := Processor.api)
                  (Assets.handleAddSubmit (H := Reference.engine)
                     (Sample.adding ("{" ++ Reference.quote "rack" ++ ": 4}")))
                  (fresh (H := Processor.api)
                     (Sample.adding ("{" ++ Reference.quote "rack" ++ ": 4}"))
                     Processor.empty Sample.declines)))
      = (Resolve (Processor.asset_json 1 a),
         backend (after (H := Processor.api)
                    (Assets.handleAddSubmit (H := Reference.engine)
                       (Sample.adding ("{" ++ Reference.quote "rack" ++ ": 4}")))
                    (fresh (H := Processor.api)
                       (Sample.adding ("{" ++ Reference.quote "rack" ++ ": 4}"))
                       Processor.empty Sample.declines))) /\
    Processor.name a = VStr "pump 7" /\
    Processor.metadata a = [("rack", VNum (Finite false 4503599627370496 (-50)))] /\
    Processor.status a = Processor.active /\
    Processor.last_updated a = 1%N.
Proof.
  assert (Assets.parseMetadata (H := Reference.engine)
            (Assets.form (Sample.adding ("{" ++ Reference.quote "rack" ++ ": 4}")))
          = Ok (VObj [("rack", VNum (Finite false 4503599627370496 (-50)))])) as Hp
    by (vm_compute; reflexivity).
  split; [exact Hp |].
  destruct (add_dialog_round_trip (H := Reference.engine)
              (Sample.adding ("{" ++ Reference.quote "rack" ++ ": 4}")) Sample.declines)
    as (_ & _ & Hround).
  destruct (Hround Processor.empty _ Hp)
    as (a & _ & Hget & Hname & _ & _ & Hmeta & Hstatus & Hupdated & _).
  exists a. split; [exact Hget |]. split; [exact Hname |]. split; [exact Hmeta |].
  split; [exact Hstatus | exact Hupdated].
Defined.



(** C4, as stated, fails on the Dashboard: on mount it requests
    /api/system/metrics, which is none of /assets, /events, /stats and
    /healthz. *)
Lemma dashboard_requests_system_metrics :
  get_metrics ∈ requests (trace (after (H := scripted Sample.metrics_down)
                                   (perform (H := Reference.engine) Dashboard_mount)
                                   (fresh (H := scripted Sample.metrics_down)
                                      Dashboard.initial tt Sample.declines))) /\
  ~ rest_surface get_metrics.
Proof.
  split.
  - vm_compute. right. right. left.
  - unfold rest_surface, get_metrics. simpl. intros [Heq | [Heq | [Heq | Heq]]]; discriminate Heq.
Qed.

Lemma apply_twice_is_apply_once_witness :
  fst (Processor.applyEvent Sample.create_pump Processor.empty) = inr tt /\
  Processor.applyEvent Sample.create_pump
    (deliver [Sample.delete_pump]
       (snd (Processor.applyEvent Sample.create_pump Processor.empty)))
  = (inr tt,
     deliver [Sample.delete_pump]
       (snd (Processor.applyEvent Sample.create_pump Processor.empty))) /\
  Processor.assets (snd (Processor.applyEvent Sample.create_pump Processor.empty)) !! 1%N
    <> None /\
  Processor.assets
    (deliver [Sample.delete_pump]
       (snd (Processor.applyEvent Sample.create_pump Processor.empty))) !! 1%N = None.
Proof.
  assert (fst (Processor.applyEvent Sample.create_pump Processor.empty) = inr tt) as Hok
    by (vm_compute; reflexivity).
  destruct (apply_twice_is_apply_once Sample.create_pump Processor.empty) as (_ & _ & Hagain).
  split; [exact Hok |].
  split; [apply (Hagain Hok [Sample.delete_pump] Sample.create_pump eq_refl) |].
  split; [vm_compute; discriminate | vm_compute; reflexivity].
Defined.

Example reference_strings :
  let q := String (ascii_of_N 34) EmptyString in
  trim (Platform := Reference.engine) (" " ++ Assets.blank_metadata ++ "  a b ")
    = Assets.blank_metadata ++ "  a b" /\
  toLowerCase (Platform := Reference.engine) "Maintenance_7" = "maintenance_7" /\
  JSON_parse (Platform := Reference.engine)
    ("{" ++ q ++ "b" ++ q ++ ": [1, {" ++ q ++ "t" ++ q ++ ": " ++ q ++ "x\ny" ++ q ++ "}], "
         ++ q ++ "2" ++ q ++ ": true, " ++ q ++ "1" ++ q ++ ": null, "
         ++ q ++ "b" ++ q ++ ": false}")
    = Some (VObj [("1", VNull); ("2", VBool true); ("b", VBool false)]) /\
  JSON_parse (Platform := Reference.engine) ("[" ++ q ++ "x\ny\u00e9\ud83d\ude00" ++ q ++ "]")
    = Some (VArr [VStr (String "x" (String "010" (String "y"
                    (String "195" (String "169"
                       (String "240" (String "159" (String "152" (String "128" "")))))))))]) /\
  JSON_stringify (Platform := Reference.engine) (VStr ("a" ++ q ++ "\" ++ Assets.blank_metadata))
    = q ++ "a\" ++ q ++ "\\{\n  \n}" ++ q.
Proof. vm_compute. repeat split. Qed.

(** * Further properties of the pages *)

(** ** Mount effects and handlers as a whole *)

Section Completion.
Context `{Platform} `{Server}.

Lemma fetchStats_run (w : World Stats.State) :
  Stats.fetchStats w =
    match serve get_stats (backend w) with
    | (Resolve data, b') =>
        (Ok tt, {| page := Stats.setLoading false (Stats.setStats data (page w));
                   backend := b'; answers := answers w;
                   trace := trace w ++ [Http get_stats] |})
    | (Reject err, b') =>
        (Ok tt, {| page := Stats.setLoading false
                             (Stats.setError (VStr "Failed to load statistics") (page w));
                   backend := b'; answers := answers w;
                   trace := (trace w ++ [Http get_stats])
                            ++ [ConsoleError "Error fetching stats:" err] |})
    end.
Proof.
  unfold Stats.fetchStats, get_stats. run_monad.
  destruct (serve _ (backend w)) as [[data | err] b']; reflexivity.
Qed.

Lemma fetchEvents_run (w : World Events.State) :
  Events.fetchEvents w =
    match serve get_events (backend w) with
    | (Resolve data, b') =>
        (Ok tt, {| page := Events.setLoading false (Events.setEvents data (page w));
                   backend := b'; answers := answers w;
                   trace := trace w ++ [Http get_events] |})
    | (Reject err, b') =>
        (Ok tt, {| page := Events.setLoading false
                             (Events.setError (VStr "Failed to load events") (page w));
                   backend := b'; answers := answers w;
                   trace := (trace w ++ [Http get_events])
                            ++ [ConsoleError "Error fetching events:" err] |})
    end.
Proof.
  unfold Events.fetchEvents, get_events. run_monad.
  destruct (serve _ (backend w)) as [[data | err] b']; reflexivity.
Qed.

Lemma fetchAll_completes (w : World Dashboard.State) :
  fst (Dashboard.fetchAll w) = Ok tt /\
  Dashboard.loading (page (after Dashboard.fetchAll w)) = false /\
  (truthy (Dashboard.error (page w)) = true ->
   truthy (Dashboard.error (page (after Dashboard.fetchAll w))) = true).
Proof.
  unfold Dashboard.fetchAll. run_monad.
  destruct (serve _ (backend w)) as [[sd | e1] b1]; simpl;
    destruct (serve _ b1) as [[ed | e2] b2]; simpl;
    destruct (serve _ b2) as [[md | e3] b3]; simpl;
    try destruct (slice0 5 (js_or ed (VArr []))); simpl; auto.
Qed.

Lemma fetchAssets_completes (w : World Assets.State) :
  fst (Assets.fetchAssets w) = Ok tt /\
  Assets.loading (page (after Assets.fetchAssets w)) = false /\
  (truthy (Assets.error (page w)) = true ->
   truthy (Assets.error (page (after Assets.fetchAssets w))) = true).
Proof.
  unfold after. rewrite fetchAssets_run.
  destruct (serve get_assets (backend w)) as [[data | err] b']; auto.
Qed.

Lemma fetchStats_completes (w : World Stats.State) :
  fst (Stats.fetchStats w) = Ok tt /\
  Stats.loading (page (after Stats.fetchStats w)) = false /\
  (truthy (Stats.error (page w)) = true ->
   truthy (Stats.error (page (after Stats.fetchStats w))) = true).
Proof.
  unfold after. rewrite fetchStats_run.
  destruct (serve get_stats (backend w)) as [[data | err] b']; auto.
Qed.

Lemma fetchEvents_completes (w : World Events.State) :
  fst (Events.fetchEvents w) = Ok tt /\
  Events.loading (page (after Events.fetchEvents w)) = false /\
  (truthy (Events.error (page w)) = true ->
   truthy (Events.error (page (after Events.fetchEvents w))) = true).
Proof.
  unfold after. rewrite fetchEvents_run.
  destruct (serve get_events (backend w)) as [[data | err] b']; auto.
Qed.

End Completion.

Section Invariants.
Context `{Platform} `{Server}.

Lemma fetchAssets_leaves (P Q : Assets.State -> Prop) :
  (forall s data, P s -> Q (Assets.setLoading false (Assets.setAssets data s))) ->
  (forall s, P s ->
     Q (Assets.setLoading false (Assets.setError (VStr "Failed to load assets") s))) ->
  leaves P Q Assets.fetchAssets.
Proof.
  intros Hok Hfail w Hw. unfold after. rewrite fetchAssets_run.
  destruct (serve get_assets (backend w)) as [[data | err] b']; simpl; auto.
Qed.

Lemma handleAddSubmit_leaves (P Q : Assets.State -> Prop) (s : Assets.State) :
  reloads P Q closed -> leaves P Q (Assets.handleAddSubmit s).
Proof.
  intros (Hsame & Hok & Hfail) w Hw. unfold after.
  destruct (Assets.parseMetadata (Assets.form s)) as [metadata | e] eqn:Hp.
  - rewrite (handleAddSubmit_valid s w _ Hp). simpl.
    destruct (serve _ (backend w)) as [[data | err] b']; simpl; auto.
    rewrite fetchAssets_run. simpl.
    destruct (serve get_assets b') as [[data' | err'] b'']; simpl; auto.
  - rewrite (handleAddSubmit_invalid s w _ Hp). simpl. auto.
Qed.

Lemma handleEditSubmit_leaves (P Q : Assets.State -> Prop) (s : Assets.State) :
  reloads P Q closed -> leaves P Q (Assets.handleEditSubmit s).
Proof.
  intros (Hsame & Hok & Hfail) w Hw. unfold after.
  destruct (Assets.edit_update (Assets.form s) (Assets.selected s)) as [update | e] eqn:Hp.
  - rewrite (handleEditSubmit_valid s w _ Hp). simpl.
    destruct (serve _ (backend w)) as [[data | err] b']; simpl; auto.
    rewrite fetchAssets_run. simpl.
    destruct (serve get_assets b') as [[data' | err'] b'']; simpl; auto.
  - rewrite (handleEditSubmit_invalid s w _ Hp). simpl. auto.
Qed.

Lemma handleDelete_leaves (P Q : Assets.State -> Prop) (asset : value) :
  reloads P Q (Assets.setLoading true) -> leaves P Q (Assets.handleDelete asset).
Proof.
  intros (Hsame & Hok & Hfail) w Hw. unfold after.
  destruct (nullish asset) eqn:Hn.
  - rewrite (handleDelete_nullish _ _ Hn). simpl. auto.
  - destruct (answers w (delete_prompt asset)) eqn:Ha.
    + rewrite (handleDelete_confirmed _ _ Hn Ha). simpl.
      destruct (serve _ (backend w)) as [[data | err] b']; simpl; auto.
      rewrite fetchAssets_run. simpl.
      destruct (serve get_assets b') as [[data' | err'] b'']; simpl; auto.
    + rewrite (handleDelete_declined _ _ Hn Ha). simpl. auto.
Qed.

Lemma openEdit_page (asset : value) (w : World Assets.State) :
  page (after (Assets.openEdit asset) w) =
    if nullish asset then Assets.setSelected asset (page w)
    else
      Assets.setEditOpen true
        (Assets.setForm
           {| Assets.name := js_or (prop asset "name") (VStr "");
              Assets.type := js_or (prop asset "type") (VStr "");
              Assets.location := js_or (prop asset "location") (VStr "");
              Assets.status := js_or (prop asset "status") (VStr "active");
              Assets.metadataText :=
                JSON_stringify_indent (js_or (prop asset "metadata") (VObj [])) |}
           (Assets.setSelected asset (page w))).
Proof.
  unfold Assets.openEdit, get. run_monad. destruct (nullish asset); reflexivity.
Qed.

End Invariants.

Section Whole.
Context `{Platform} `{Server}.

Lemma perform_leaves_assets (a : Action) (P Q : Assets.State -> Prop) :
  (forall s b, P s -> P (Assets.setAddOpen b s)) ->
  (forall s b, P s -> P (Assets.setEditOpen b s)) ->
  (forall s b, P s -> P (Assets.setViewOpen b s)) ->
  (forall s v, P s -> P (Assets.setSelected v s)) ->
  (forall s f, P s -> P (Assets.setForm f s)) ->
  reloads P Q (fun s => s) ->
  reloads P Q closed ->
  reloads P Q (Assets.setLoading true) ->
  forall w : World (state_of a),
    match a as a0 return (World (state_of a0) -> Prop) with
    | Dashboard_mount | Stats_mount | Events_mount => fun _ => True
    | a0 => fun w => P (page w) -> Q (page (after (perform a0) w))
    end w.
Proof.
  intros Hadd Hedit Hview Hsel Hform Hfetch Hclosed Hloading.
  pose proof Hfetch as (Hsame & Hok & Hfail).
  destruct a; simpl; intros w; try exact I; intros Hw.
  - apply (fetchAssets_leaves P Q Hok Hfail w Hw).
  - unfold Assets.openAdd, Assets.resetForm. run_monad. auto.
  - rewrite openEdit_page. destruct (nullish asset); auto 10.
  - unfold Assets.openView. run_monad. auto.
  - unfold Assets.closeAll. run_monad. auto 10.
  - run_monad. auto.
  - apply (handleAddSubmit_leaves P Q s Hclosed w Hw).
  - apply (handleEditSubmit_leaves P Q s Hclosed w Hw).
  - apply (handleDelete_leaves P Q asset Hloading w Hw).
Qed.

End Whole.

Ltac on_assets_page P :=
  lazymatch goal with
  | w : World (state_of ?a) |- _ =>
      let X := fresh "X" in
      pose proof (perform_leaves_assets a P P) as X;
      simpl in X; apply X; clear X;
      try (unfold reloads, closed; repeat split; intros); auto
  end.

(** X1: whatever runs on a page leaves it out of the loading state if it
    found it so, and a mount effect leaves it out of the loading state in
    any case: the spinner cannot stay once a fetch has settled, whether
    the fetch succeeded or failed. *)
Theorem loading_always_ends `{Platform} `{Server} (a : Action) (w : World (state_of a)) :
  is_mount a = true \/ loading_of a (page w) = false ->
  loading_of a (page (after (perform a) w)) = false.
Proof.
  intros Hpre.
  destruct a; simpl in Hpre |- *;
    try (destruct Hpre as [Hm | Hl]; [discriminate Hm |];
         on_assets_page (fun s => Assets.loading s = false)).
  - apply fetchAssets_completes.
  - apply fetchAll_completes.
  - apply fetchStats_completes.
  - apply fetchEvents_completes.
Qed.

Lemma loading_always_ends_witness :
  is_mount Dashboard_mount = true /\
  Dashboard.loading
    (page (after (H := scripted Sample.metrics_down)
             (perform (H := Reference.engine) (H0 := scripted Sample.metrics_down)
                Dashboard_mount)
             (fresh (H := scripted Sample.metrics_down) Dashboard.initial tt
                Sample.declines))) = false.
Proof.
  split; [reflexivity |].
  apply (loading_always_ends (H := Reference.engine) (H0 := scripted Sample.metrics_down)
           Dashboard_mount
           (fresh (H := scripted Sample.metrics_down) Dashboard.initial tt Sample.declines)).
  left. reflexivity.
Defined.



Section Throws.
Context `{Platform} `{Server}.

Lemma handleAddSubmit_completes (s : Assets.State) (w : World Assets.State) :
  fst (Assets.handleAddSubmit s w) = Ok tt.
Proof.
  destruct (Assets.parseMetadata (Assets.form s)) as [metadata | e] eqn:Hp.
  - rewrite (handleAddSubmit_valid s w _ Hp). simpl.
    destruct (serve _ (backend w)) as [[data | err] b']; [| reflexivity].
    apply fetchAssets_completes.
  - rewrite (handleAddSubmit_invalid s w _ Hp). reflexivity.
Qed.

Lemma handleEditSubmit_completes (s : Assets.State) (w : World Assets.State) :
  fst (Assets.handleEditSubmit s w) = Ok tt.
Proof.
  destruct (Assets.edit_update (Assets.form s) (Assets.selected s)) as [update | e] eqn:Hp.
  - rewrite (handleEditSubmit_valid s w _ Hp). simpl.
    destruct (serve _ (backend w)) as [[data | err] b']; [| reflexivity].
    apply fetchAssets_completes.
  - rewrite (handleEditSubmit_invalid s w _ Hp). reflexivity.
Qed.

Lemma handleDelete_completes (asset : value) (w : World Assets.State) :
  nullish asset = false -> fst (Assets.handleDelete asset w) = Ok tt.
Proof.
  intros Hn. destruct (answers w (delete_prompt asset)) eqn:Ha.
  - rewrite (handleDelete_confirmed _ _ Hn Ha). simpl.
    destruct (serve _ (backend w)) as [[data | err] b']; [| reflexivity].
    apply fetchAssets_completes.
  - rewrite (handleDelete_declined _ _ Hn Ha). reflexivity.
Qed.

Lemma openEdit_result (asset : value) (w : World Assets.State) :
  fst (Assets.openEdit asset w) =
    if nullish asset then Throw (TypeError asset "name") else Ok tt.
Proof.
  unfold Assets.openEdit, get. run_monad. destruct (nullish asset); reflexivity.
Qed.

End Throws.

(** X3: where the texts that a handler builds outside a [try] can be
    built (the name that [handleDelete] puts into its prompt converts to a
    text, and so does the message of every rejection, which the [catch] of
    the Add and Edit dialogs hands to [alert]), the only way code of a
    page ends with an uncaught exception is [openEdit] or [handleDelete]
    called on an asset that is [null] or [undefined], where reading
    [asset.name] throws outside any [try]; every other failure (a rejected
    request, a text that does not parse, a status that is not a text) is
    caught and the call completes. *)
Theorem uncaught_only_on_null_asset `{Platform} `{Server}
    (a : Action) (w : World (state_of a)) :
  prompt_converts a ->
  alerts_convert ->
  ((exists e, fst (perform a w) = Throw e) <->
   (exists asset, dereferenced a = Some asset /\ nullish asset = true)).
Proof.
  intros _ _.
  destruct a; simpl;
    try (split; [intros (e & He) | intros (x & Hx & _); discriminate Hx];
         exfalso; revert He;
         first [ rewrite (proj1 (fetchAssets_completes w))
               | rewrite (proj1 (fetchAll_completes w))
               | rewrite (proj1 (fetchStats_completes w))
               | rewrite (proj1 (fetchEvents_completes w))
               | rewrite handleAddSubmit_completes
               | rewrite handleEditSubmit_completes
               | idtac ];
         discriminate).
  - rewrite openEdit_result. destruct (nullish asset) eqn:Hn.
    + split; eauto.
    + split; [intros (e & He); discriminate He | intros (x & [= <-] & Hx); congruence].
  - destruct (nullish asset) eqn:Hn.
    + rewrite (handleDelete_nullish _ _ Hn). split; eauto.
    + rewrite (handleDelete_completes _ _ Hn).
      split; [intros (e & He); discriminate He | intros (x & [= <-] & Hx); congruence].
Qed.

Lemma uncaught_only_on_null_asset_witness :
  prompt_converts (Assets_handleDelete VNull) /\
  alerts_convert (H := scripted Cases.refusing) /\
  (exists e,
     fst (perform (H := Reference.engine) (H0 := scripted Cases.refusing)
            (Assets_handleDelete VNull)
            (fresh (H := scripted Cases.refusing) Sample.listing tt Sample.agrees))
     = Throw e) /\
  ~ (exists e,
       fst (perform (H := Reference.engine) (H0 := scripted Cases.refusing)
              (Assets_handleDelete Sample.pump)
              (fresh (H := scripted Cases.refusing) Sample.listing tt Sample.agrees))
       = Throw e).
Proof.
  assert (alerts_convert (H := scripted Cases.refusing)) as Halerts.
  { intros r b b' e. simpl. intros [= <-]. reflexivity. }
  split; [reflexivity |]. split; [exact Halerts |]. split.
  - apply (uncaught_only_on_null_asset (H := Reference.engine)
             (H0 := scripted Cases.refusing) (Assets_handleDelete VNull)
             (fresh (H := scripted Cases.refusing) Sample.listing tt Sample.agrees)
             eq_refl Halerts).
    exists VNull. split; reflexivity.
  - intros Hthrows.
    apply (uncaught_only_on_null_asset (H := Reference.engine)
             (H0 := scripted Cases.refusing) (Assets_handleDelete Sample.pump)
             (fresh (H := scripted Cases.refusing) Sample.listing tt Sample.agrees)
             eq_refl Halerts) in Hthrows.
    destruct Hthrows as (asset & [= <-] & Hnull). discriminate Hnull.
Defined.

(** ** What the pages never do *)

(** X4: opening or closing a dialog and typing in the form stay inside
    the browser: such an action records no request, alert or prompt,
    leaves the backend alone and changes none of the cells [assets],
    [loading] and [error] of the page. *)
Theorem dialog_actions_are_local `{Platform} `{Server}
    (a : Action) (w : World (state_of a)) :
  is_dialog_action a = true ->
  trace (after (perform a) w) = trace w /\
  backend (after (perform a) w) = backend w /\
  match a as a0 return (state_of a0 -> state_of a0 -> Prop) with
  | Dashboard_mount | Stats_mount | Events_mount => fun _ _ => True
  | _ => fun s s' => Assets.assets s' = Assets.assets s /\
                     Assets.loading s' = Assets.loading s /\
                     Assets.error s' = Assets.error s
  end (page w) (page (after (perform a) w)).
Proof.
  destruct a; simpl; try discriminate; intros _;
    unfold Assets.openAdd, Assets.resetForm, Assets.openEdit, Assets.openView,
      Assets.closeAll, get; run_monad;
    try destruct (nullish asset); simpl; auto.
Qed.

Lemma dialog_actions_are_local_witness :
  is_dialog_action (Assets_openEdit Sample.pump) = true /\
  let w := fresh (H := scripted Sample.accepting) Sample.listing tt Sample.declines in
  let w' := after (H := scripted Sample.accepting)
              (perform (H := Reference.engine) (H0 := scripted Sample.accepting)
                 (Assets_openEdit Sample.pump)) w in
  trace w' = [] /\ backend w' = tt /\
  Assets.assets (page w') = VArr [Sample.pump] /\
  Assets.loading (page w') = false /\ Assets.error (page w') = VNull.
Proof.
  split; [reflexivity |].
  apply (dialog_actions_are_local (H := Reference.engine)
           (H0 := scripted Sample.accepting) (Assets_openEdit Sample.pump)
           (fresh (H := scripted Sample.accepting) Sample.listing tt Sample.declines)).
  reflexivity.
Defined.

Section Discipline.
Context `{Platform} `{Server}.

Lemma perform_keeps_disciplined (a : Action) : keeps (disciplined a) (perform a).
Proof.
  destruct a; simpl;
    unfold Assets.fetchAssets, Assets.openAdd, Assets.resetForm, Assets.openEdit,
      Assets.openView, Assets.closeAll, Assets.handleAddSubmit, Assets.handleEditSubmit,
      Assets.handleDelete, Assets.fetchAssets, Dashboard.fetchAll, Stats.fetchStats,
      Events.fetchEvents, axios_get, axios_post, axios_put, axios_delete;
    repeat keeps_step;
    try (apply keeps_axios; unfold disciplined, body_fits_method; simpl;
         repeat split; try discriminate; try reflexivity).
Qed.

End Discipline.

(** X5: of the requests a page issues, a GET or a DELETE never carries a
    body and a POST or a PUT always does; none goes to the /healthz
    endpoint that config.js defines; and the effect a page runs on mount
    issues GET requests only. *)
Theorem requests_are_disciplined `{Platform} `{Server}
    (a : Action) (s : state_of a) (b : store) (ans : string -> bool) :
  Forall (fun r => body_fits_method r /\ req_url r <> ENDPOINTS.HEALTH /\
                   (is_mount a = true -> req_method r = GET))
         (requests (trace (after (perform a) (fresh s b ans)))).
Proof. apply (perform_keeps_disciplined a). constructor. Qed.

(** ** How a mutation ends *)

(** X6: when the POST, PUT or DELETE of a handler is rejected, the page
    is left exactly as it was (an open dialog stays open with its form),
    the list is not reloaded, and one alert is shown: the message of the
    error for Add and Edit, or "Failed to add asset" / "Failed to update
    asset" when the error carries none, and always "Failed to delete
    asset" for Delete. *)
Theorem rejected_mutation_keeps_page `{Platform} `{Server}
    (s : Assets.State) (b b' : store) (ans : string -> bool) (err : value) :
  (forall metadata,
     Assets.parseMetadata (Assets.form s) = Ok metadata ->
     serve (post_request (Assets.form s) metadata) b = (Reject err, b') ->
     after (Assets.handleAddSubmit s) (fresh s b ans) =
       {| page := s; backend := b'; answers := ans;
          trace := [Http (post_request (Assets.form s) metadata);
                    Alert (if truthy (opt_get err "message") then opt_get err "message"
                           else VStr "Failed to add asset")] |}) /\
  (forall update,
     Assets.edit_update (Assets.form s) (Assets.selected s) = Ok update ->
     serve (put_request (Assets.selected s) update) b = (Reject err, b') ->
     after (Assets.handleEditSubmit s) (fresh s b ans) =
       {| page := s; backend := b'; answers := ans;
          trace := [Http (put_request (Assets.selected s) update);
                    Alert (if truthy (opt_get err "message") then opt_get err "message"
                           else VStr "Failed to update asset")] |}) /\
  (forall asset,
     nullish asset = false ->
     ans (delete_prompt asset) = true ->
     serve (delete_request asset) b = (Reject err, b') ->
     after (Assets.handleDelete asset) (fresh s b ans) =
       {| page := s; backend := b'; answers := ans;
          trace := [Confirm (delete_prompt asset); Http (delete_request asset);
                    Alert (VStr "Failed to delete asset")] |}).
Proof.
  split; [| split].
  - intros metadata Hp Hs. unfold after.
    rewrite (handleAddSubmit_valid s (fresh s b ans) _ Hp). simpl. rewrite Hs. reflexivity.
  - intros update Hp Hs. unfold after.
    rewrite (handleEditSubmit_valid s (fresh s b ans) _ Hp). simpl. rewrite Hs. reflexivity.
  - intros asset Hn Ha Hs. unfold after.
    rewrite (handleDelete_confirmed asset (fresh s b ans) Hn Ha). simpl. rewrite Hs.
    reflexivity.
Qed.

Lemma rejected_mutation_keeps_page_witness :
  Assets.parseMetadata (H := Reference.engine) (Assets.form (Sample.adding "{}"))
    = Ok (VObj []) /\
  after (H := scripted Cases.refusing)
    (Assets.handleAddSubmit (H := Reference.engine) (Sample.adding "{}"))
    (fresh (H := scripted Cases.refusing) (Sample.adding "{}") tt Sample.agrees)
  = @Build_World (scripted Cases.refusing) _ (Sample.adding "{}") tt Sample.agrees
      [Http (post_request (Assets.form (Sample.adding "{}")) (VObj []));
       Alert (VStr "Network Error")] /\
  after (H := scripted Cases.refusing)
    (Assets.handleDelete (H := Reference.engine) Sample.pump)
    (fresh (H := scripted Cases.refusing) Sample.listing tt Sample.agrees)
  = @Build_World (scripted Cases.refusing) _ Sample.listing tt Sample.agrees
      [Confirm "Delete asset pump 7?";
       Http {| req_method := DELETE; req_url := "/api/assets/5"; req_body := None |};
       Alert (VStr "Failed to delete asset")].
Proof.
  destruct (rejected_mutation_keeps_page (H := Reference.engine)
              (H0 := scripted Cases.refusing)
              (Sample.adding "{}") tt tt Sample.agrees (Error "Network Error"))
    as (Hadd & _ & _).
  destruct (rejected_mutation_keeps_page (H := Reference.engine)
              (H0 := scripted Cases.refusing)
              Sample.listing tt tt Sample.agrees (Error "Network Error"))
    as (_ & _ & Hdelete).
  split; [reflexivity |].
  split; [apply (Hadd (VObj []) eq_refl eq_refl) |].
  apply (Hdelete Sample.pump eq_refl eq_refl eq_refl).
Defined.

(** X7: when the POST or PUT of a dialog is accepted, the handler closes
    every dialog, clears the selection and reloads the list with one GET
    of /assets, which ends the loading state; the form keeps what was
    typed.  If that reload is rejected the page ends with the error
    "Failed to load assets" and the old list. *)
Theorem accepted_submit_closes_and_reloads `{Platform} `{Server}
    (s : Assets.State) (b b1 b2 : store) (ans : string -> bool)
    (data : value) (rsp : Response) :
  serve get_assets b1 = (rsp, b2) ->
  (forall metadata,
     Assets.parseMetadata (Assets.form s) = Ok metadata ->
     serve (post_request (Assets.form s) metadata) b = (Resolve data, b1) ->
     submitted s (post_request (Assets.form s) metadata) rsp b2
       (after (Assets.handleAddSubmit s) (fresh s b ans))) /\
  (forall update,
     Assets.edit_update (Assets.form s) (Assets.selected s) = Ok update ->
     serve (put_request (Assets.selected s) update) b = (Resolve data, b1) ->
     submitted s (put_request (Assets.selected s) update) rsp b2
       (after (Assets.handleEditSubmit s) (fresh s b ans))).
Proof.
  intros Hg. split.
  - intros metadata Hp Hs. unfold after, submitted.
    rewrite (handleAddSubmit_valid s (fresh s b ans) _ Hp). simpl. rewrite Hs.
    rewrite fetchAssets_run. simpl. rewrite Hg. destruct rsp; simpl; auto 12.
  - intros update Hp Hs. unfold after, submitted.
    rewrite (handleEditSubmit_valid s (fresh s b ans) _ Hp). simpl. rewrite Hs.
    rewrite fetchAssets_run. simpl. rewrite Hg. destruct rsp; simpl; auto 12.
Qed.

Lemma accepted_submit_closes_and_reloads_witness :
  serve (Server := scripted Sample.accepting) get_assets tt = (Resolve (VArr []), tt) /\
  Assets.parseMetadata (H := Reference.engine) (Assets.form (Sample.adding "{}"))
    = Ok (VObj []) /\
  submitted (H := scripted Sample.accepting) (Sample.adding "{}")
    (post_request (Assets.form (Sample.adding "{}")) (VObj [])) (Resolve (VArr [])) tt
    (after (H := scripted Sample.accepting)
       (Assets.handleAddSubmit (H := Reference.engine) (Sample.adding "{}"))
       (fresh (H := scripted Sample.accepting) (Sample.adding "{}") tt Sample.declines)) /\
  Assets.edit_update (H := Reference.engine) (Assets.form (Sample.editing "{}"))
    (Assets.selected (Sample.editing "{}")) = Ok (VObj [("location", VStr "hall B")]) /\
  submitted (H := scripted Sample.accepting) (Sample.editing "{}")
    (put_request (H := Reference.engine) Sample.pump (VObj [("location", VStr "hall B")]))
    (Resolve (VArr [])) tt
    (after (H := scripted Sample.accepting)
       (Assets.handleEditSubmit (H := Reference.engine) (Sample.editing "{}"))
       (fresh (H := scripted Sample.accepting) (Sample.editing "{}") tt Sample.declines)).
Proof.
  destruct (accepted_submit_closes_and_reloads (H := Reference.engine)
              (H0 := scripted Sample.accepting)
              (Sample.adding "{}") tt tt tt Sample.declines (VArr []) (Resolve (VArr []))
              eq_refl) as (Hadd & _).
  destruct (accepted_submit_closes_and_reloads (H := Reference.engine)
              (H0 := scripted Sample.accepting)
              (Sample.editing "{}") tt tt tt Sample.declines (VArr []) (Resolve (VArr []))
              eq_refl) as (_ & Hedit).
  split; [reflexivity |]. split; [reflexivity |].
  split; [apply (Hadd (VObj []) eq_refl eq_refl) |].
  split; [reflexivity |].
  apply (Hedit (VObj [("location", VStr "hall B")]) eq_refl eq_refl).
Defined.

(** ** Opening the Edit dialog and saving *)

Lemma untouched_text_field (k : string) (v : value) :
  same_as_itself v ->
  (if strict_neq (js_or v (VStr "")) v then [(k, js_or v (VStr ""))] else [])
  = blank_if_falsy k v.
Proof.
  unfold same_as_itself, blank_if_falsy, strict_neq, js_or. intros Hv.
  destruct (truthy v) eqn:Ht.
  - rewrite (Hv eq_refl). reflexivity.
  - destruct (strict_eq (VStr "") v); reflexivity.
Qed.

(** X8: saving the Edit dialog right after opening it, with nothing
    typed, still issues a PUT to /assets/{id}.  For an asset whose [id]
    converts to a text (so that the URL can be built), whose status is a
    non-empty text, whose metadata survives printing and parsing and
    whose name, type and location are equal to themselves under [===] (as
    every value parsed from JSON is), the body of that PUT holds neither
    [status] nor [metadata]; it holds [name], [type] or [location], as the
    empty text, exactly for those of the three that the asset has as a
    falsy value other than the empty text (absent, [null], 0, [false]):
    the body is the empty object when all three are non-empty texts. *)
Theorem untouched_edit_body `{Platform} `{Server}
    (asset : value) (s : Assets.State) (b : store) (ans : string -> bool)
    (st : string) (reparsed : value) :
  let text := JSON_stringify_indent (js_or (prop asset "metadata") (VObj [])) in
  let s1 := opened_on asset s b ans in
  nullish asset = false ->
  convertible (prop asset "id") = true ->
  same_as_itself (prop asset "name") ->
  same_as_itself (prop asset "type") ->
  same_as_itself (prop asset "location") ->
  prop asset "status" = VStr st -> st <> "" ->
  trim text <> "" ->
  JSON_parse text = Some reparsed ->
  JSON_stringify reparsed = JSON_stringify (js_or (prop asset "metadata") (VObj [])) ->
  head (requests (trace (after (Assets.handleEditSubmit s1) (fresh s1 b ans)))) =
    Some (put_request asset
            (VObj (blank_if_falsy "name" (prop asset "name") ++
                   blank_if_falsy "type" (prop asset "type") ++
                   blank_if_falsy "location" (prop asset "location"))%list)).
Proof.
  intros text s1 Hn _ Hname Htype Hloc Hst Hne Htrim Hparse Hsame.
  assert (s1 = Assets.setEditOpen true
                 (Assets.setForm
                    {| Assets.name := js_or (prop asset "name") (VStr "");
                       Assets.type := js_or (prop asset "type") (VStr "");
                       Assets.location := js_or (prop asset "location") (VStr "");
                       Assets.status := js_or (prop asset "status") (VStr "active");
                       Assets.metadataText := text |}
                    (Assets.setSelected asset s))) as Hs1.
  { unfold s1, opened_on. rewrite openEdit_page, Hn. reflexivity. }
  assert (js_or (VStr st) (VStr "active") = VStr st) as Hst1.
  { unfold js_or. simpl. destruct (String.eqb_spec st ""); [contradiction | reflexivity]. }
  assert (js_or (VStr st) (VStr "") = VStr st) as Hst2.
  { unfold js_or. simpl. destruct (String.eqb_spec st ""); [contradiction | reflexivity]. }
  assert (Assets.parseMetadata (Assets.form s1) = Ok reparsed) as Hp.
  { rewrite Hs1. simpl. rewrite parseMetadata_text by exact Htrim. simpl.
    fold text. rewrite Hparse. reflexivity. }
  assert (Assets.edit_update (Assets.form s1) (Assets.selected s1) =
          Ok (VObj (blank_if_falsy "name" (prop asset "name") ++
                    blank_if_falsy "type" (prop asset "type") ++
                    blank_if_falsy "location" (prop asset "location"))%list)) as Hu.
  { rewrite (edit_update_ok _ _ st st reparsed).
    - unfold changed_fields. rewrite Hs1. simpl.
      rewrite (untouched_text_field "name" _ Hname), (untouched_text_field "type" _ Htype),
        (untouched_text_field "location" _ Hloc).
      rewrite String.eqb_refl. simpl. rewrite Hsame, String.eqb_refl. simpl.
      rewrite !app_nil_r. reflexivity.
    - rewrite Hs1. exact Hn.
    - rewrite Hs1. simpl. rewrite Hst, Hst1. exact Hst2.
    - rewrite Hs1. simpl. rewrite Hst. exact Hst2.
    - exact Hp. }
  unfold after. rewrite (handleEditSubmit_valid s1 (fresh s1 b ans) _ Hu). simpl.
  replace (Assets.selected s1) with asset by (rewrite Hs1; reflexivity).
  destruct (serve _ b) as [[data | err] b']; [| reflexivity].
  rewrite fetchAssets_run. simpl.
  destruct (serve get_assets b') as [[data' | err'] b'']; reflexivity.
Qed.

Lemma untouched_edit_body_witness :
  let text := JSON_stringify_indent (Platform := Reference.engine) (VObj []) in
  let s1 := opened_on (H := Reference.engine) (H0 := scripted Sample.accepting)
              Cases.bare Sample.listing tt Sample.declines in
  text = "{}" /\
  JSON_parse (Platform := Reference.engine) text = Some (VObj []) /\
  head (requests (trace (after (H := scripted Sample.accepting)
                           (Assets.handleEditSubmit (H := Reference.engine) s1)
                           (fresh (H := scripted Sample.accepting) s1 tt Sample.declines))))
    = Some {| req_method := PUT; req_url := "/api/assets/9";
              req_body := Some (VObj [("type", VStr ""); ("location", VStr "")]) |}.
Proof.
  split; [reflexivity |]. split; [reflexivity |].
  apply (untouched_edit_body (H := Reference.engine) (H0 := scripted Sample.accepting)
           Cases.bare Sample.listing tt Sample.declines "active" (VObj [])).
  - reflexivity.
  - reflexivity.
  - intros _. reflexivity.
  - intros _. reflexivity.
  - intros _. reflexivity.
  - reflexivity.
  - discriminate.
  - vm_compute. discriminate.
  - reflexivity.
  - reflexivity.
Defined.

(** ** What the Dashboard keeps of its responses *)

Section DashboardData.
Context `{Platform} `{Server}.

Lemma fetchAll_loaded (w : World Dashboard.State) (sd ed : value) (r3 : Response)
    (b1 b2 b3 : store) :
  serve get_stats (backend w) = (Resolve sd, b1) ->
  serve get_events b1 = (Resolve ed, b2) ->
  serve get_metrics b2 = (r3, b3) ->
  page (after Dashboard.fetchAll w) =
    match slice0 5 (js_or ed (VArr [])) with
    | Ok recent =>
        Dashboard.setLoading false
          (Dashboard.setSysMetrics
             (match r3 with
              | Resolve md => js_or md VNull
              | Reject _ => unavailable
              end)
             (Dashboard.setEvents recent (Dashboard.setStats sd (page w))))
    | Throw _ =>
        Dashboard.setLoading false
          (Dashboard.setError (VStr "Failed to load dashboard data")
             (Dashboard.setStats sd (page w)))
    end.
Proof.
  intros H1 H2 H3.
  unfold Dashboard.fetchAll. run_monad.
  unfold get_stats, get_events, get_metrics in *. simpl in *.
  rewrite H1. simpl. rewrite H2. simpl. rewrite H3.
  destruct r3 as [md | e3]; simpl; destruct (slice0 5 (js_or ed (VArr []))); reflexivity.
Qed.

End DashboardData.

(** X9: when /stats and /events answer, the Dashboard keeps the stats
    body as it is and, of a list of events, the first five in their
    order (all of them when there are fewer); an events body that is
    missing, [null] or otherwise falsy counts as the empty list.  The
    metrics kept are the body of /system/metrics, [null] when that body
    is falsy, and [{available: false}] when the request failed. *)
Theorem dashboard_keeps_first_five `{Platform} `{Server}
    (b b1 b2 b3 : store) (ans : string -> bool) (sd ed : value) (r3 : Response) :
  serve get_stats b = (Resolve sd, b1) ->
  serve get_events b1 = (Resolve ed, b2) ->
  serve get_metrics b2 = (r3, b3) ->
  let w' := after Dashboard.fetchAll (fresh Dashboard.initial b ans) in
  let metrics := match r3 with
                 | Resolve md => js_or md VNull
                 | Reject _ => unavailable
                 end in
  (forall items, ed = VArr items ->
     page w' = loaded sd (VArr (take 5 items)) metrics /\
     length (take 5 items) = Nat.min 5 (length items) /\
     forall i, (i < 5)%nat -> take 5 items !! i = items !! i) /\
  (truthy ed = false -> page w' = loaded sd (VArr []) metrics).
Proof.
  intros H1 H2 H3. cbv zeta.
  rewrite (fetchAll_loaded (fresh Dashboard.initial b ans) _ _ _ _ _ _ H1 H2 H3).
  split.
  - intros items ->. split; [reflexivity |]. split.
    + apply length_take.
    + intros i Hi. apply lookup_take_lt, Hi.
  - intros Hf. unfold js_or. rewrite Hf. reflexivity.
Qed.

Lemma dashboard_keeps_first_five_witness :
  serve (Server := scripted Cases.busy) get_stats tt = (Resolve Sample.stats_body, tt) /\
  serve (Server := scripted Cases.busy) get_events tt
    = (Resolve (VArr (map Cases.event_on [1; 2; 3; 4; 5; 6]%nat)), tt) /\
  serve (Server := scripted Cases.busy) get_metrics tt
    = (Resolve Sample.host_metrics, tt) /\
  page (after (H := scripted Cases.busy) (Dashboard.fetchAll (H := Reference.engine))
          (fresh (H := scripted Cases.busy) Dashboard.initial tt Sample.declines))
    = loaded Sample.stats_body (VArr (map Cases.event_on [1; 2; 3; 4; 5]%nat))
        Sample.host_metrics.
Proof.
  destruct (dashboard_keeps_first_five (H := Reference.engine) (H0 := scripted Cases.busy)
              tt tt tt tt Sample.declines Sample.stats_body
              (VArr (map Cases.event_on [1; 2; 3; 4; 5; 6]%nat))
              (Resolve Sample.host_metrics) eq_refl eq_refl eq_refl) as (Hlist & _).
  destruct (Hlist _ eq_refl) as (Hpage & _).
  split; [reflexivity |]. split; [reflexivity |]. split; [reflexivity |]. exact Hpage.
Defined.

(** X10: an /events body that is truthy but has no [slice] (an object, a
    number, [true]) makes the Dashboard fail as a whole, with the error
    "Failed to load dashboard data" and no events or metrics kept, although
    every request was answered; the stats body, stored before the slice
    was attempted, stays in the state. *)
Theorem dashboard_fails_on_events_object `{Platform} `{Server}
    (b b1 b2 b3 : store) (ans : string -> bool) (sd ed : value) (r3 : Response) :
  serve get_stats b = (Resolve sd, b1) ->
  serve get_events b1 = (Resolve ed, b2) ->
  serve get_metrics b2 = (r3, b3) ->
  truthy ed = true -> no_slice ed = true ->
  let w' := after Dashboard.fetchAll (fresh Dashboard.initial b ans) in
  page w' = {| Dashboard.stats := sd; Dashboard.loading := false;
               Dashboard.error := VStr "Failed to load dashboard data";
               Dashboard.events := VArr []; Dashboard.sysMetrics := VNull |} /\
  Dashboard.render (page w') = Ok (error_alert (VStr "Failed to load dashboard data")).
Proof.
  intros H1 H2 H3 Ht Hs. simpl.
  rewrite (fetchAll_loaded (fresh Dashboard.initial b ans) _ _ _ _ _ _ H1 H2 H3).
  unfold js_or. rewrite Ht.
  destruct ed; try discriminate Hs; simpl; split; reflexivity.
Qed.

Lemma dashboard_fails_on_events_object_witness :
  serve (Server := scripted Cases.wrapped) get_events tt
    = (Resolve (VObj [("events", VArr [Sample.update_event])]), tt) /\
  Dashboard.render (H := Reference.engine)
    (page (after (H := scripted Cases.wrapped) (Dashboard.fetchAll (H := Reference.engine))
             (fresh (H := scripted Cases.wrapped) Dashboard.initial tt Sample.declines)))
    = Ok (error_alert (VStr "Failed to load dashboard data")).
Proof.
  split; [reflexivity |].
  apply (dashboard_fails_on_events_object (H := Reference.engine)
           (H0 := scripted Cases.wrapped) tt tt tt tt Sample.declines Sample.stats_body
           (VObj [("events", VArr [Sample.update_event])]) (Resolve Sample.host_metrics)
           eq_refl eq_refl eq_refl eq_refl eq_refl).
Defined.

(** ** When rendering throws *)

Section Rendering.
Context `{Platform}.

Lemma hostHealth_result (sysMetrics : value) :
  nullish sysMetrics = false ->
  Dashboard.hostHealth sysMetrics =
    let summary := prop sysMetrics "summary" in
    if nullish summary then Throw (TypeError summary "os_kernel")
    else
      Ok (El "Box" [] [
        El "Typography" [] [Text "Host Health"];
        El "Grid" [] [
          Dashboard.metric_card "OS / Kernel" "Typography" (prop summary "os_kernel");
          Dashboard.metric_card "Uptime" "Typography" (prop summary "uptime");
          Dashboard.metric_card "Load Average" "Typography" (prop summary "loadavg");
          Dashboard.metric_card "Top Processes" "pre" (prop summary "processes_top");
          Dashboard.metric_card "Disk" "pre" (prop summary "disk");
          Dashboard.metric_card "Network" "pre" (prop summary "network")]]).
Proof.
  intros Hn. unfold Dashboard.hostHealth. rewrite (get_defined _ _ Hn). simpl.
  unfold get. destruct (nullish (prop sysMetrics "summary")); reflexivity.
Qed.

Lemma mapM_Ok {A B} (f : A -> result B) (l : list A) (ys : list B) :
  mapM f l = Ok ys <-> Forall2 (fun x y => f x = Ok y) l ys.
Proof.
  revert ys. induction l as [| x l IH]; intros ys.
  - split.
    + intros [= <-]. constructor.
    + intros Hall. inversion Hall. reflexivity.
  - change (mapM f (x :: l)) with (f x ≫= fun y => mapM f l ≫= fun k => mret (y :: k)).
    split.
    + destruct (f x) as [y | e] eqn:Hx; [| discriminate].
      destruct (mapM f l) as [k | e] eqn:Hl; [| discriminate].
      intros [= <-]. constructor; [exact Hx | apply IH; reflexivity].
    + intros Hall. inversion Hall as [| ? y ? k Hx Hrest]; subst.
      rewrite Hx. apply IH in Hrest. rewrite Hrest. reflexivity.
Qed.

Lemma mapM_Throw {A B} (f : A -> result B) (l : list A) (e : value) :
  mapM f l = Throw e -> exists x, x ∈ l /\ f x = Throw e.
Proof.
  induction l as [| x l IH]; [discriminate |].
  change (mapM f (x :: l)) with (f x ≫= fun y => mapM f l ≫= fun k => mret (y :: k)).
  destruct (f x) as [y | e'] eqn:Hx.
  - destruct (mapM f l) as [k | e'] eqn:Hl; [discriminate |].
    intros [= <-]. destruct (IH eq_refl) as (z & Hz & Hfz).
    exists z. split; [right; exact Hz | exact Hfz].
  - intros [= <-]. exists x. split; [left | exact Hx].
Qed.

(** The rows of [v.map(f)] correspond to the elements, in order. *)
Lemma Array_map_Ok {A} (f : nat -> value -> result A) (items : list value) (rows : list A) :
  Array_map f (VArr items) = Ok rows ->
  length rows = length items /\
  forall i row, rows !! i = Some row ->
    exists x, items !! i = Some x /\ f i x = Ok row.
Proof.
  unfold Array_map. intros Hm. apply mapM_Ok in Hm.
  pose proof (Forall2_length _ _ _ Hm) as Hlen.
  rewrite length_zip, length_seq, Nat.min_id in Hlen.
  split; [symmetry; exact Hlen |].
  intros i row Hrow.
  destruct (Forall2_lookup_r _ _ _ _ _ Hm Hrow) as ([j x] & Hjx & Hf).
  apply lookup_zip_Some in Hjx as [Hj Hx]. simpl in Hj, Hx.
  apply lookup_seq in Hj as [-> _]. exists x. split; [exact Hx | exact Hf].
Qed.

Lemma getEventTypeColor_ok (v : value) :
  (exists c, Events.getEventTypeColor v = Ok c) <->
  (nullish v = true \/ exists s, v = VStr s).
Proof.
  unfold Events.getEventTypeColor. destruct v; simpl; split;
    try (intros _; eauto; fail);
    try (intros (c & Hc); discriminate Hc);
    try (intros [Hn | (s' & Hs)]; discriminate).
Qed.

Lemma getStatusColor_ok (v : value) :
  (exists c, Assets.getStatusColor v = Ok c) <->
  (nullish v = true \/ exists s, v = VStr s).
Proof.
  unfold Assets.getStatusColor. destruct v; simpl; split;
    try (intros _; eauto; fail);
    try (intros (c & Hc); discriminate Hc);
    try (intros [Hn | (s' & Hs)]; discriminate).
Qed.

Lemma renderDetails_ok (ev : value) :
  nullish ev = false -> exists e, Events.renderDetails ev = Ok e.
Proof.
  intros Hn. unfold Events.renderDetails. rewrite !(get_defined _ _ Hn). simpl.
  destruct (truthy (prop ev "data")) eqn:Ht; simpl; [| eexists; reflexivity].
  unfold Object_keys.
  destruct (prop ev "data"); simpl in *; try discriminate; eexists; reflexivity.
Qed.

Lemma renderSystemMetrics_ok (ev : value) :
  nullish ev = false -> exists e, Events.renderSystemMetrics ev = Ok e.
Proof.
  intros Hn. unfold Events.renderSystemMetrics. rewrite !(get_defined _ _ Hn). simpl.
  eexists. reflexivity.
Qed.

Lemma item_ok (n i : nat) (ev : value) :
  (exists row, Events.item n i ev = Ok row) <-> chip_ready "event_type" ev.
Proof.
  unfold chip_ready. destruct (nullish ev) eqn:Hn.
  - split; [| intros [Hf _]; discriminate Hf].
    intros (row & Hrow). unfold Events.item, Events.eventTitle, get in Hrow.
    rewrite Hn in Hrow. discriminate Hrow.
  - unfold Events.item. rewrite (eventTitle_spec _ Hn), (get_defined _ _ Hn). simpl.
    rewrite <- getEventTypeColor_ok.
    destruct (Events.getEventTypeColor (prop ev "event_type")) as [c | e] eqn:Hc; simpl.
    + split; [intros _; split; [reflexivity | eauto] |]. intros _.
      destruct (strict_eq (prop ev "event_type") (VStr "system_metrics")).
      * destruct (renderSystemMetrics_ok ev Hn) as (sec & ->). simpl. eexists. reflexivity.
      * destruct (renderDetails_ok ev Hn) as (sec & ->). simpl. eexists. reflexivity.
    + split; [intros (row & Hrow); discriminate Hrow |].
      intros (_ & c & Hc'). discriminate Hc'.
Qed.

Lemma item_divider (n i : nat) (ev : value) (row : elem) :
  Events.item n i ev = Ok row ->
  has_divider row = (Z.of_nat i <? Z.of_nat n - 1)%Z.
Proof.
  unfold Events.item.
  destruct (Events.eventTitle ev); simpl; [| discriminate].
  destruct (get ev "event_type"); simpl; [| discriminate].
  destruct (Events.getEventTypeColor _); simpl; [| discriminate].
  destruct (if strict_eq _ _ then _ else _); simpl; [| discriminate].
  intros [= <-]. simpl. destruct (Z.of_nat i <? Z.of_nat n - 1)%Z; reflexivity.
Qed.

Lemma falsy_convertible (v : value) : truthy v = false -> convertible v = true.
Proof. destruct v; simpl; congruence. Qed.

Lemma new_Date_result (v : value) :
  new_Date v = if convertible v then Ok (LocaleDate v) else Throw (TypeError v "toString").
Proof. unfold new_Date, ToPrimitive. destruct (convertible v); reflexivity. Qed.

Lemma row_ok (asset : value) :
  (exists r, Assets.row asset = Ok r) <-> row_ready asset.
Proof.
  unfold row_ready, chip_ready, fields_convert, Assets.row.
  destruct (nullish asset) eqn:Hn.
  - unfold get. rewrite Hn. split; [intros (r & Hr); discriminate Hr |].
    intros [[Hf _] _]. discriminate Hf.
  - rewrite !(get_defined _ _ Hn). simpl. rewrite <- getStatusColor_ok.
    rewrite new_Date_result. unfold ToPrimitive.
    destruct (Assets.getStatusColor (prop asset "status")) as [c | e]; simpl.
    + destruct (convertible (prop asset "last_updated")); simpl.
      * destruct (convertible (prop asset "id")); simpl.
        -- split; [intros _; split; [split; [reflexivity | eauto] | reflexivity] |].
           intros _. eexists. reflexivity.
        -- split; [intros (r & Hr); discriminate Hr | intros [_ Hf]; discriminate Hf].
      * split; [intros (r & Hr); discriminate Hr | intros [_ Hf]; discriminate Hf].
    + split; [intros (r & Hr); discriminate Hr |].
      intros [(_ & c & Hc) _]. discriminate Hc.
Qed.

End Rendering.

(** X11: with [available] truthy in the stored metrics, the Dashboard
    reads [summary.os_kernel] and the other fields without a guard: a
    metrics body that has no [summary] makes rendering throw a TypeError,
    and the host-health block is built exactly when [summary] is there. *)
Theorem host_health_needs_summary `{Platform} (s : Dashboard.State) :
  Dashboard.loading s = false ->
  truthy (Dashboard.error s) = false ->
  truthy (opt_get (Dashboard.sysMetrics s) "available") = true ->
  let summary := prop (Dashboard.sysMetrics s) "summary" in
  ((exists host, Dashboard.hostHealth (Dashboard.sysMetrics s) = Ok host) <->
   nullish summary = false) /\
  (nullish summary = true ->
   Dashboard.render s = Throw (TypeError summary "os_kernel")).
Proof.
  intros Hl He Ha summary. subst summary.
  pose proof (opt_get_truthy _ _ Ha) as Hn.
  split.
  - rewrite (hostHealth_result _ Hn). cbv zeta.
    destruct (nullish (prop (Dashboard.sysMetrics s) "summary")).
    + split; [intros (host & Hh); discriminate Hh | discriminate].
    + split; [reflexivity | intros _; eexists; reflexivity].
  - intros Hs. unfold Dashboard.render. rewrite Hl, He, Ha.
    rewrite (hostHealth_result _ Hn). cbv zeta. rewrite Hs. reflexivity.
Qed.

Lemma host_health_needs_summary_witness :
  truthy (opt_get (Dashboard.sysMetrics Cases.no_summary) "available") = true /\
  Dashboard.render (H := Reference.engine) Cases.no_summary
    = Throw (TypeError (H := Reference.engine) VUndefined "os_kernel").
Proof.
  split; [reflexivity |].
  apply (host_health_needs_summary (H := Reference.engine) Cases.no_summary
           eq_refl eq_refl eq_refl).
  reflexivity.
Defined.

(** X12: the Stats component can throw in one place only, the
    [new Date(stats.last_processed)] of the "Last processed" line: once
    loaded without error it returns its element tree exactly when
    [last_processed] converts to a primitive (which every falsy value,
    text, number and boolean does), whatever else the body of /stats was
    (an object, [null], a text, a list, with [events_by_type] of any
    kind); otherwise it throws the TypeError of that conversion.  While
    loading, or with an error set, it always returns. *)
Theorem stats_page_renders `{Platform} (s : Stats.State) :
  let last := opt_get (Stats.stats s) "last_processed" in
  ((exists tree, Stats.render s = Ok tree) <->
   (Stats.loading s = true \/ truthy (Stats.error s) = true \/ convertible last = true)) /\
  (Stats.loading s = false -> truthy (Stats.error s) = false -> convertible last = false ->
   Stats.render s = Throw (TypeError last "toString")).
Proof.
  intros last. subst last. unfold Stats.render.
  destruct (Stats.loading s).
  { split; [split; [auto | intros _; eexists; reflexivity] | discriminate]. }
  destruct (truthy (Stats.error s)).
  { split; [split; [auto | intros _; eexists; reflexivity] | discriminate]. }
  destruct (chartData_entries (Stats.stats s)) as (entries & _ & Hc & Hn).
  rewrite Hc, Hn. simpl.
  destruct (truthy (opt_get (Stats.stats s) "last_processed")) eqn:Ht.
  - rewrite new_Date_result.
    destruct (convertible (opt_get (Stats.stats s) "last_processed")); simpl.
    + split; [split; [auto | intros _; eexists; reflexivity] | discriminate].
    + split; [| reflexivity].
      split; [intros (tree & Hr); discriminate Hr |].
      intros [Hf | [Hf | Hf]]; discriminate Hf.
  - rewrite (falsy_convertible _ Ht). simpl.
    split; [split; [auto | intros _; eexists; reflexivity] | discriminate].
Qed.

Lemma stats_page_renders_witness :
  convertible (opt_get Sample.stats_body "last_processed") = true /\
  (exists tree,
     Stats.render (H := Reference.engine) (Cases.stats_page Sample.stats_body) = Ok tree) /\
  convertible (opt_get (VObj [("last_processed", Cases.opaque)]) "last_processed") = false /\
  Stats.render (H := Reference.engine)
    (Cases.stats_page (VObj [("last_processed", Cases.opaque)]))
  = Throw (TypeError (H := Reference.engine) Cases.opaque "toString").
Proof.
  destruct (stats_page_renders (H := Reference.engine)
              (Cases.stats_page Sample.stats_body)) as (Hiff & _).
  destruct (stats_page_renders (H := Reference.engine)
              (Cases.stats_page (VObj [("last_processed", Cases.opaque)])))
    as (_ & Hthrows).
  split; [reflexivity |].
  split; [apply Hiff; right; right; reflexivity |].
  split; [reflexivity |].
  apply (Hthrows eq_refl eq_refl eq_refl).
Defined.

(** X13: once loaded without error, and given a list of events whose
    [asset_id] and [timestamp] convert to a primitive (so that the title
    and the date of a row can be built), the Events component returns its
    element tree exactly when every record is there (not [null]) and has
    an [event_type] that is a text or missing; otherwise it throws.  A
    tree it returns shows one row per record, in order, with a divider
    after every row but the last, and the text "No events found" for the
    empty list.  A [null] body from /events makes it throw. *)
Theorem events_page_rows `{Platform} (s : Events.State) :
  Events.loading s = false ->
  truthy (Events.error s) = false ->
  (forall items, Events.events s = VArr items ->
     (Forall (fun ev => fields_convert ["asset_id"; "timestamp"] ev = true) items ->
      ((exists tree, Events.render s = Ok tree) <->
       Forall (chip_ready "event_type") items)) /\
     (items = [] ->
      Events.render s =
        Ok (El "Box" [] [El "Typography" [] [Text "Events"];
                         El "Paper" [] [El "Box" [] [El "Typography" []
                                                       [Text "No events found"]]]])) /\
     (items <> [] -> forall tree, Events.render s = Ok tree ->
      exists rows,
        tree = El "Box" [] [El "Typography" [] [Text "Events"];
                            El "Paper" [] [El "List" [] rows]] /\
        length rows = length items /\
        forall i row, rows !! i = Some row ->
          (exists ev, items !! i = Some ev /\ Events.item (length items) i ev = Ok row) /\
          has_divider row = bool_decide (i + 1 < length items)%nat)) /\
  (nullish (Events.events s) = true ->
   Events.render s = Throw (TypeError (Events.events s) "length")).
Proof.
  intros Hl He. split.
  - intros items Hitems. unfold Events.render. rewrite Hl, He, Hitems.
    rewrite (get_defined (VArr items) "length" eq_refl).
    change (prop (VArr items) "length") with (VNum (of_nat (length items))).
    unfold mbind at 1, result_bind at 1. cbv beta iota.
    rewrite length_is_zero. unfold array_length.
    destruct items as [| ev items'].
    + simpl. split; [intros _; split; [constructor | eexists; reflexivity] |].
      split; [reflexivity | congruence].
    + set (items := ev :: items'). change (length items =? 0)%nat with false. cbv iota.
      destruct (Array_map (Events.item (length items)) (VArr items)) as [rows | e] eqn:Hm.
      * split; [| split; [discriminate |]].
        -- intros _. split; [intros _ | intros _; eexists; reflexivity].
           destruct (Array_map_Ok _ _ _ Hm) as (Hlen & Hrows).
           apply Forall_lookup. intros i x Hx.
           destruct (lookup_lt_is_Some_2 rows i) as (row & Hrow).
           { rewrite Hlen. apply lookup_lt_Some in Hx. exact Hx. }
           destruct (Hrows i row Hrow) as (x' & Hx' & Hitem).
           rewrite Hx in Hx'. injection Hx' as <-.
           apply (item_ok (length items) i). eauto.
        -- intros _ tree. simpl. intros [= <-]. exists rows.
           destruct (Array_map_Ok _ _ _ Hm) as (Hlen & Hrows).
           split; [reflexivity |]. split; [exact Hlen |].
           intros i row Hrow. destruct (Hrows i row Hrow) as (x & Hx & Hitem).
           split; [eauto |]. rewrite (item_divider _ _ _ _ Hitem).
           subst items. cbn [length]. generalize (length items'). intros n.
           case_bool_decide; [apply Z.ltb_lt | apply Z.ltb_ge]; lia.
      * split; [| split; [discriminate | intros _ tree Hr; discriminate Hr]].
        intros _. split; [intros (tree & Hr); discriminate Hr |].
        intros Hall. exfalso. unfold Array_map in Hm.
        apply mapM_Throw in Hm as ([i x] & Hin & Hthrow).
        apply elem_of_zip_r in Hin.
        rewrite Forall_forall in Hall. specialize (Hall x Hin).
        apply (item_ok (length items) i) in Hall as (row & Hrow). congruence.
  - intros Hn. unfold Events.render, get. rewrite Hl, He, Hn. reflexivity.
Qed.

Lemma events_page_rows_witness :
  Events.loading Cases.two_events = false /\
  truthy (Events.error Cases.two_events) = false /\
  Forall (fun ev => fields_convert ["asset_id"; "timestamp"] ev = true)
    [Sample.metrics_event; Sample.update_event] /\
  exists rows,
    Events.render (H := Reference.engine) Cases.two_events
      = Ok (El "Box" [] [El "Typography" [] [Text "Events"];
                         El "Paper" [] [El "List" [] rows]]) /\
    length rows = 2%nat /\
    map has_divider rows = [true; false].
Proof.
  destruct (events_page_rows (H := Reference.engine) Cases.two_events eq_refl eq_refl)
    as (Hlist & _).
  assert (Forall (fun ev => fields_convert ["asset_id"; "timestamp"] ev = true)
            [Sample.metrics_event; Sample.update_event]) as Hconv
    by (repeat constructor).
  destruct (Hlist _ eq_refl) as (Hiff & _ & Hrows).
  destruct (Hiff Hconv) as (_ & Hrenders).
  destruct Hrenders as (tree & Htree).
  { repeat (constructor; [split; [reflexivity | right; eexists; reflexivity] |]);
    constructor. }
  destruct (Hrows ltac:(discriminate) tree Htree) as (rows & -> & Hlen & Hrow).
  split; [reflexivity |]. split; [reflexivity |]. split; [exact Hconv |].
  exists rows. split; [exact Htree |]. split; [exact Hlen |].
  destruct rows as [| r1 [| r2 [| r3 rows]]]; try discriminate Hlen.
  destruct (Hrow 0%nat r1 eq_refl) as (_ & H1).
  destruct (Hrow 1%nat r2 eq_refl) as (_ & H2).
  cbn [map]. rewrite H1, H2. reflexivity.
Defined.

(** X14: once loaded without error, the Assets component returns its
    element tree exactly when every asset of the list is there (not
    [null]), has a [status] that is a text or missing, a [last_updated]
    that converts to a primitive (for [new Date]) and an [id] that does
    (for the key of the row); otherwise it throws.  The table of a tree
    it returns has one row per asset, in the order of the list, or the
    single row "No assets found" for the empty list.  A [null] body from
    /assets makes it throw. *)
Theorem assets_table_rows `{Platform} (s : Assets.State) :
  Assets.loading s = false ->
  truthy (Assets.error s) = false ->
  (forall items, Assets.assets s = VArr items ->
     ((exists tree, Assets.render s = Ok tree) <-> Forall row_ready items) /\
     (forall tree, Assets.render s = Ok tree ->
      exists body,
        tree = El "Box" [] [
          El "Typography" [] [Text "Assets"];
          El "Box" [] [El "Button" [("onClick", Assets.bound "openAdd" [])]
                         [Text "Add Asset"]];
          El "TableContainer" [] [El "Table" [] [Assets.table_head;
                                                 El "TableBody" [] body]];
          Assets.view_dialog s;
          Assets.form_dialog s] /\
        (items = [] ->
         body = [El "TableRow" [] [El "TableCell" []
                   [El "Typography" [] [Text "No assets found"]]]]) /\
        (items <> [] ->
         length body = length items /\
         forall i r, body !! i = Some r ->
           exists asset, items !! i = Some asset /\ Assets.row asset = Ok r))) /\
  (nullish (Assets.assets s) = true ->
   Assets.render s = Throw (TypeError (Assets.assets s) "length")).
Proof.
  intros Hl He. split.
  - intros items Hitems. unfold Assets.render. rewrite Hl, He, Hitems.
    rewrite (get_defined (VArr items) "length" eq_refl).
    change (prop (VArr items) "length") with (VNum (of_nat (length items))).
    unfold mbind at 1, result_bind at 1. cbv beta iota.
    rewrite length_is_zero.
    destruct items as [| a items'].
    + simpl. split; [split; [constructor | eexists; reflexivity] |].
      intros tree [= <-]. eexists. split; [reflexivity |]. split; [reflexivity | congruence].
    + set (items := a :: items'). change (length items =? 0)%nat with false. cbv iota.
      destruct (Array_map (fun _ asset => Assets.row asset) (VArr items))
        as [rows | e] eqn:Hm.
      * destruct (Array_map_Ok _ _ _ Hm) as (Hlen & Hrows). split.
        -- split; [intros _ | intros _; eexists; reflexivity].
           apply Forall_lookup. intros i x Hx.
           destruct (lookup_lt_is_Some_2 rows i) as (r & Hr).
           { rewrite Hlen. apply lookup_lt_Some in Hx. exact Hx. }
           destruct (Hrows i r Hr) as (x' & Hx' & Hrow).
           rewrite Hx in Hx'. injection Hx' as <-.
           apply row_ok. eauto.
        -- intros tree. simpl. intros [= <-]. exists rows.
           split; [reflexivity |]. split; [discriminate |].
           intros _. split; [exact Hlen | exact Hrows].
      * split; [| intros tree Hr; discriminate Hr].
        split; [intros (tree & Hr); discriminate Hr |].
        intros Hall. exfalso. unfold Array_map in Hm.
        apply mapM_Throw in Hm as ([i x] & Hin & Hthrow).
        apply elem_of_zip_r in Hin.
        rewrite Forall_forall in Hall. specialize (Hall x Hin).
        apply row_ok in Hall as (r & Hr). congruence.
  - intros Hn. unfold Assets.render, get. rewrite Hl, He, Hn. reflexivity.
Qed.

Lemma assets_table_rows_witness :
  Assets.loading Sample.listing = false /\
  truthy (Assets.error Sample.listing) = false /\
  (exists tree, Assets.render (H := Reference.engine) Sample.listing = Ok tree) /\
  ~ (exists tree,
       Assets.render (H := Reference.engine)
         (Cases.assets_page [Sample.pump; Cases.undated]) = Ok tree).
Proof.
  destruct (assets_table_rows (H := Reference.engine) Sample.listing eq_refl eq_refl)
    as (Hlist & _).
  destruct (Hlist _ eq_refl) as ((_ & Hrenders) & _).
  destruct (assets_table_rows (H := Reference.engine)
              (Cases.assets_page [Sample.pump; Cases.undated]) eq_refl eq_refl)
    as (Hlist' & _).
  destruct (Hlist' _ eq_refl) as ((Hready & _) & _).
  split; [reflexivity |]. split; [reflexivity |]. split.
  - apply Hrenders.
    repeat (constructor;
            [split; [split; [reflexivity | right; eexists; reflexivity] | reflexivity] |]);
    constructor.
  - intros Hr. apply Hready in Hr.
    apply Forall_cons in Hr as [_ Hr]. apply Forall_cons in Hr as [[_ Hundated] _].
    discriminate Hundated.
Defined.

(** X15: given kept events whose [asset_id], [node_id] and [timestamp]
    convert to a primitive (so that the title and the secondary line of a
    row can be built), the recent activity of the Dashboard is built
    exactly when none of the kept events is [null] or [undefined],
    whatever the kind of their [event_type] (its chip has no colour to
    compute); what is built shows one row per kept event, or "No recent
    events" for the empty list. *)
Theorem recent_activity_rows `{Platform} (items : list value) :
  (Forall (fun ev => fields_convert ["asset_id"; "node_id"; "timestamp"] ev = true) items ->
   ((exists tree, Dashboard.recentActivity (VArr items) = Ok tree) <->
    Forall (fun ev => nullish ev = false) items)) /\
  (items = [] ->
   Dashboard.recentActivity (VArr items) =
     Ok (El "Box" [] [El "Typography" [] [Text "Recent Activity"];
                      El "Card" [] [El "CardContent" []
                                      [El "Typography" [] [Text "No recent events"]]]])) /\
  (items <> [] -> forall tree, Dashboard.recentActivity (VArr items) = Ok tree ->
   exists rows,
     tree = El "Box" [] [El "Typography" [] [Text "Recent Activity"];
                         El "Card" [] [El "CardContent" [] [El "List" [] rows]]] /\
     length rows = length items /\
     forall i row, rows !! i = Some row ->
       exists ev, items !! i = Some ev /\ Dashboard.recentItem (length items) i ev = Ok row).
Proof.
  unfold Dashboard.recentActivity.
  rewrite (get_defined (VArr items) "length" eq_refl).
  change (prop (VArr items) "length") with (VNum (of_nat (length items))).
  unfold mbind at 1, result_bind at 1. cbv beta iota.
  rewrite length_is_zero. unfold array_length.
  destruct items as [| ev items'].
  - simpl. split; [intros _; split; [constructor | eexists; reflexivity] |].
    split; [reflexivity | congruence].
  - set (items := ev :: items'). change (length items =? 0)%nat with false. cbv iota.
    destruct (Array_map (Dashboard.recentItem (length items)) (VArr items))
      as [rows | e] eqn:Hm.
    + destruct (Array_map_Ok _ _ _ Hm) as (Hlen & Hrows).
      split; [| split; [discriminate |]].
      * intros _. split; [intros _ | intros _; eexists; reflexivity].
        apply Forall_lookup. intros i x Hx.
        destruct (lookup_lt_is_Some_2 rows i) as (row & Hrow).
        { rewrite Hlen. apply lookup_lt_Some in Hx. exact Hx. }
        destruct (Hrows i row Hrow) as (x' & Hx' & Hitem).
        rewrite Hx in Hx'. injection Hx' as <-.
        destruct (nullish x) eqn:Hn; [| reflexivity].
        unfold Dashboard.recentItem, Dashboard.eventTitle, get in Hitem.
        rewrite Hn in Hitem. discriminate Hitem.
      * intros _ tree. simpl. intros [= <-]. exists rows. auto.
    + split; [| split; [discriminate | intros _ tree Hr; discriminate Hr]].
      intros _. split; [intros (tree & Hr); discriminate Hr |].
      intros Hall. exfalso. unfold Array_map in Hm.
      apply mapM_Throw in Hm as ([i x] & Hin & Hthrow).
      apply elem_of_zip_r in Hin.
      rewrite Forall_forall in Hall. specialize (Hall x Hin).
      destruct (recentItem_ok (length items) i x Hall) as (row & Hrow). congruence.
Qed.

Lemma recent_activity_rows_witness :
  Forall (fun ev => fields_convert ["asset_id"; "node_id"; "timestamp"] ev = true)
    [Sample.metrics_event; Sample.update_event] /\
  exists rows,
    Dashboard.recentActivity (H := Reference.engine)
      (VArr [Sample.metrics_event; Sample.update_event])
      = Ok (El "Box" [] [El "Typography" [] [Text "Recent Activity"];
                         El "Card" [] [El "CardContent" [] [El "List" [] rows]]]) /\
    length rows = 2%nat.
Proof.
  assert (Forall (fun ev => fields_convert ["asset_id"; "node_id"; "timestamp"] ev = true)
            [Sample.metrics_event; Sample.update_event]) as Hconv
    by (repeat constructor).
  destruct (recent_activity_rows (H := Reference.engine)
              [Sample.metrics_event; Sample.update_event]) as (Hiff & _ & Hrows).
  destruct (Hiff Hconv) as (_ & Hrenders).
  destruct Hrenders as (tree & Htree); [repeat constructor |].
  destruct (Hrows ltac:(discriminate) tree Htree) as (rows & -> & Hlen & _).
  split; [exact Hconv |].
  exists rows. split; [exact Htree | exact Hlen].
Defined.

(** X16: the colour of a status chip and of an event-type chip depends
    on the text only through its lower-case form, so two texts that
    differ in case get the same colour; a missing value gets "default"
    without any call; the result is always one of the colours of the
    component; and a value that is neither a text nor missing makes the
    function throw. *)
Theorem chip_colours `{Platform} (v : value) :
  (nullish v = true ->
   Assets.getStatusColor v = Ok "default" /\ Events.getEventTypeColor v = Ok "default") /\
  (forall s s', v = VStr s -> toLowerCase s' = toLowerCase s ->
     Assets.getStatusColor (VStr s') = Assets.getStatusColor v /\
     Events.getEventTypeColor (VStr s') = Events.getEventTypeColor v) /\
  (forall c, Assets.getStatusColor v = Ok c ->
     c ∈ ["success"; "error"; "warning"; "default"]) /\
  (forall c, Events.getEventTypeColor v = Ok c ->
     c ∈ ["success"; "info"; "error"; "warning"; "primary"; "default"]) /\
  (nullish v = false -> (forall s, v <> VStr s) ->
   Assets.getStatusColor v = Throw (TypeError v "toLowerCase") /\
   Events.getEventTypeColor v = Throw (TypeError v "toLowerCase")).
Proof.
  unfold Assets.getStatusColor, Events.getEventTypeColor.
  split; [intros ->; split; reflexivity |].
  split; [intros s s' -> Hlow; simpl; rewrite Hlow; split; reflexivity |].
  split; [| split].
  - destruct v; simpl; try (intros c [= <-]; set_solver); try discriminate.
    intros c [= <-].
    repeat (destruct (String.eqb _ _); [set_solver |]). set_solver.
  - destruct v; simpl; try (intros c [= <-]; set_solver); try discriminate.
    intros c [= <-].
    repeat (destruct (String.eqb _ _); [set_solver |]). set_solver.
  - intros Hn Hs. rewrite Hn.
    destruct v; try discriminate Hn; try (split; reflexivity).
    exfalso. apply (Hs s). reflexivity.
Qed.

Lemma chip_colours_witness :
  toLowerCase (Platform := Reference.engine) "ACTIVE"
    = toLowerCase (Platform := Reference.engine) "Active" /\
  Assets.getStatusColor (H := Reference.engine) (VStr "ACTIVE")
    = Assets.getStatusColor (H := Reference.engine) (VStr "Active") /\
  Assets.getStatusColor (H := Reference.engine) (VNum (of_nat 1))
    = Throw (TypeError (H := Reference.engine) (VNum (of_nat 1)) "toLowerCase").
Proof.
  destruct (chip_colours (H := Reference.engine) (VStr "Active")) as (_ & Hcase & _).
  destruct (chip_colours (H := Reference.engine) (VNum (of_nat 1)))
    as (_ & _ & _ & _ & Hthrows).
  split; [reflexivity |].
  split; [apply (Hcase "Active" "ACTIVE" eq_refl eq_refl) |].
  apply Hthrows; [reflexivity | discriminate].
Defined.

(** X17: a confirmed delete whose DELETE is accepted switches the page to
    loading and reloads the list with one GET of /assets, which ends the
    loading state again; the dialogs, the selection and the form are not
    touched.  If the reload is rejected the page ends with the error
    "Failed to load assets" and the old list, the deleted asset included. *)
Theorem accepted_delete_reloads `{Platform} `{Server}
    (asset : value) (s : Assets.State) (b b1 b2 : store) (ans : string -> bool)
    (data : value) (rsp : Response) :
  nullish asset = false ->
  ans (delete_prompt asset) = true ->
  serve (delete_request asset) b = (Resolve data, b1) ->
  serve get_assets b1 = (rsp, b2) ->
  let w' := after (Assets.handleDelete asset) (fresh s b ans) in
  requests (trace w') = [delete_request asset; get_assets] /\
  backend w' = b2 /\
  page w' =
    match rsp with
    | Resolve listed => Assets.setLoading false (Assets.setAssets listed s)
    | Reject _ =>
        Assets.setLoading false (Assets.setError (VStr "Failed to load assets") s)
    end.
Proof.
  intros Hn Ha Hd Hg. unfold after.
  rewrite (handleDelete_confirmed asset (fresh s b ans) Hn Ha). simpl. rewrite Hd.
  rewrite fetchAssets_run. simpl. rewrite Hg. destruct rsp; simpl; auto.
Qed.

Lemma accepted_delete_reloads_witness :
  Sample.agrees (delete_prompt (H := Reference.engine) Sample.pump) = true /\
  serve (Server := scripted Sample.accepting)
    (delete_request (H := Reference.engine) Sample.pump) tt = (Resolve (VArr []), tt) /\
  let w' := after (H := scripted Sample.accepting)
              (Assets.handleDelete (H := Reference.engine) Sample.pump)
              (fresh (H := scripted Sample.accepting) Sample.listing tt Sample.agrees) in
  requests (trace w')
    = [{| req_method := DELETE; req_url := "/api/assets/5"; req_body := None |};
       get_assets] /\
  backend w' = tt /\
  page w' = Assets.setLoading false (Assets.setAssets (VArr []) Sample.listing).
Proof.
  split; [reflexivity |]. split; [reflexivity |].
  apply (accepted_delete_reloads (H := Reference.engine) (H0 := scripted Sample.accepting)
           Sample.pump Sample.listing tt tt tt Sample.agrees (VArr []) (Resolve (VArr []))
           eq_refl eq_refl eq_refl eq_refl).
Defined.

(** X18: the title of an event that is not a system_metrics one is built
    from [asset_id] without a guard: when the event has no [asset_id]
    the title reads "Asset: undefined", and "Asset: null" when it is
    [null], on the Events page and on the Dashboard alike. *)
Theorem missing_asset_id_title `{Platform} (ev : value) :
  nullish ev = false ->
  prop ev "event_type" <> VStr "system_metrics" ->
  (prop ev "asset_id" = VUndefined ->
   Events.eventTitle ev = Ok "Asset: undefined" /\
   Dashboard.eventTitle ev = Ok "Asset: undefined") /\
  (prop ev "asset_id" = VNull ->
   Events.eventTitle ev = Ok "Asset: null" /\
   Dashboard.eventTitle ev = Ok "Asset: null").
Proof.
  intros Hn Ht. change (Dashboard.eventTitle ev) with (Events.eventTitle ev).
  rewrite (eventTitle_spec _ Hn).
  destruct (strict_eq (prop ev "event_type") (VStr "system_metrics")) eqn:E.
  { apply strict_eq_string in E. contradiction. }
  split; intros ->; split; reflexivity.
Qed.

Lemma missing_asset_id_title_witness :
  nullish Cases.maintenance = false /\
  prop Cases.maintenance "event_type" <> VStr "system_metrics" /\
  prop Cases.maintenance "asset_id" = VUndefined /\
  Events.eventTitle (H := Reference.engine) Cases.maintenance = Ok "Asset: undefined" /\
  Dashboard.eventTitle (H := Reference.engine) Cases.maintenance = Ok "Asset: undefined".
Proof.
  assert (prop Cases.maintenance "event_type" <> VStr "system_metrics") as Hne
    by (simpl; discriminate).
  destruct (missing_asset_id_title (H := Reference.engine) Cases.maintenance eq_refl Hne)
    as (Hmissing & _).
  split; [reflexivity |]. split; [exact Hne |]. split; [reflexivity |].
  apply Hmissing. reflexivity.
Defined.
